(** * Servo / input state engine of the controller repository

    A shallow embedding of the modular variant of the servo controller
    ([config.py], [hardware.py], [controller_input.py], [web_interface.py],
    the update thread of [main.py]) together with the properties of its
    state engine, of its handlers and of its start-up.

    Python values are modelled as follows.
    - [int] is [Z] (unbounded).
    - [float] is an IEEE 754 binary64 number, [spec_float] with precision 53
      and maximal exponent 1024; the operations are those of
      [SpecFloat], rounding to nearest, ties to even.
    - the module-level dictionaries keyed by channel are [gmap Z _]; a
      subscript on a missing key raises [KeyError].
    - exceptions are an explicit outcome; functions that read or write the
      module globals are computations in a state-and-exception monad that
      keeps the state reached when the exception was raised. *)

From Stdlib Require Import ZArith Lia Bool List String QArith Qround SpecFloat.
From stdpp Require Import base option list gmap.

Local Open Scope Z_scope.

(** ** Python exceptions and outcomes *)

Module Py.

Inductive exn :=
| KeyError
| OverflowError
| ValueError
| ZeroDivisionError
| TypeError
| OSError.

Inductive outcome (A : Type) :=
| Ret (a : A)
| Raise (e : exn).
Arguments Ret {A} a.
Arguments Raise {A} e.

Definition obind {A B} (o : outcome A) (k : A -> outcome B) : outcome B :=
  match o with
  | Ret a => k a
  | Raise e => Raise e
  end.

(** Computations over a store [S]: the store is threaded through, and is
    still there after an exception. *)
Definition M (S A : Type) := S -> outcome A * S.

Definition ret {S A} (a : A) : M S A := fun s => (Ret a, s).
Definition raise {S A} (e : exn) : M S A := fun s => (Raise e, s).
Definition bind {S A B} (m : M S A) (k : A -> M S B) : M S B :=
  fun s => match m s with
           | (Ret a, s') => k a s'
           | (Raise e, s') => (Raise e, s')
           end.
Definition lift {S A} (o : outcome A) : M S A := fun s => (o, s).
Definition gets {S A} (f : S -> A) : M S A := fun s => (Ret (f s), s).
Definition modify {S} (f : S -> S) : M S unit := fun s => (Ret tt, f s).

(** [try: body except Exception as e: handler e] *)
Definition try_except {S A} (body : M S A) (handler : exn -> M S A) : M S A :=
  fun s => match body s with
           | (Ret a, s') => (Ret a, s')
           | (Raise e, s') => handler e s'
           end.

(** [for x in xs: body x] *)
Fixpoint for_each {S X} (xs : list X) (body : X -> M S unit) : M S unit :=
  match xs with
  | [] => ret tt
  | x :: rest => bind (body x) (fun _ => for_each rest body)
  end.

(** The store after running a computation, whatever its outcome. *)
Definition exec {S A} (m : M S A) (s : S) : S := snd (m s).
Definition result {S A} (m : M S A) (s : S) : outcome A := fst (m s).

Definition returns {A} (o : outcome A) : bool :=
  match o with
  | Ret _ => true
  | Raise _ => false
  end.

(** [d[k]] on a dictionary. *)
Definition getitem {V} (d : gmap Z V) (k : Z) : outcome V :=
  match d !! k with
  | Some v => Ret v
  | None => Raise KeyError
  end.

End Py.

Notation "'do' x <- c ;; k" := (Py.bind c (fun x => k))
  (at level 10, x name, c at level 99, k at level 200).
Notation "'run' c ;; k" := (Py.bind c (fun _ => k))
  (at level 10, c at level 99, k at level 200).

(** ** Python floats (binary64) *)

Module PyFloat.

Definition float := spec_float.
Definition prec : Z := 53.
Definition emax : Z := 1024.

Definition fadd : float -> float -> float := SFadd prec emax.
Definition fsub : float -> float -> float := SFsub prec emax.
Definition fmul : float -> float -> float := SFmul prec emax.
Definition fdiv : float -> float -> float := SFdiv prec emax.
Definition fneg : float -> float := SFopp.

(** [a < b] and [a > b] on floats; false when either side is a NaN. *)
Definition flt (a b : float) : bool := SFltb a b.
Definition fgt (a b : float) : bool := SFltb b a.
Definition fle (a b : float) : bool := SFleb a b.

(** The integer [z] itself, as an unrounded mantissa with exponent 0. *)
Definition exact (z : Z) : float :=
  match z with
  | Z0 => S754_zero false
  | Zpos p => S754_finite false p 0
  | Zneg p => S754_finite true p 0
  end.

Definition is_finite (x : float) : bool :=
  match x with
  | S754_zero _ | S754_finite _ _ _ => true
  | _ => false
  end.

Definition checked (x : float) : Py.outcome float :=
  if is_finite x then Py.Ret x else Py.Raise Py.OverflowError.

(** [float(z)]: the nearest double, [OverflowError] beyond the range. *)
Definition of_int (z : Z) : Py.outcome float :=
  checked (binary_normalize prec emax z 0 false).

(** [a / b] on two ints: the correctly rounded quotient. *)
Definition int_truediv (a b : Z) : Py.outcome float :=
  if b =? 0 then Py.Raise Py.ZeroDivisionError
  else checked (fdiv (exact a) (exact b)).

(** A decimal literal [n/d] of the source text, rounded as the parser
    rounds it (to the nearest double). *)
Definition lit (n d : Z) : float := fdiv (exact n) (exact d).

(** [int(x)]: truncation toward zero. *)
Definition to_int (x : float) : Py.outcome Z :=
  match x with
  | S754_zero _ => Py.Ret 0
  | S754_finite s m e =>
      let a := match e with
               | Z0 => Zpos m
               | Zpos _ => Z.shiftl (Zpos m) e
               | Zneg p => Z.shiftr (Zpos m) (Zpos p)
               end in
      Py.Ret (if s then - a else a)
  | S754_infinity _ => Py.Raise Py.OverflowError
  | S754_nan => Py.Raise Py.ValueError
  end.

(** [max(a, b)] and [min(a, b)] on two arguments: the first one wins
    unless the second is strictly better. *)
Definition py_max (a b : float) : float := if fgt b a then b else a.
Definition py_min (a b : float) : float := if flt b a then b else a.

End PyFloat.

(** ** config.py *)

Module Config.

Definition SERVO_MIN : Z := 150.
Definition SERVO_MAX : Z := 600.
Definition SERVO_FREQ : Z := 50.
Definition SERVO_CHANNELS : list Z := [0; 1; 2; 3].

End Config.

(** ** hardware.py *)

Module Hardware.
Import Py PyFloat Config.

(** The direction strings "up", "down", "left", "right", "neutral". *)
Inductive direction := up | down | left | right | neutral.

Record xyz (A : Type) := XYZ { x : A; y : A; z : A }.
Arguments XYZ {A} x y z.
Arguments x {A} _.
Arguments y {A} _.
Arguments z {A} _.

(** The [mpu_data] dictionary. *)
Record snapshot := Snapshot {
  accel : xyz float;
  gyro : xyz float;
  temp : float;
  mpu_direction : xyz direction
}.

(** The module globals. [pwm] and [mpu] record whether a driver handle
    was saved by [detect_i2c_devices]; [pwm_writes] is the sequence of
    [pwm.set_pwm(channel, 0, pulse)] calls issued so far, latest first. *)
Record state := State {
  pca_connected : bool;
  mpu_connected : bool;
  pwm : bool;
  mpu : bool;
  servo_positions : gmap Z Z;
  servo_directions : gmap Z direction;
  hold_state : gmap Z bool;
  lock_state : bool;
  servo_speed : float;
  mpu_data : snapshot;
  pwm_writes : list (Z * Z)
}.

Definition set_servo_positions (f : gmap Z Z -> gmap Z Z) (s : state) : state :=
  State (pca_connected s) (mpu_connected s) (pwm s) (mpu s)
        (f (servo_positions s)) (servo_directions s) (hold_state s)
        (lock_state s) (servo_speed s) (mpu_data s) (pwm_writes s).

Definition set_servo_directions (f : gmap Z direction -> gmap Z direction)
    (s : state) : state :=
  State (pca_connected s) (mpu_connected s) (pwm s) (mpu s)
        (servo_positions s) (f (servo_directions s)) (hold_state s)
        (lock_state s) (servo_speed s) (mpu_data s) (pwm_writes s).

Definition set_hold_state (f : gmap Z bool -> gmap Z bool) (s : state) : state :=
  State (pca_connected s) (mpu_connected s) (pwm s) (mpu s)
        (servo_positions s) (servo_directions s) (f (hold_state s))
        (lock_state s) (servo_speed s) (mpu_data s) (pwm_writes s).

(** No function of this module assigns [lock_state]; the setter states
    what an assignment in the module's own scope would do. *)
Definition set_lock_state (b : bool) (s : state) : state :=
  State (pca_connected s) (mpu_connected s) (pwm s) (mpu s)
        (servo_positions s) (servo_directions s) (hold_state s)
        b (servo_speed s) (mpu_data s) (pwm_writes s).

Definition set_mpu_data (f : snapshot -> snapshot) (s : state) : state :=
  State (pca_connected s) (mpu_connected s) (pwm s) (mpu s)
        (servo_positions s) (servo_directions s) (hold_state s)
        (lock_state s) (servo_speed s) (f (mpu_data s)) (pwm_writes s).

Definition push_pwm_write (channel pulse : Z) (s : state) : state :=
  State (pca_connected s) (mpu_connected s) (pwm s) (mpu s)
        (servo_positions s) (servo_directions s) (hold_state s)
        (lock_state s) (servo_speed s) (mpu_data s)
        ((channel, pulse) :: pwm_writes s).

Definition all_channels {V} (v : V) : gmap Z V :=
  <[0 := v]> (<[1 := v]> (<[2 := v]> (<[3 := v]> ∅))).

Definition fzero : float := S754_zero false.

(** The globals as the module body leaves them, with the connection
    flags [detect_i2c_devices] found. *)
Definition initial (pca mpu_found : bool) : state :=
  State pca mpu_found pca mpu_found
        (all_channels 90) (all_channels neutral) (all_channels false)
        false (lit 1 1)
        (Snapshot (XYZ fzero fzero fzero) (XYZ fzero fzero fzero) fzero
                  (XYZ neutral neutral neutral))
        [].

Definition in_channels (channel : Z) : bool :=
  bool_decide (channel ∈ SERVO_CHANNELS).

Definition clamp (angle : Z) : Z := Z.max 0 (Z.min 180 angle).

(** [int(((value + 32767) / 65534) * 180)] *)
Definition joystick_to_angle (value : Z) : outcome Z :=
  obind (int_truediv (value + 32767) 65534) (fun q =>
  obind (of_int 180) (fun c =>
  to_int (fmul q c))).

(** [int(SERVO_MIN + (angle / 180.0) * (SERVO_MAX - SERVO_MIN))] on the
    constrained angle. *)
Definition angle_to_pwm (angle : Z) : outcome Z :=
  let angle := clamp angle in
  obind (of_int angle) (fun a =>
  obind (of_int (SERVO_MAX - SERVO_MIN)) (fun span =>
  obind (of_int SERVO_MIN) (fun lo =>
  to_int (fadd lo (fmul (fdiv a (lit 180 1)) span))))).

(** The "Update direction" block: the requested angle, as passed in, is
    compared with the stored position. *)
Definition direction_of (channel angle previous : Z) : direction :=
  if angle >? previous then
    (if bool_decide (channel ∈ [1; 2]) then up else right)
  else if angle <? previous then
    (if bool_decide (channel ∈ [1; 2]) then down else left)
  else neutral.

Definition set_servo_position (channel angle : Z) : M state bool :=
  if negb (in_channels channel) then ret false
  else
    do previous <- (fun s => lift (getitem (servo_positions s) channel) s) ;;
    run modify (set_servo_directions <[channel := direction_of channel angle previous]>) ;;
    let angle := clamp angle in
    do pulse <- lift (angle_to_pwm angle) ;;
    do connected <- gets (fun s => pca_connected s && pwm s) ;;
    run (if connected then modify (push_pwm_write channel pulse) else ret tt) ;;
    run modify (set_servo_positions <[channel := angle]>) ;;
    ret true.

Definition move_servo (channel value : Z) : M state (option (Z * Z)) :=
  do locked <- gets lock_state ;;
  do blocked <- (if locked then ret true
                 else fun s => lift (getitem (hold_state s) channel) s) ;;
  if blocked then ret None
  else
    do old_position <- (fun s => lift (getitem (servo_positions s) channel) s) ;;
    do angle <- lift (joystick_to_angle value) ;;
    run set_servo_position channel angle ;;
    ret (Some (old_position, angle)).

Fixpoint move_each (channels : list Z) (angle : Z)
    (results : gmap Z (Z * Z)) : M state (gmap Z (Z * Z)) :=
  match channels with
  | [] => ret results
  | channel :: rest =>
      do held <- (fun s => lift (getitem (hold_state s) channel) s) ;;
      if negb held then
        do old_position <- (fun s => lift (getitem (servo_positions s) channel) s) ;;
        run set_servo_position channel angle ;;
        move_each rest angle (<[channel := (old_position, angle)]> results)
      else move_each rest angle results
  end.

Definition move_all_servos (angle : Z) : M state (option (gmap Z (Z * Z))) :=
  do locked <- gets lock_state ;;
  if locked then ret None
  else
    do results <- move_each SERVO_CHANNELS angle ∅ ;;
    ret (Some results).

(** *** The sensor sampler *)

(** What the three queries of the MPU6050 driver answer during one tick:
    a reading, or an exception. *)
Record mpu_device := MpuDevice {
  get_accel_data : outcome (xyz float);
  get_gyro_data : outcome (xyz float);
  get_temp : outcome float
}.

(** What the simulation branch consults: the successive readings of
    [time.time()] within the tick, and the library's [math.sin] and
    [math.cos]. *)
Record sim_env := SimEnv {
  time_time : nat -> float;
  math_sin : float -> float;
  math_cos : float -> float
}.

(** What the C library's sine answers on the finite product
    [time.time() * 0.3]: a double within [-1.0, 1.0]. *)
Definition unit_range (v : float) : bool :=
  valid_binary prec emax v && fle (fneg (lit 1 1)) v && fle v (lit 1 1).

Definition with_accel (a : xyz float) (d : snapshot) : snapshot :=
  Snapshot a (gyro d) (temp d) (mpu_direction d).
Definition with_gyro (g : xyz float) (d : snapshot) : snapshot :=
  Snapshot (accel d) g (temp d) (mpu_direction d).
Definition with_temp (t : float) (d : snapshot) : snapshot :=
  Snapshot (accel d) (gyro d) t (mpu_direction d).
Definition with_direction (v : xyz direction) (d : snapshot) : snapshot :=
  Snapshot (accel d) (gyro d) (temp d) v.

(** ["right" if v > threshold else "left" if v < -threshold else "neutral"] *)
Definition classify (hi lo : direction) (v above below : float) : direction :=
  if fgt v above then hi else if flt v below then lo else neutral.

Definition directions (threshold : float) (a : xyz float) : xyz direction :=
  XYZ (classify right left (x a) threshold (fneg threshold))
      (classify up down (y a) threshold (fneg threshold))
      (classify up down (z a) (fadd (lit 98 10) threshold)
                              (fsub (lit 98 10) threshold)).

Definition simulated (env : sim_env) : snapshot -> snapshot :=
  fun d =>
    let ax := fmul (math_sin env (fmul (time_time env 0%nat) (lit 5 10))) (lit 5 10) in
    let ay := fmul (math_cos env (fmul (time_time env 1%nat) (lit 7 10))) (lit 5 10) in
    let az := fadd (lit 98 10)
                (fmul (math_sin env (fmul (time_time env 2%nat) (lit 3 10))) (lit 2 10)) in
    let gx := fmul (math_sin env (fmul (time_time env 3%nat) (lit 2 10))) (lit 2 1) in
    let gy := fmul (math_cos env (fmul (time_time env 4%nat) (lit 4 10))) (lit 2 1) in
    let gz := fmul (math_sin env (fmul (time_time env 5%nat) (lit 6 10))) (lit 2 1) in
    let t := fadd (lit 25 1)
               (fmul (math_sin env (fmul (time_time env 6%nat) (lit 1 10))) (lit 5 10)) in
    let threshold := lit 3 10 in
    Snapshot (XYZ ax ay az) (XYZ gx gy gz) t
             (directions threshold (XYZ ax ay az)).

Definition update_mpu_data (dev : mpu_device) (env : sim_env) : M state snapshot :=
  do real <- gets (fun s => mpu_connected s && mpu s) ;;
  run (if real then
         try_except
           (do accel_data <- lift (get_accel_data dev) ;;
            run modify (set_mpu_data (with_accel accel_data)) ;;
            do gyro_data <- lift (get_gyro_data dev) ;;
            run modify (set_mpu_data (with_gyro gyro_data)) ;;
            do t <- lift (get_temp dev) ;;
            run modify (set_mpu_data (with_temp t)) ;;
            let threshold := lit 5 10 in
            modify (set_mpu_data (with_direction (directions threshold accel_data))))
           (fun _ => ret tt)
       else modify (set_mpu_data (simulated env))) ;;
  gets mpu_data.

End Hardware.

(** ** controller_input.py *)

Module ControllerInput.
Import Py PyFloat.

(** The event type and code numbers of the Linux input layer that the
    handler names through [evdev.ecodes]. *)
Module ecodes.
Definition EV_KEY : Z := 1.
Definition EV_ABS : Z := 3.
Definition KEY_Q : Z := 16.
Definition BTN_SOUTH : Z := 304.
Definition BTN_EAST : Z := 305.
Definition BTN_NORTH : Z := 307.
Definition BTN_WEST : Z := 308.
Definition BTN_TL : Z := 310.
Definition BTN_TR : Z := 311.
Definition BTN_DPAD_UP : Z := 544.
Definition BTN_DPAD_DOWN : Z := 545.
Definition BTN_DPAD_LEFT : Z := 546.
Definition BTN_DPAD_RIGHT : Z := 547.
End ecodes.
Import ecodes.

(** An input event as the device delivers it, with its time stamp. *)
Record event := Event {
  sec : Z;
  usec : Z;
  type : Z;
  code : Z;
  value : Z
}.

Inductive kind := PS3 | PS | Xbox | Generic.

(** The lines the handler prints. *)
Inductive message :=
| SpeedDecreased (speed : float)
| SpeedIncreased (speed : float)
| ServosNow (locked : bool)
| PressAgainToExit
| PressedTwiceExiting
| ControllerError.

(** The module globals. [lock_state] and [servo_speed] are the names the
    statement [from hardware import ...] bound in this module when it was
    loaded: [global lock_state] in the handler designates this binding,
    and assigning to it leaves the variable of [hardware] as it was.
    [hold_state] names the dictionary object of [hardware] itself, and
    the handler changes it in place. *)
Record globals := Globals {
  controller_type : option kind;
  controller_connected : bool;
  q_pressed : bool;
  exit_flag : bool;
  lock_state : bool;
  servo_speed : float;
  console : list message
}.

Definition set_q_pressed (b : bool) (g : globals) : globals :=
  Globals (controller_type g) (controller_connected g) b (exit_flag g)
          (lock_state g) (servo_speed g) (console g).
Definition set_exit_flag (b : bool) (g : globals) : globals :=
  Globals (controller_type g) (controller_connected g) (q_pressed g) b
          (lock_state g) (servo_speed g) (console g).
Definition set_lock_state (b : bool) (g : globals) : globals :=
  Globals (controller_type g) (controller_connected g) (q_pressed g)
          (exit_flag g) b (servo_speed g) (console g).
Definition set_servo_speed (v : float) (g : globals) : globals :=
  Globals (controller_type g) (controller_connected g) (q_pressed g)
          (exit_flag g) (lock_state g) v (console g).
Definition print (m : message) (g : globals) : globals :=
  Globals (controller_type g) (controller_connected g) (q_pressed g)
          (exit_flag g) (lock_state g) (servo_speed g) (m :: console g).

(** The globals once the module is loaded (after [hardware]) and
    [find_game_controller] has found a device of kind [k]. *)
Definition loaded (k : option kind) (hw : Hardware.state) : globals :=
  Globals k (bool_decide (k ≠ None)) false false
          (Hardware.lock_state hw) (Hardware.servo_speed hw) [].

(** Both modules' globals. *)
Definition env : Type := Hardware.state * globals.

Definition hardware {A} (m : M Hardware.state A) : M env A :=
  fun '(hw, g) => let '(r, hw') := m hw in (r, (hw', g)).
Definition self {A} (f : globals -> A) : M env A :=
  fun '(hw, g) => (Ret (f g), (hw, g)).
Definition update (f : globals -> globals) : M env unit :=
  fun '(hw, g) => (Ret tt, (hw, f g)).

(** [hold_state[channel] = not hold_state[channel]] *)
Definition toggle_hold (channel : Z) : M env unit :=
  hardware
    (do held <- (fun s => lift (getitem (Hardware.hold_state s) channel) s) ;;
     modify (Hardware.set_hold_state <[channel := negb held]>)).

Definition move_servo (channel value : Z) : M env unit :=
  hardware (run Hardware.move_servo channel value ;; ret tt).
Definition move_all_servos (angle : Z) : M env unit :=
  hardware (run Hardware.move_all_servos angle ;; ret tt).

Definition decrease_speed : M env unit :=
  run update (fun g =>
        set_servo_speed (py_max (fsub (servo_speed g) (lit 1 10)) (lit 1 10)) g) ;;
  do v <- self servo_speed ;;
  update (print (SpeedDecreased v)).

Definition increase_speed : M env unit :=
  run update (fun g =>
        set_servo_speed (py_min (fadd (servo_speed g) (lit 1 10)) (lit 2 1)) g) ;;
  do v <- self servo_speed ;;
  update (print (SpeedIncreased v)).

(** [lock_state = not lock_state] and the line that reports it. *)
Definition toggle_lock : M env unit :=
  run update (fun g => set_lock_state (negb (lock_state g)) g) ;;
  do locked <- self lock_state ;;
  update (print (ServosNow locked)).

Definition exit_press : M env unit :=
  do armed <- self q_pressed ;;
  if armed then
    run update (print PressedTwiceExiting) ;;
    update (set_exit_flag true)
  else
    run update (set_q_pressed true) ;;
    update (print PressAgainToExit).

Definition is_playstation (k : option kind) : bool :=
  match k with
  | Some PS3 | Some PS => true
  | _ => false
  end.

(** The body of the inner [try] of the event loop. *)
Definition dispatch (e : event) : M env unit :=
  do k <- self controller_type ;;
  if type e =? EV_ABS then
    run (if code e =? 0 then move_servo 0 (value e)
         else if code e =? 1 then move_servo 1 (value e)
         else ret tt) ;;
    if is_playstation k then
      if code e =? 2 then move_servo 2 (value e)
      else if code e =? 3 then move_servo 3 (value e)
      else ret tt
    else
      if code e =? 5 then move_servo 3 (value e)
      else if code e =? 4 then move_servo 2 (value e)
      else ret tt
  else if (type e =? EV_KEY) && (value e =? 1) then
    if is_playstation k then
      if code e =? 304 then toggle_hold 0
      else if code e =? 305 then toggle_hold 1
      else if code e =? 308 then toggle_hold 2
      else if code e =? 307 then toggle_hold 3
      else if code e =? 294 then decrease_speed
      else if code e =? 295 then increase_speed
      else if code e =? 298 then move_all_servos 0
      else if code e =? 299 then move_all_servos 180
      else if code e =? 288 then ret tt
      else if code e =? 291 then move_all_servos 90
      else if code e =? 300 then move_all_servos 90
      else if code e =? 302 then toggle_lock
      else if code e =? 303 then move_all_servos 0
      else if code e =? 301 then move_all_servos 180
      else if code e =? 292 then exit_press
      else ret tt
    else
      if code e =? BTN_SOUTH then toggle_hold 0
      else if code e =? BTN_EAST then toggle_hold 1
      else if code e =? BTN_WEST then toggle_hold 2
      else if code e =? BTN_NORTH then toggle_hold 3
      else if code e =? BTN_TL then decrease_speed
      else if code e =? BTN_TR then increase_speed
      else if code e =? BTN_DPAD_UP then move_all_servos 90
      else if code e =? BTN_DPAD_DOWN then toggle_lock
      else if code e =? BTN_DPAD_LEFT then move_all_servos 0
      else if code e =? BTN_DPAD_RIGHT then move_all_servos 180
      else if code e =? KEY_Q then exit_press
      else ret tt
  else ret tt.

(** [for event in gamepad.read_loop()] over the events delivered so far;
    the answer tells whether the loop was left by [break]. An exception
    of the body is logged and the loop goes on. *)
Fixpoint read_loop (events : list event) : M env bool :=
  match events with
  | [] => ret false
  | e :: rest =>
      do leaving <- self exit_flag ;;
      if leaving then ret true
      else
        run try_except (dispatch e) (fun _ => ret tt) ;;
        read_loop rest
  end.

(** The handler over the events the device delivers; [device_lost] tells
    whether the read that follows them fails, which the outer [except]
    turns into an exit request. *)
Definition handle_controller_input (events : list event) (device_lost : bool)
    : M env unit :=
  do left_by_break <- read_loop events ;;
  if negb left_by_break && device_lost then
    run update (print ControllerError) ;;
    update (set_exit_flag true)
  else ret tt.

End ControllerInput.

(** ** web_interface.py *)

Module WebInterface.
Import Py PyFloat Config.

(** The module's own binding of [lock_state], made by
    [from hardware import ...] when the module was loaded. *)
Record globals := Globals {
  lock_state : bool
}.

Definition loaded (hw : Hardware.state) : globals :=
  Globals (Hardware.lock_state hw).

Definition env : Type := Hardware.state * globals.

Definition hardware {A} (m : M Hardware.state A) : M env A :=
  fun '(hw, g) => let '(r, hw') := m hw in (r, (hw', g)).

(** The JSON body of an angle request as the handler looks at it:
    nothing usable ([not data or 'angle' not in data]), or the outcome of
    [int(data['angle'])]. *)
Inductive angle_body :=
| NoAngle
| Angle (v : outcome Z).

(** The body of a flag request: the key is absent, or [bool(data[key])]. *)
Inductive flag_body :=
| NoFlag
| Flag (b : bool).

Inductive payload :=
| ServoSet (channel angle : Z)
| AllSet (angle : Z) (results : option (gmap Z (Z * Z)))
| HoldSet (channel : Z) (hold : bool)
| LockSet (lock_state : bool)
| InvalidChannel
| MissingAngle
| Failure (e : exn).

Record response := Response {
  status : Z;
  body : payload
}.

Definition is_error (r : response) : bool :=
  match body r with
  | InvalidChannel | MissingAngle | Failure _ => true
  | _ => false
  end.

(** [POST /api/servo/<int:channel>] *)
Definition control_servo (channel : Z) (data : angle_body) : M env response :=
  if negb (Hardware.in_channels channel) then ret (Response 400 InvalidChannel)
  else
    match data with
    | NoAngle => ret (Response 400 MissingAngle)
    | Angle v =>
        try_except
          (do angle <- lift v ;;
           run hardware (Hardware.set_servo_position channel angle) ;;
           ret (Response 200 (ServoSet channel angle)))
          (fun e => ret (Response 500 (Failure e)))
    end.

(** [POST /api/servo/all] *)
Definition control_all_servos (data : angle_body) : M env response :=
  match data with
  | NoAngle => ret (Response 400 MissingAngle)
  | Angle v =>
      try_except
        (do angle <- lift v ;;
         do results <- hardware (Hardware.move_all_servos angle) ;;
         ret (Response 200 (AllSet angle results)))
        (fun e => ret (Response 500 (Failure e)))
  end.

(** [POST /api/servo/hold/<int:channel>] *)
Definition toggle_hold (channel : Z) (data : flag_body) : M env response :=
  if negb (Hardware.in_channels channel) then ret (Response 400 InvalidChannel)
  else
    try_except
      (run (match data with
            | Flag b => hardware (modify (Hardware.set_hold_state <[channel := b]>))
            | NoFlag =>
                hardware
                  (do held <- (fun s => lift (getitem (Hardware.hold_state s) channel) s) ;;
                   modify (Hardware.set_hold_state <[channel := negb held]>))
            end) ;;
       do held <- hardware (fun s => lift (getitem (Hardware.hold_state s) channel) s) ;;
       ret (Response 200 (HoldSet channel held)))
      (fun e => ret (Response 500 (Failure e))).

(** [POST /api/servo/lock] *)
Definition toggle_lock (data : flag_body) : M env response :=
  fun '(hw, g) =>
    let g' := match data with
              | Flag b => Globals b
              | NoFlag => Globals (negb (lock_state g))
              end in
    (Ret (Response 200 (LockSet (lock_state g'))), (hw, g')).

End WebInterface.

(** ** The operations of the servo state store, as command sequences *)

Module Engine.
Import Py Hardware.

(** [setAngle], [moveFromAxis] and [moveAllTo] of the specification are
    [set_servo_position], [move_servo] and [move_all_servos]. *)
Inductive command :=
| SetAngle (channel angle : Z)
| MoveFromAxis (channel raw : Z)
| MoveAllTo (angle : Z).

Definition is_movement (c : command) : bool :=
  match c with
  | SetAngle _ _ => false
  | _ => true
  end.

(** The globals after one call; an exception leaves them as they were
    when it was raised. *)
Definition step (s : state) (c : command) : state :=
  match c with
  | SetAngle channel angle => exec (set_servo_position channel angle) s
  | MoveFromAxis channel raw => exec (move_servo channel raw) s
  | MoveAllTo angle => exec (move_all_servos angle) s
  end.

Definition steps (cs : list command) (s : state) : state :=
  fold_left step cs s.

(** The globals after a call of [set_servo_position] that goes through:
    direction, then the write to the driver if there is one, then the
    position. *)
Definition positioned (channel angle previous pulse : Z) (s : state) : state :=
  set_servo_positions <[channel := clamp angle]>
    ((if pca_connected s && pwm s then push_pwm_write channel pulse else id)
       (set_servo_directions <[channel := direction_of channel angle previous]> s)).

(** Every dictionary has an entry for every configured channel. *)
Definition well_formed (s : state) : Prop :=
  forall channel, channel ∈ Config.SERVO_CHANNELS ->
    is_Some (servo_positions s !! channel) /\
    is_Some (servo_directions s !! channel) /\
    is_Some (hold_state s !! channel).

Definition angles_in_range (s : state) : Prop :=
  forall channel angle,
    servo_positions s !! channel = Some angle -> 0 <= angle <= 180.

(** [P] on [lo], [lo + 1], ..., [n] values in all. *)
Fixpoint all_from (n : nat) (lo : Z) (P : Z -> bool) : bool :=
  match n with
  | O => true
  | S k => P lo && all_from k (lo + 1) P
  end.

(** [joystick_to_angle] gives the quotient of [(v + 32767) * 180] by
    [65534], rounded down. *)
Definition truncates (v : Z) : bool :=
  match joystick_to_angle v with
  | Ret a => a =? (v + 32767) * 180 / 65534
  | Raise _ => false
  end.

End Engine.

(** ** The axis transform as the specification words it *)

Module Spec.

(** [round(((raw + 32767) / 65534) * 180)] over the rationals; the
    quotient is never half-way between two integers, so every rounding
    rule to the nearest integer gives this value. *)
Definition angleFromAxis (raw : Z) : Z :=
  Qfloor (Qplus (Qmult (Qdiv (inject_Z (raw + 32767)) (inject_Z 65534))
                       (inject_Z 180))
                (Qmake 1 2)).

End Spec.

(** ** The pulses sent to the PCA9685 *)

Module Pulses.

(** The pulse of the latest [pwm.set_pwm(channel, 0, pulse)] call on the
    channel, if there was one. *)
Fixpoint last_pulse (channel : Z) (writes : list (Z * Z)) : option Z :=
  match writes with
  | [] => None
  | (c, p) :: rest => if c =? channel then Some p else last_pulse channel rest
  end.

(** The pulse of an angle within 0..180. *)
Definition of_angle (angle : Z) : Z := 150 + 5 * angle / 2.

(** What the driver was sent agrees with the globals: nothing without a
    driver, configured channels and pulses of the servo range only, and
    the latest pulse of a channel is the one of its stored angle. *)
Definition consistent (s : Hardware.state) : Prop :=
  (Hardware.pca_connected s && Hardware.pwm s = false ->
   Hardware.pwm_writes s = []) /\
  (forall c p, In (c, p) (Hardware.pwm_writes s) ->
     c ∈ Config.SERVO_CHANNELS /\ Config.SERVO_MIN <= p <= Config.SERVO_MAX) /\
  (forall c p, last_pulse c (Hardware.pwm_writes s) = Some p ->
     exists a, Hardware.servo_positions s !! c = Some a /\ p = of_angle a).

End Pulses.

(** ** The speed setting of the controller *)

Module Speed.
Import PyFloat.

(** [max(servo_speed - 0.1, 0.1)] and [min(servo_speed + 0.1, 2.0)] *)
Definition decreased (v : float) : float :=
  py_max (fsub v (lit 1 10)) (lit 1 10).
Definition increased (v : float) : float :=
  py_min (fadd v (lit 1 10)) (lit 2 1).

(** The same double, bit for bit. *)
Definition same (a b : float) : bool :=
  match a, b with
  | S754_zero s, S754_zero s' => Bool.eqb s s'
  | S754_infinity s, S754_infinity s' => Bool.eqb s s'
  | S754_nan, S754_nan => true
  | S754_finite s m e, S754_finite s' m' e' =>
      Bool.eqb s s' && Pos.eqb m m' && Z.eqb e e'
  | _, _ => false
  end.

Definition known (v : float) (seen : list float) : bool :=
  existsb (same v) seen.

(** The values met when the two assignments are applied over and over,
    starting from the values of [todo]. *)
Fixpoint explore (fuel : nat) (todo seen : list float) : list float :=
  match fuel with
  | O => seen
  | S k =>
      match todo with
      | [] => seen
      | v :: rest =>
          if known v seen then explore k rest seen
          else explore k (decreased v :: increased v :: rest) (v :: seen)
      end
  end.

(** The speeds that the buttons can reach from the initial 1.0. *)
Definition reachable : list float := explore 200 [lit 1 1] [].

End Speed.

(** ** The tables of the event handler *)

Module Routing.

(** The channel that an axis code drives: the left stick on every
    controller, the right stick by codes 2 and 3 on a PlayStation
    controller and by codes 5 and 4 on the others. *)
Definition axis_channel (playstation : bool) (code : Z) : option Z :=
  if code =? 0 then Some 0
  else if code =? 1 then Some 1
  else if playstation then
    (if code =? 2 then Some 2 else if code =? 3 then Some 3 else None)
  else
    (if code =? 5 then Some 3 else if code =? 4 then Some 2 else None).

(** The button that toggles the hold flag of a channel; the four codes are
    those of Cross, Circle, Square, Triangle and of [BTN_SOUTH],
    [BTN_EAST], [BTN_WEST], [BTN_NORTH]. *)
Definition hold_button (channel : Z) : option Z :=
  if channel =? 0 then Some 304
  else if channel =? 1 then Some 305
  else if channel =? 2 then Some 308
  else if channel =? 3 then Some 307
  else None.

End Routing.

(** ** What a piece of the event handler keeps *)

Module Handler.

(** The piece [m] of the handler keeps the property [P] of the globals of
    [hardware] and the property [Q] of those of [controller_input]. *)
Definition keeps (P : Hardware.state -> Prop)
    (Q : ControllerInput.globals -> Prop)
    (m : Py.M ControllerInput.env unit) : Prop :=
  forall hw g, P hw -> Q g ->
    P (fst (Py.exec m (hw, g))) /\ Q (snd (Py.exec m (hw, g))).

End Handler.

(** ** hardware.py: the detection of the I2C devices *)

Module Detect.
Import Py.

(** config.py *)
Definition I2C_BUSES : list Z := [0; 1].

(** What the two driver libraries answer on one bus: the constructor
    [Adafruit_PCA9685.PCA9685(busnum=bus_num)] and [set_pwm_freq] on the
    instance it gives, the constructor [mpu6050(bus_num)] and [get_temp]
    on the instance it gives. *)
Record bus := Bus {
  open_pca : outcome unit;
  set_pwm_freq : outcome unit;
  open_mpu : outcome unit;
  get_temp : outcome PyFloat.float
}.

(** Whether the two imports at the head of the module went through, and
    the buses of the machine. *)
Record libraries := Libraries {
  PCA9685_AVAILABLE : bool;
  MPU6050_AVAILABLE : bool;
  probe : Z -> bus
}.

Inductive message :=
| PcaFound (bus_num : Z)
| PcaNotFound (bus_num : Z) (e : exn)
| MpuFound (bus_num : Z)
| MpuNotFound (bus_num : Z) (e : exn)
| NoPca
| NoMpu.

(** The globals that the function assigns. [pwm] and [mpu] hold the bus of
    the instance that was saved; [frequency_set] lists the buses whose
    instance accepted [set_pwm_freq(SERVO_FREQ)]. *)
Record globals := Globals {
  pca_connected : bool;
  mpu_connected : bool;
  pca_bus : option Z;
  mpu_bus : option Z;
  pwm : option Z;
  mpu : option Z;
  frequency_set : list Z;
  console : list message
}.

(** The globals as the module body leaves them. *)
Definition loaded : globals :=
  Globals false false None None None None [] [].

Definition save_pca (bus_num : Z) (g : globals) : globals :=
  Globals true (mpu_connected g) (Some bus_num) (mpu_bus g) (Some bus_num)
          (mpu g) (frequency_set g) (console g).
Definition save_mpu (bus_num : Z) (g : globals) : globals :=
  Globals (pca_connected g) true (pca_bus g) (Some bus_num) (pwm g)
          (Some bus_num) (frequency_set g) (console g).
Definition note_frequency (bus_num : Z) (g : globals) : globals :=
  Globals (pca_connected g) (mpu_connected g) (pca_bus g) (mpu_bus g) (pwm g)
          (mpu g) (bus_num :: frequency_set g) (console g).
Definition print (m : message) (g : globals) : globals :=
  Globals (pca_connected g) (mpu_connected g) (pca_bus g) (mpu_bus g) (pwm g)
          (mpu g) (frequency_set g) (m :: console g).

(** The first [try] of the loop body. *)
Definition try_pca (lib : libraries) (bus_num : Z) : M globals unit :=
  do connected <- gets pca_connected ;;
  if PCA9685_AVAILABLE lib && negb connected then
    try_except
      (run lift (open_pca (probe lib bus_num)) ;;
       run modify (save_pca bus_num) ;;
       run lift (set_pwm_freq (probe lib bus_num)) ;;
       run modify (note_frequency bus_num) ;;
       modify (print (PcaFound bus_num)))
      (fun e => modify (print (PcaNotFound bus_num e)))
  else ret tt.

(** The second [try] of the loop body. *)
Definition try_mpu (lib : libraries) (bus_num : Z) : M globals unit :=
  do connected <- gets mpu_connected ;;
  if MPU6050_AVAILABLE lib && negb connected then
    try_except
      (run lift (open_mpu (probe lib bus_num)) ;;
       do _t <- lift (get_temp (probe lib bus_num)) ;;
       run modify (save_mpu bus_num) ;;
       modify (print (MpuFound bus_num)))
      (fun e => modify (print (MpuNotFound bus_num e)))
  else ret tt.

Definition detect_i2c_devices (lib : libraries) : M globals (bool * bool) :=
  run for_each I2C_BUSES
        (fun bus_num => run try_pca lib bus_num ;; try_mpu lib bus_num) ;;
  do pca <- gets pca_connected ;;
  run (if negb pca then modify (print NoPca) else ret tt) ;;
  do mpu_found <- gets mpu_connected ;;
  run (if negb mpu_found then modify (print NoMpu) else ret tt) ;;
  do pca <- gets pca_connected ;;
  do mpu_found <- gets mpu_connected ;;
  ret (pca, mpu_found).

(** A bus on which the PCA9685 constructor goes through, and one on which
    the MPU6050 constructor and the temperature reading both do. *)
Definition pca_answers (lib : libraries) (bus_num : Z) : bool :=
  returns (open_pca (probe lib bus_num)).
Definition mpu_answers (lib : libraries) (bus_num : Z) : bool :=
  returns (open_mpu (probe lib bus_num)) &&
  returns (get_temp (probe lib bus_num)).

(** The globals that belong to each device. *)
Definition pca_part (g : globals) : bool * option Z * option Z :=
  (pca_connected g, pca_bus g, pwm g).
Definition mpu_part (g : globals) : bool * option Z * option Z :=
  (mpu_connected g, mpu_bus g, mpu g).

End Detect.

(** ** main.py: the update thread *)

Module Main.
Import Py.


(** The globals of [hardware] and the times at which [log_data] was
    called, latest first. *)
Definition env : Type := Hardware.state * list Z.

Definition hardware {A} (m : M Hardware.state A) : M env A :=
  fun '(hw, logged) => let '(r, hw') := m hw in (r, (hw', logged)).





End Main.

(** ** controller_input.py: finding the controller *)

Module Finder.
Import Py.
Local Open Scope string_scope.

(** [needle in hay] on two strings. *)
Fixpoint occurs (needle hay : string) : bool :=
  String.prefix needle hay ||
  match hay with
  | EmptyString => false
  | String _ rest => occurs needle rest
  end.

(** The input layer: [evdev.list_devices()], and [InputDevice(path)],
    which raises or gives a device, of which the function reads the
    name. *)
Record system := System {
  list_devices : outcome (list string);
  open_device : string -> outcome string
}.

(** The classification of the device at a given path. *)
Definition kind_of_given (name : string) : ControllerInput.kind :=
  if occurs "PLAYSTATION" name || occurs "PlayStation" name then
    (if occurs "3" name then ControllerInput.PS3 else ControllerInput.PS)
  else if occurs "Xbox" name then ControllerInput.Xbox
  else ControllerInput.Generic.

(** The classification of a listed device; [None] when the loop goes on
    to the next one. *)
Definition kind_of_listed (name : string) : option ControllerInput.kind :=
  if occurs "PLAYSTATION(R)3" name || occurs "PlayStation 3" name then
    Some ControllerInput.PS3
  else if occurs "PLAYSTATION" name || occurs "PlayStation" name then
    Some ControllerInput.PS
  else if occurs "Xbox" name then Some ControllerInput.Xbox
  else None.

(** [controller_type = k; controller_connected = True] *)
Definition connect (k : ControllerInput.kind) (g : ControllerInput.globals)
    : ControllerInput.globals :=
  ControllerInput.Globals (Some k) true
    (ControllerInput.q_pressed g) (ControllerInput.exit_flag g)
    (ControllerInput.lock_state g) (ControllerInput.servo_speed g)
    (ControllerInput.console g).

(** [[InputDevice(path) for path in paths]], each device with its name. *)
Fixpoint open_all (sys : system) (paths : list string)
    : outcome (list (string * string)) :=
  match paths with
  | [] => Ret []
  | path :: rest =>
      obind (open_device sys path) (fun name =>
      obind (open_all sys rest) (fun devices =>
      Ret ((path, name) :: devices)))
  end.

(** The loop over the devices; the answer is the device returned from
    inside the loop, if any. *)
Fixpoint scan (devices : list (string * string))
    : M ControllerInput.globals (option string) :=
  match devices with
  | [] => ret None
  | (path, name) :: rest =>
      match kind_of_listed name with
      | Some k => run modify (connect k) ;; ret (Some path)
      | None => scan rest
      end
  end.

(** The device found, named by its path, or [None]. A device path that is
    [None] or empty leads to the detection. *)
Definition find_game_controller (sys : system) (device_path : option string)
    : M ControllerInput.globals (option string) :=
  try_except
    (do given <-
       (match device_path with
        | Some path =>
            if negb (String.eqb path "") then
              try_except
                (do name <- lift (open_device sys path) ;;
                 run modify (connect (kind_of_given name)) ;;
                 ret (Some path))
                (fun _ => ret None)
            else ret None
        | None => ret None
        end) ;;
     match given with
     | Some path => ret (Some path)
     | None =>
         do paths <- lift (list_devices sys) ;;
         do devices <- lift (open_all sys paths) ;;
         scan devices
     end)
    (fun _ => ret None).

End Finder.

(** * Properties *)

Section RangeChecks.
Import Engine.

Lemma all_from_spec (n : nat) (lo : Z) (P : Z -> bool) :
  all_from n lo P = true ->
  forall v, lo <= v < lo + Z.of_nat n -> P v = true.
Proof.
  revert lo. induction n as [|n IH]; intros lo H v Hv.
  - simpl in Hv. lia.
  - simpl in H. apply andb_true_iff in H as [Hlo Hrest].
    destruct (Z.eq_dec v lo) as [->|Hne]; [exact Hlo|].
    apply (IH (lo + 1) Hrest). lia.
Qed.

End RangeChecks.

Section HardwareFacts.
Import Py PyFloat Config Hardware Engine.

Lemma clamp_range (a : Z) : 0 <= clamp a <= 180.
Proof. unfold clamp. lia. Qed.

Lemma clamp_id (a : Z) : 0 <= a <= 180 -> clamp a = a.
Proof. unfold clamp. lia. Qed.

(** The pulse computation never raises: its argument is constrained
    first, and each of the 181 angles gives a pulse. *)
Lemma angle_to_pwm_returns (a : Z) : exists pulse, angle_to_pwm a = Ret pulse.
Proof.
  assert (H : all_from 181 0 (fun c => returns (angle_to_pwm c)) = true)
    by (vm_compute; reflexivity).
  pose proof (all_from_spec _ _ _ H (clamp a)) as Hc.
  cbv beta in Hc.
  assert (Heq : angle_to_pwm (clamp a) = angle_to_pwm a).
  { unfold angle_to_pwm. rewrite (clamp_id (clamp a)) by apply clamp_range.
    reflexivity. }
  rewrite Heq in Hc.
  destruct (angle_to_pwm a) as [pulse|e].
  - eauto.
  - pose proof (clamp_range a). discriminate Hc. lia.
Qed.

Lemma in_channels_iff (channel : Z) :
  in_channels channel = true <-> channel ∈ SERVO_CHANNELS.
Proof. unfold in_channels. apply bool_decide_eq_true. Qed.

Lemma set_servo_position_unknown (channel angle : Z) (s : state) :
  in_channels channel = false ->
  set_servo_position channel angle s = (Ret false, s).
Proof. intros H. unfold set_servo_position. rewrite H. reflexivity. Qed.

Lemma set_servo_position_missing (channel angle : Z) (s : state) :
  in_channels channel = true ->
  servo_positions s !! channel = None ->
  set_servo_position channel angle s = (Raise KeyError, s).
Proof.
  intros Hin Hnone. unfold set_servo_position. rewrite Hin. cbn [negb].
  unfold bind, lift, getitem. rewrite Hnone. reflexivity.
Qed.

Lemma set_servo_position_known (channel angle previous : Z) (s : state) :
  in_channels channel = true ->
  servo_positions s !! channel = Some previous ->
  exists pulse,
    angle_to_pwm (clamp angle) = Ret pulse /\
    set_servo_position channel angle s
    = (Ret true, positioned channel angle previous pulse s).
Proof.
  intros Hin Hsome.
  destruct (angle_to_pwm_returns (clamp angle)) as [pulse Hpulse].
  exists pulse. split; [exact Hpulse|].
  unfold set_servo_position, positioned. rewrite Hin. cbn [negb].
  unfold bind, lift, getitem, modify, gets, ret. rewrite Hsome, Hpulse.
  cbn [pca_connected pwm set_servo_directions].
  destruct (pca_connected s && pwm s); reflexivity.
Qed.

Lemma positioned_positions channel angle previous pulse s :
  servo_positions (positioned channel angle previous pulse s)
  = <[channel := clamp angle]> (servo_positions s).
Proof. unfold positioned. destruct (pca_connected s && pwm s); reflexivity. Qed.

Lemma positioned_directions channel angle previous pulse s :
  servo_directions (positioned channel angle previous pulse s)
  = <[channel := direction_of channel angle previous]> (servo_directions s).
Proof. unfold positioned. destruct (pca_connected s && pwm s); reflexivity. Qed.

Lemma positioned_hold channel angle previous pulse s :
  hold_state (positioned channel angle previous pulse s) = hold_state s.
Proof. unfold positioned. destruct (pca_connected s && pwm s); reflexivity. Qed.

Lemma positioned_lock channel angle previous pulse s :
  lock_state (positioned channel angle previous pulse s) = lock_state s.
Proof. unfold positioned. destruct (pca_connected s && pwm s); reflexivity. Qed.

(** Whatever its arguments, a call of [set_servo_position] leaves the
    positions as they were or stores one constrained angle. *)
Lemma set_servo_position_effect (channel angle : Z) (s : state) :
  let s' := exec (set_servo_position channel angle) s in
  hold_state s' = hold_state s /\ lock_state s' = lock_state s /\
  (servo_positions s' = servo_positions s \/
   servo_positions s' = <[channel := clamp angle]> (servo_positions s)).
Proof.
  unfold exec. destruct (in_channels channel) eqn:Hin.
  - destruct (servo_positions s !! channel) as [previous|] eqn:Hp.
    + destruct (set_servo_position_known channel angle previous s Hin Hp)
        as (pulse & _ & ->). cbn [snd].
      rewrite positioned_positions, positioned_hold, positioned_lock. auto.
    + rewrite set_servo_position_missing by assumption. cbn. auto.
  - rewrite set_servo_position_unknown by assumption. cbn. auto.
Qed.

End HardwareFacts.

Section MovementFacts.
Import Py PyFloat Config Hardware Engine.

Lemma move_servo_locked (channel value : Z) (s : state) :
  lock_state s = true -> move_servo channel value s = (Ret None, s).
Proof.
  intros H. unfold move_servo, bind, gets, ret. rewrite H. reflexivity.
Qed.

Lemma move_servo_held (channel value : Z) (s : state) :
  hold_state s !! channel = Some true ->
  move_servo channel value s = (Ret None, s).
Proof.
  intros H. unfold move_servo, bind, gets, ret, lift, getitem.
  destruct (lock_state s); [reflexivity|]. rewrite H. reflexivity.
Qed.

Lemma move_all_servos_locked (angle : Z) (s : state) :
  lock_state s = true -> move_all_servos angle s = (Ret None, s).
Proof.
  intros H. unfold move_all_servos, bind, gets, ret. rewrite H. reflexivity.
Qed.

Lemma move_servo_effect (channel value : Z) (s : state) :
  let s' := exec (move_servo channel value) s in
  hold_state s' = hold_state s /\ lock_state s' = lock_state s /\
  (servo_positions s' = servo_positions s \/
   exists angle,
     servo_positions s' = <[channel := clamp angle]> (servo_positions s)).
Proof.
  unfold exec, move_servo, bind, gets, ret, lift, getitem.
  destruct (lock_state s) eqn:Hl; [cbn; auto|].
  destruct (hold_state s !! channel) as [[|]|]; [cbn; auto| |cbn; auto].
  destruct (servo_positions s !! channel) as [old|]; [|cbn; auto].
  destruct (joystick_to_angle value) as [angle|e]; [|cbn; auto].
  pose proof (set_servo_position_effect channel angle s) as H.
  unfold exec in H. cbv zeta in H.
  destruct (set_servo_position channel angle s) as [[b|e] s1]; cbn in *;
    destruct H as (Hh & Hk & [Hp|Hp]);
    (split; [exact Hh|]); (split; [congruence|]); eauto.
Qed.

Lemma move_each_step (channel : Z) (rest : list Z) (angle : Z)
    (results : gmap Z (Z * Z)) (s : state) (previous : Z) :
  in_channels channel = true ->
  servo_positions s !! channel = Some previous ->
  hold_state s !! channel = Some false ->
  exists pulse,
    move_each (channel :: rest) angle results s
    = move_each rest angle (<[channel := (previous, angle)]> results)
        (positioned channel angle previous pulse s).
Proof.
  intros Hin Hp Hh.
  destruct (set_servo_position_known channel angle previous s Hin Hp)
    as (pulse & _ & Hset).
  exists pulse. cbn [move_each]. unfold bind at 1, lift at 1, getitem at 1.
  rewrite Hh. cbn [negb]. unfold bind at 1, lift at 1, getitem at 1.
  rewrite Hp. unfold bind at 1. rewrite Hset. reflexivity.
Qed.

Lemma move_each_skip (channel : Z) (rest : list Z) (angle : Z)
    (results : gmap Z (Z * Z)) (s : state) :
  hold_state s !! channel = Some true ->
  move_each (channel :: rest) angle results s = move_each rest angle results s.
Proof.
  intros Hh. cbn [move_each]. unfold bind at 1, lift at 1, getitem at 1.
  rewrite Hh. reflexivity.
Qed.

(** The loop of [move_all_servos]: the channels of the list that are not
    held end at the constrained angle, every other entry stays. *)
Lemma move_each_positions (channels : list Z) (angle : Z) :
  forall (results : gmap Z (Z * Z)) (s : state),
    (forall c, c ∈ channels ->
       in_channels c = true /\ is_Some (servo_positions s !! c) /\
       is_Some (hold_state s !! c)) ->
    let s' := exec (move_each channels angle results) s in
    hold_state s' = hold_state s /\
    forall c,
      servo_positions s' !! c
      = if bool_decide (c ∈ channels /\ hold_state s !! c = Some false)
        then Some (clamp angle) else servo_positions s !! c.
Proof.
  induction channels as [|channel rest IH]; intros results s Hwf.
  - cbn. split; [reflexivity|]. intros c.
    rewrite bool_decide_eq_false_2; [reflexivity|].
    intros [Hc _]. inversion Hc.
  - destruct (Hwf channel) as (Hin & [previous Hp] & [held Hh]);
      [constructor|].
    destruct held.
    + unfold exec. rewrite move_each_skip by assumption.
      destruct (IH results s) as [Hhold Hpos].
      { intros c Hc. apply Hwf. by constructor. }
      split; [exact Hhold|]. intros c. unfold exec in Hpos. rewrite Hpos.
      destruct (decide (c = channel)) as [->|Hne].
      * rewrite !bool_decide_eq_false_2; [reflexivity| |];
          intros [_ Hf]; congruence.
      * apply (f_equal (fun b : bool => if b then _ else _)).
        apply bool_decide_ext. rewrite elem_of_cons. tauto.
    + destruct (move_each_step channel rest angle results s previous Hin Hp Hh)
        as [pulse Hstep].
      unfold exec. rewrite Hstep.
      set (s1 := positioned channel angle previous pulse s).
      destruct (IH (<[channel := (previous, angle)]> results) s1) as [Hhold Hpos].
      { intros c Hc. destruct (Hwf c) as (Hc1 & Hc2 & Hc3); [by constructor|].
        subst s1. rewrite positioned_positions, positioned_hold.
        split; [exact Hc1|]. split; [|exact Hc3].
        destruct (decide (c = channel)) as [->|Hne].
        - rewrite lookup_insert_eq. eauto.
        - rewrite lookup_insert_ne by congruence. exact Hc2. }
      unfold exec in Hhold, Hpos.
      split.
      { rewrite Hhold. subst s1. apply positioned_hold. }
      intros c. rewrite Hpos. subst s1.
      rewrite positioned_positions, positioned_hold.
      destruct (decide (c = channel)) as [->|Hne].
      * rewrite lookup_insert_eq.
        rewrite (bool_decide_eq_true_2 (channel ∈ channel :: rest /\ _));
          [|split; [constructor|exact Hh]].
        destruct (bool_decide _); reflexivity.
      * rewrite lookup_insert_ne by congruence.
        apply (f_equal (fun b : bool => if b then _ else _)).
        apply bool_decide_ext. rewrite elem_of_cons. tauto.
Qed.

Lemma move_each_effect (angle : Z) (channels : list Z) :
  forall (results : gmap Z (Z * Z)) (s : state),
    let s' := exec (move_each channels angle results) s in
    hold_state s' = hold_state s /\ lock_state s' = lock_state s /\
    forall c, servo_positions s' !! c = servo_positions s !! c \/
              servo_positions s' !! c = Some (clamp angle).
Proof.
  unfold exec.
  induction channels as [|channel rest IH]; intros results s.
  - cbn. auto.
  - cbn [move_each]. unfold bind, lift, getitem.
    destruct (hold_state s !! channel) as [[|]|]; [apply IH| |cbn; auto].
    cbn [negb].
    destruct (servo_positions s !! channel) as [old|]; [|cbn; auto].
    pose proof (set_servo_position_effect channel angle s) as Hset.
    unfold exec in Hset. cbv zeta in Hset.
    destruct (set_servo_position channel angle s) as [[b|e] s1];
      cbn [snd] in Hset |- *; destruct Hset as (Hh & Hk & Hp).
    + specialize (IH (<[channel := (old, angle)]> results) s1).
      cbv zeta in IH. destruct IH as (IHh & IHk & IHp).
      split; [congruence|]. split; [congruence|].
      intros c. destruct (IHp c) as [Hc|Hc]; [|auto].
      rewrite Hc. destruct Hp as [Hp|Hp]; rewrite Hp; [auto|].
      destruct (decide (c = channel)) as [->|Hne].
      * rewrite lookup_insert_eq. auto.
      * rewrite lookup_insert_ne by congruence. auto.
    + split; [exact Hh|]. split; [exact Hk|].
      intros c. destruct Hp as [Hp|Hp]; rewrite Hp; [auto|].
      destruct (decide (c = channel)) as [->|Hne].
      * rewrite lookup_insert_eq. auto.
      * rewrite lookup_insert_ne by congruence. auto.
Qed.

Lemma move_all_servos_effect (angle : Z) (s : state) :
  let s' := exec (move_all_servos angle) s in
  hold_state s' = hold_state s /\ lock_state s' = lock_state s /\
  forall c, servo_positions s' !! c = servo_positions s !! c \/
            servo_positions s' !! c = Some (clamp angle).
Proof.
  pose proof (move_each_effect angle SERVO_CHANNELS ∅ s) as H.
  unfold exec in *. cbv zeta in H.
  unfold move_all_servos, bind, gets, ret.
  destruct (lock_state s) eqn:Hl; [cbn; auto|].
  destruct (move_each SERVO_CHANNELS angle ∅ s) as [[r|e] s1];
    cbn [snd] in *; rewrite ?Hl; exact H.
Qed.

End MovementFacts.

Section StoreInvariants.
Import Py PyFloat Config Hardware Engine.

Lemma step_locked (c : command) (s : state) :
  lock_state s = true -> is_movement c = true -> step s c = s.
Proof.
  intros Hl Hc. destruct c as [channel angle|channel raw|angle];
    [discriminate| |]; cbn [step]; unfold exec.
  - rewrite move_servo_locked by assumption. reflexivity.
  - rewrite move_all_servos_locked by assumption. reflexivity.
Qed.

Lemma steps_locked (cs : list command) (s : state) :
  lock_state s = true -> forallb is_movement cs = true -> steps cs s = s.
Proof.
  intros Hl. unfold steps. induction cs as [|c cs IH]; intros Hcs.
  - reflexivity.
  - cbn [forallb] in Hcs. apply andb_true_iff in Hcs as [Hc Hcs].
    cbn [fold_left]. rewrite step_locked by assumption. apply IH, Hcs.
Qed.

(** What one call does to the stored angles: every entry is the one
    before or a constrained angle. *)
Lemma step_positions (c : command) (s : state) (channel : Z) :
  servo_positions (step s c) !! channel = servo_positions s !! channel \/
  exists angle, servo_positions (step s c) !! channel = Some (clamp angle).
Proof.
  destruct c as [ch angle|ch raw|angle]; cbn [step].
  - destruct (set_servo_position_effect ch angle s) as (_ & _ & [H|H]);
      rewrite H; [auto|].
    destruct (decide (channel = ch)) as [->|Hne].
    + rewrite lookup_insert_eq. eauto.
    + rewrite lookup_insert_ne by congruence. auto.
  - destruct (move_servo_effect ch raw s) as (_ & _ & [H|[angle H]]);
      rewrite H; [auto|].
    destruct (decide (channel = ch)) as [->|Hne].
    + rewrite lookup_insert_eq. eauto.
    + rewrite lookup_insert_ne by congruence. auto.
  - destruct (move_all_servos_effect angle s) as (_ & _ & H).
    destruct (H channel) as [Hc|Hc]; eauto.
Qed.

Lemma steps_positions (cs : list command) :
  forall (s : state) (channel : Z),
    (exists a, servo_positions s !! channel = Some a /\ 0 <= a <= 180) ->
    exists a, servo_positions (steps cs s) !! channel = Some a /\ 0 <= a <= 180.
Proof.
  unfold steps. induction cs as [|c cs IH]; intros s channel Hs.
  - exact Hs.
  - cbn [fold_left]. apply IH.
    destruct (step_positions c s channel) as [H|[angle H]]; rewrite H.
    + exact Hs.
    + exists (clamp angle). split; [reflexivity|apply clamp_range].
Qed.

Lemma initial_positions (pca mpu_found : bool) (channel : Z) :
  channel ∈ SERVO_CHANNELS ->
  servo_positions (initial pca mpu_found) !! channel = Some 90.
Proof.
  intros H. unfold SERVO_CHANNELS in H.
  repeat (apply elem_of_cons in H as [->|H]; [reflexivity|]).
  inversion H.
Qed.

End StoreInvariants.

(** ** The lock, the hold flags and the range of the angles *)

(** C2. While the lock flag of the servo state is true, no sequence of
    [move_servo] (moveFromAxis) and [move_all_servos] (moveAllTo) calls
    changes the stored angle of any channel. *)
Theorem lock_invariant (cs : list Engine.command) (s : Hardware.state) :
  Hardware.lock_state s = true ->
  forallb Engine.is_movement cs = true ->
  forall channel : Z,
    Hardware.servo_positions (Engine.steps cs s) !! channel
    = Hardware.servo_positions s !! channel.
Proof.
  intros Hl Hcs channel. rewrite steps_locked by assumption. reflexivity.
Qed.

Lemma lock_invariant_witness :
  let s := Hardware.set_lock_state true (Hardware.initial true false) in
  let cs := [Engine.MoveFromAxis 0 32767; Engine.MoveAllTo 0;
             Engine.MoveFromAxis 3 (-32767)] in
  Hardware.lock_state s = true /\
  forallb Engine.is_movement cs = true /\
  Hardware.servo_positions (Engine.steps cs s) !! 0 = Some 90.
Proof.
  split; [reflexivity|]. split; [reflexivity|].
  rewrite (lock_invariant
             [Engine.MoveFromAxis 0 32767; Engine.MoveAllTo 0;
              Engine.MoveFromAxis 3 (-32767)]
             (Hardware.set_lock_state true (Hardware.initial true false)));
    reflexivity.
Defined.

(** C3. For a configured channel whose hold flag is true, [move_servo]
    with any raw value leaves the stored angle of that channel as it is,
    whatever the lock flag; and [move_all_servos] leaves the held channels
    as they are while, the lock being off, every channel that is not held
    ends at the requested angle, constrained to 0..180. *)
Theorem hold_invariant (s : Hardware.state) :
  Engine.well_formed s ->
  (forall channel raw : Z,
     channel ∈ Config.SERVO_CHANNELS ->
     Hardware.hold_state s !! channel = Some true ->
     Hardware.servo_positions (Py.exec (Hardware.move_servo channel raw) s) !! channel
     = Hardware.servo_positions s !! channel) /\
  (forall angle channel : Z,
     channel ∈ Config.SERVO_CHANNELS ->
     Hardware.hold_state s !! channel = Some true ->
     Hardware.servo_positions (Py.exec (Hardware.move_all_servos angle) s) !! channel
     = Hardware.servo_positions s !! channel) /\
  (forall angle channel : Z,
     channel ∈ Config.SERVO_CHANNELS ->
     Hardware.lock_state s = false ->
     Hardware.hold_state s !! channel = Some false ->
     Hardware.servo_positions (Py.exec (Hardware.move_all_servos angle) s) !! channel
     = Some (Hardware.clamp angle)).
Proof.
  intros Hwf.
  assert (Hall : forall angle,
    Hardware.lock_state s = false ->
    forall c,
      Hardware.servo_positions (Py.exec (Hardware.move_all_servos angle) s) !! c
      = if bool_decide (c ∈ Config.SERVO_CHANNELS /\
                        Hardware.hold_state s !! c = Some false)
        then Some (Hardware.clamp angle) else Hardware.servo_positions s !! c).
  { intros angle Hl c.
    destruct (move_each_positions Config.SERVO_CHANNELS angle ∅ s) as [_ Hpos].
    { intros c' Hc'. destruct (Hwf c' Hc') as (Hp & _ & Hh).
      split; [apply in_channels_iff, Hc'|]. split; assumption. }
    rewrite <- Hpos. unfold Py.exec, Hardware.move_all_servos, Py.bind, Py.gets.
    rewrite Hl.
    destruct (Hardware.move_each Config.SERVO_CHANNELS angle ∅ s) as [[r|e] s1];
      reflexivity. }
  split; [|split].
  - intros channel raw _ Hh. unfold Py.exec.
    rewrite move_servo_held by assumption. reflexivity.
  - intros angle channel Hc Hh.
    destruct (Hardware.lock_state s) eqn:Hl.
    + unfold Py.exec. rewrite move_all_servos_locked by assumption. reflexivity.
    + rewrite Hall by reflexivity.
      rewrite bool_decide_eq_false_2; [reflexivity|].
      intros [_ Hf]. congruence.
  - intros angle channel Hc Hl Hh.
    rewrite Hall by assumption.
    rewrite bool_decide_eq_true_2; [reflexivity|]. split; assumption.
Qed.

Lemma held_state_well_formed :
  Engine.well_formed
    (Hardware.set_hold_state <[1 := true]> (Hardware.initial false false)).
Proof.
  intros channel H. unfold Config.SERVO_CHANNELS in H.
  repeat (apply elem_of_cons in H as [->|H];
          [repeat split; vm_compute; eauto|]).
  inversion H.
Qed.

Lemma hold_invariant_witness :
  let s := Hardware.set_hold_state <[1 := true]> (Hardware.initial false false) in
  Engine.well_formed s /\
  Hardware.servo_positions (Py.exec (Hardware.move_servo 1 32767) s) !! 1 = Some 90 /\
  Hardware.servo_positions (Py.exec (Hardware.move_all_servos 0) s) !! 1 = Some 90 /\
  Hardware.servo_positions (Py.exec (Hardware.move_all_servos 0) s) !! 2 = Some 0.
Proof.
  intros s.
  destruct (hold_invariant s held_state_well_formed) as (H1 & H2 & H3).
  split; [exact held_state_well_formed|].
  split; [rewrite H1; [reflexivity|repeat constructor|reflexivity]|].
  split; [rewrite H2; [reflexivity|repeat constructor|reflexivity]|].
  rewrite H3; [reflexivity|repeat constructor|reflexivity|reflexivity].
Defined.

(** C4. From the initial state, whatever the sequence of
    [set_servo_position], [move_servo] and [move_all_servos] calls and
    whatever their integer arguments, every configured channel keeps a
    stored angle, and that angle lies within 0..180. *)
Theorem angle_invariant (pca mpu_found : bool) (cs : list Engine.command)
    (channel : Z) :
  channel ∈ Config.SERVO_CHANNELS ->
  exists angle,
    Hardware.servo_positions
      (Engine.steps cs (Hardware.initial pca mpu_found)) !! channel = Some angle /\
    0 <= angle <= 180.
Proof.
  intros Hc. apply steps_positions. exists 90.
  split; [apply initial_positions, Hc|lia].
Qed.

Lemma angle_invariant_witness :
  3 ∈ Config.SERVO_CHANNELS /\
  exists angle,
    Hardware.servo_positions
      (Engine.steps [Engine.SetAngle 3 500; Engine.MoveFromAxis 3 (-40000);
                     Engine.MoveAllTo (-7); Engine.SetAngle 9 12]
                    (Hardware.initial true true)) !! 3 = Some angle /\
    0 <= angle <= 180.
Proof.
  assert (H : 3 ∈ Config.SERVO_CHANNELS) by (repeat constructor).
  split; [exact H|].
  exact (angle_invariant true true
           [Engine.SetAngle 3 500; Engine.MoveFromAxis 3 (-40000);
            Engine.MoveAllTo (-7); Engine.SetAngle 9 12] 3 H).
Defined.

(** ** Setting the same angle twice *)

(** C6 as stated fails: the direction is decided on the requested angle
    before it is constrained, so a request of 200 on channel 0, issued
    twice from the initial state, is above the stored 180 the second time
    too and leaves the direction at "right". *)
Lemma setAngle_twice_counterexample :
  let s := Engine.steps [Engine.SetAngle 0 200; Engine.SetAngle 0 200]
                        (Hardware.initial false false) in
  0 ∈ Config.SERVO_CHANNELS /\
  Hardware.servo_positions s !! 0 = Some 180 /\
  Hardware.servo_directions s !! 0 = Some Hardware.right /\
  Hardware.servo_directions s !! 0 <> Some Hardware.neutral.
Proof.
  split; [repeat constructor|].
  split; [vm_compute; reflexivity|].
  split; [vm_compute; reflexivity|].
  vm_compute. discriminate.
Qed.

(** C6, amended. For a configured channel and an angle within 0..180,
    two successive calls of [set_servo_position] with that angle leave the
    direction of the channel at neutral. *)
Theorem setAngle_twice_neutral (s : Hardware.state) (channel angle : Z) :
  channel ∈ Config.SERVO_CHANNELS ->
  is_Some (Hardware.servo_positions s !! channel) ->
  0 <= angle <= 180 ->
  Hardware.servo_directions
    (Engine.steps [Engine.SetAngle channel angle; Engine.SetAngle channel angle] s)
    !! channel = Some Hardware.neutral.
Proof.
  intros Hc [previous Hp] Ha. apply in_channels_iff in Hc.
  unfold Engine.steps. cbn [fold_left Engine.step]. unfold Py.exec.
  destruct (set_servo_position_known channel angle previous s Hc Hp)
    as (pulse & _ & ->). cbn [snd].
  set (s1 := Engine.positioned channel angle previous pulse s).
  assert (Hp1 : Hardware.servo_positions s1 !! channel = Some angle).
  { subst s1. rewrite positioned_positions, lookup_insert_eq.
    rewrite clamp_id by assumption. reflexivity. }
  destruct (set_servo_position_known channel angle angle s1 Hc Hp1)
    as (pulse' & _ & ->). cbn [snd].
  rewrite positioned_directions, lookup_insert_eq.
  unfold Hardware.direction_of.
  rewrite Z.gtb_ltb, Z.ltb_irrefl. reflexivity.
Qed.

Lemma setAngle_twice_neutral_witness :
  2 ∈ Config.SERVO_CHANNELS /\
  is_Some (Hardware.servo_positions (Hardware.initial false false) !! 2) /\
  0 <= 45 <= 180 /\
  Hardware.servo_directions
    (Engine.steps [Engine.SetAngle 2 45; Engine.SetAngle 2 45]
                  (Hardware.initial false false)) !! 2 = Some Hardware.neutral.
Proof.
  assert (H1 : 2 ∈ Config.SERVO_CHANNELS) by (repeat constructor).
  assert (H2 : is_Some (Hardware.servo_positions (Hardware.initial false false) !! 2))
    by (exists 90; reflexivity).
  assert (H3 : 0 <= 45 <= 180) by lia.
  split; [exact H1|]. split; [exact H2|]. split; [exact H3|].
  exact (setAngle_twice_neutral (Hardware.initial false false) 2 45 H1 H2 H3).
Defined.

(** ** The axis transform *)

(** C5 as stated fails: [int] truncates. At raw = 200 the quotient is
    90.549..., which the code turns into 90 and rounding into 91. *)
Lemma joystick_to_angle_round_counterexample :
  -32767 <= 200 <= 32767 /\
  Hardware.joystick_to_angle 200 = Py.Ret 90 /\
  Spec.angleFromAxis 200 = 91.
Proof.
  split; [lia|]. split; vm_compute; reflexivity.
Qed.

Lemma joystick_to_angle_checked :
  Engine.all_from (Z.to_nat 65535) (-32767) Engine.truncates = true.
Proof. vm_compute. reflexivity. Qed.

(** C5, amended. For every integer raw in [-32767, 32767],
    [joystick_to_angle] returns [((raw + 32767) * 180) / 65534] rounded
    down (the truncation of [((raw + 32767) / 65534) * 180]), an integer
    in [0, 180]. *)
Theorem joystick_to_angle_truncates (raw : Z) :
  -32767 <= raw <= 32767 ->
  Hardware.joystick_to_angle raw = Py.Ret ((raw + 32767) * 180 / 65534) /\
  0 <= (raw + 32767) * 180 / 65534 <= 180.
Proof.
  intros Hr. split.
  - pose proof (all_from_spec _ _ _ joystick_to_angle_checked raw) as H.
    rewrite Z2Nat.id in H by lia. specialize (H ltac:(lia)).
    unfold Engine.truncates in H.
    destruct (Hardware.joystick_to_angle raw) as [a|e]; [|discriminate].
    apply Z.eqb_eq in H. congruence.
  - split.
    + apply Z.div_pos; lia.
    + apply Z.div_le_upper_bound; lia.
Qed.

Lemma joystick_to_angle_truncates_witness :
  -32767 <= 200 <= 32767 /\
  Hardware.joystick_to_angle 200 = Py.Ret ((200 + 32767) * 180 / 65534) /\
  0 <= (200 + 32767) * 180 / 65534 <= 180.
Proof.
  assert (H : -32767 <= 200 <= 32767) by lia.
  split; [exact H|]. exact (joystick_to_angle_truncates 200 H).
Defined.

(** ** The request handler of a single servo *)

Section ControlServo.
Import Py Config Hardware.

Lemma control_servo_unknown (channel : Z) (data : WebInterface.angle_body)
    (e : WebInterface.env) :
  in_channels channel = false ->
  WebInterface.control_servo channel data e
  = (Ret (WebInterface.Response 400 WebInterface.InvalidChannel), e).
Proof.
  intros H. unfold WebInterface.control_servo. rewrite H. reflexivity.
Qed.

Lemma control_servo_accepts (channel angle previous : Z)
    (hw : state) (g : WebInterface.globals) :
  in_channels channel = true ->
  servo_positions hw !! channel = Some previous ->
  exists pulse,
    WebInterface.control_servo channel (WebInterface.Angle (Ret angle)) (hw, g)
    = (Ret (WebInterface.Response 200 (WebInterface.ServoSet channel angle)),
       (Engine.positioned channel angle previous pulse hw, g)).
Proof.
  intros Hin Hp.
  destruct (set_servo_position_known channel angle previous hw Hin Hp)
    as (pulse & _ & Hset).
  exists pulse. unfold WebInterface.control_servo. rewrite Hin. cbn [negb].
  unfold try_except, bind, lift, WebInterface.hardware, ret.
  rewrite Hset. reflexivity.
Qed.

End ControlServo.

(** C7 as stated fails for the out-of-range angle: a request for angle
    200 on channel 0 is answered with success and moves the stored angle
    from 90 to 180. *)
Lemma control_servo_out_of_range_counterexample :
  let e := (Hardware.initial false false,
            WebInterface.loaded (Hardware.initial false false)) in
  let r := WebInterface.control_servo 0 (WebInterface.Angle (Py.Ret 200)) e in
  180 < 200 /\
  Py.result (WebInterface.control_servo 0 (WebInterface.Angle (Py.Ret 200))) e
  = Py.Ret (WebInterface.Response 200 (WebInterface.ServoSet 0 200)) /\
  WebInterface.is_error (WebInterface.Response 200 (WebInterface.ServoSet 0 200))
  = false /\
  Hardware.servo_positions (fst e) !! 0 = Some 90 /\
  Hardware.servo_positions (fst (snd r)) !! 0 = Some 180.
Proof.
  split; [lia|]. repeat split; vm_compute; reflexivity.
Qed.

(** C7, amended. A request on a channel that is not configured is answered
    with an error (status 400) and changes nothing; a request on a
    configured channel with any integer angle, inside 0..180 or not, is
    answered with success, the stored angle becoming the requested angle
    constrained to 0..180, hold flags and lock flags staying as they
    were. *)
Theorem control_servo_validation (channel : Z) (hw : Hardware.state)
    (g : WebInterface.globals) :
  (channel ∉ Config.SERVO_CHANNELS ->
   forall data,
     exists r,
       WebInterface.control_servo channel data (hw, g) = (Py.Ret r, (hw, g)) /\
       WebInterface.is_error r = true /\ WebInterface.status r = 400) /\
  (channel ∈ Config.SERVO_CHANNELS ->
   is_Some (Hardware.servo_positions hw !! channel) ->
   forall angle,
     exists hw',
       WebInterface.control_servo channel (WebInterface.Angle (Py.Ret angle)) (hw, g)
       = (Py.Ret (WebInterface.Response 200 (WebInterface.ServoSet channel angle)),
          (hw', g)) /\
       Hardware.servo_positions hw'
       = <[channel := Hardware.clamp angle]> (Hardware.servo_positions hw) /\
       Hardware.hold_state hw' = Hardware.hold_state hw /\
       Hardware.lock_state hw' = Hardware.lock_state hw).
Proof.
  split.
  - intros Hc data. eexists. split.
    + apply control_servo_unknown.
      destruct (Hardware.in_channels channel) eqn:E; [|reflexivity].
      apply in_channels_iff in E. contradiction.
    + split; reflexivity.
  - intros Hc [previous Hp] angle. apply in_channels_iff in Hc.
    destruct (control_servo_accepts channel angle previous hw g Hc Hp)
      as [pulse Heq].
    eexists. split; [exact Heq|].
    rewrite positioned_positions, positioned_hold, positioned_lock. auto.
Qed.

Lemma control_servo_validation_witness :
  let hw := Hardware.initial false false in
  let g := WebInterface.loaded (Hardware.initial false false) in
  ((7 ∉ Config.SERVO_CHANNELS) /\
   exists r,
     WebInterface.control_servo 7 (WebInterface.Angle (Py.Ret 45)) (hw, g)
     = (Py.Ret r, (hw, g)) /\
     WebInterface.is_error r = true /\ WebInterface.status r = 400) /\
  (0 ∈ Config.SERVO_CHANNELS /\
   is_Some (Hardware.servo_positions hw !! 0) /\
   exists hw',
     WebInterface.control_servo 0 (WebInterface.Angle (Py.Ret 200)) (hw, g)
     = (Py.Ret (WebInterface.Response 200 (WebInterface.ServoSet 0 200)), (hw', g)) /\
     Hardware.servo_positions hw'
     = <[0 := Hardware.clamp 200]> (Hardware.servo_positions hw) /\
     Hardware.hold_state hw' = Hardware.hold_state hw /\
     Hardware.lock_state hw' = Hardware.lock_state hw).
Proof.
  intros hw g.
  assert (H7 : 7 ∉ Config.SERVO_CHANNELS).
  { intros H. apply in_channels_iff in H. vm_compute in H. discriminate. }
  assert (H0 : 0 ∈ Config.SERVO_CHANNELS) by (repeat constructor).
  assert (Hp : is_Some (Hardware.servo_positions hw !! 0))
    by (exists 90; reflexivity).
  split.
  - split; [exact H7|].
    exact (proj1 (control_servo_validation 7 hw g) H7
                 (WebInterface.Angle (Py.Ret 45))).
  - split; [exact H0|]. split; [exact Hp|].
    exact (proj2 (control_servo_validation 0 hw g) H0 Hp 200).
Defined.

(** ** The lock toggle of the controller and of the web interface *)

(** C1 fails on the code. The D-pad Down handler and the lock request
    assign the name [lock_state] of their own module, which the import
    bound to a copy of the flag; [move_servo] and [move_all_servos] read
    the flag of [hardware], which stays false. After the toggle reports
    "LOCKED", an axis event still moves channel 0 from 90 to 180, and
    after the lock request answers [lock_state: true] a move-all request
    still moves every channel to 0. *)
Theorem lock_toggle_does_not_suppress :
  let hw := Hardware.initial true false in
  let after_pad :=
    Py.exec (ControllerInput.handle_controller_input
               [ControllerInput.Event 10 0 ControllerInput.ecodes.EV_KEY 302 1]
               false)
            (hw, ControllerInput.loaded (Some ControllerInput.PS3) hw) in
  let after_axis :=
    Py.exec (ControllerInput.handle_controller_input
               [ControllerInput.Event 11 0 ControllerInput.ecodes.EV_ABS 0 32767]
               false)
            after_pad in
  let after_post :=
    WebInterface.toggle_lock WebInterface.NoFlag (hw, WebInterface.loaded hw) in
  let after_all :=
    Py.exec (WebInterface.control_all_servos (WebInterface.Angle (Py.Ret 0)))
            (snd after_post) in
  (ControllerInput.lock_state (snd after_pad) = true /\
   ControllerInput.console (snd after_pad) = [ControllerInput.ServosNow true] /\
   Hardware.lock_state (fst after_pad) = false /\
   Hardware.servo_positions (fst after_pad) !! 0 = Some 90 /\
   Hardware.servo_positions (fst after_axis) !! 0 = Some 180) /\
  (fst after_post
   = Py.Ret (WebInterface.Response 200 (WebInterface.LockSet true)) /\
   WebInterface.lock_state (snd (snd after_post)) = true /\
   Hardware.lock_state (fst (snd after_post)) = false /\
   Hardware.servo_positions (fst after_all)
   = Hardware.all_channels 0).
Proof.
  repeat split; vm_compute; reflexivity.
Qed.

(** No event and no lock request ever changes the flag that the movement
    functions read. *)
Lemma toggle_lock_leaves_hardware (data : WebInterface.flag_body)
    (e : WebInterface.env) :
  fst (snd (WebInterface.toggle_lock data e)) = fst e.
Proof. destruct e as [hw g]. reflexivity. Qed.

(** ** The exit confirmation *)

(** C9 fails on the code. The first press sets [q_pressed] and nothing
    ever clears it: there is no timer in this handler. Whatever the time
    stamps of the two presses, ten seconds apart or a day, the second one
    sets the exit flag. *)
Theorem exit_confirmation_never_disarms (t1 u1 t2 u2 : Z)
    (hw : Hardware.state) :
  let press1 := ControllerInput.Event t1 u1 ControllerInput.ecodes.EV_KEY 292 1 in
  let press2 := ControllerInput.Event t2 u2 ControllerInput.ecodes.EV_KEY 292 1 in
  let g0 := ControllerInput.loaded (Some ControllerInput.PS3) hw in
  let armed :=
    Py.exec (ControllerInput.handle_controller_input [press1] false) (hw, g0) in
  let final :=
    Py.exec (ControllerInput.handle_controller_input [press1; press2] false)
            (hw, g0) in
  ControllerInput.q_pressed (snd armed) = true /\
  ControllerInput.exit_flag (snd armed) = false /\
  ControllerInput.exit_flag (snd final) = true.
Proof.
  repeat split; reflexivity.
Qed.

Lemma exit_after_ten_seconds :
  let hw := Hardware.initial false false in
  ControllerInput.exit_flag
    (snd (Py.exec
            (ControllerInput.handle_controller_input
               [ControllerInput.Event 0 0 ControllerInput.ecodes.EV_KEY 292 1;
                ControllerInput.Event 10 0 ControllerInput.ecodes.EV_KEY 292 1]
               false)
            (hw, ControllerInput.loaded (Some ControllerInput.PS3) hw)))
  = true.
Proof. vm_compute. reflexivity. Qed.

(** ** The sensor sampler when a query fails *)

(** C8 as stated fails: the accelerometer reading is stored before the
    gyroscope is queried. When the gyroscope query raises, the tick ends
    with the new accelerometer values next to the old gyroscope,
    temperature and direction values. *)
Lemma sensor_partial_update_counterexample :
  let s := Hardware.initial false true in
  let reading := Hardware.XYZ (PyFloat.lit 1 1) (PyFloat.lit 2 1) (PyFloat.lit 98 10) in
  let dev := Hardware.MpuDevice (Py.Ret reading) (Py.Raise Py.OSError)
                                (Py.Ret (PyFloat.lit 25 1)) in
  let env := Hardware.SimEnv (fun _ => Hardware.fzero) (fun _ => Hardware.fzero)
                             (fun _ => Hardware.fzero) in
  let s' := Py.exec (Hardware.update_mpu_data dev env) s in
  Hardware.accel (Hardware.mpu_data s)
  = Hardware.XYZ Hardware.fzero Hardware.fzero Hardware.fzero /\
  Hardware.accel (Hardware.mpu_data s') = reading /\
  Hardware.gyro (Hardware.mpu_data s') = Hardware.gyro (Hardware.mpu_data s) /\
  Hardware.mpu_data s' <> Hardware.mpu_data s.
Proof.
  split; [reflexivity|]. split; [reflexivity|]. split; [reflexivity|].
  vm_compute. discriminate.
Qed.

(** C8, amended. In a tick in which a device query raises, the error is
    absorbed and every field that the tick has not yet written keeps its
    previous value: when the accelerometer query (the first one) raises,
    the entire previous snapshot is retained; when the gyroscope query
    raises, the gyroscope, temperature and direction fields are retained;
    when the temperature query raises, the temperature and direction
    fields are retained. *)
Theorem sensor_failure_retains (dev : Hardware.mpu_device)
    (env : Hardware.sim_env) (s : Hardware.state) :
  Hardware.mpu_connected s && Hardware.mpu s = true ->
  let d := Hardware.mpu_data s in
  let out := Hardware.update_mpu_data dev env s in
  let d' := Hardware.mpu_data (snd out) in
  (forall e, Hardware.get_accel_data dev = Py.Raise e ->
     out = (Py.Ret d, s)) /\
  (forall a e,
     Hardware.get_accel_data dev = Py.Ret a ->
     Hardware.get_gyro_data dev = Py.Raise e ->
     fst out = Py.Ret d' /\
     Hardware.accel d' = a /\ Hardware.gyro d' = Hardware.gyro d /\
     Hardware.temp d' = Hardware.temp d /\
     Hardware.mpu_direction d' = Hardware.mpu_direction d) /\
  (forall a g e,
     Hardware.get_accel_data dev = Py.Ret a ->
     Hardware.get_gyro_data dev = Py.Ret g ->
     Hardware.get_temp dev = Py.Raise e ->
     fst out = Py.Ret d' /\
     Hardware.accel d' = a /\ Hardware.gyro d' = g /\
     Hardware.temp d' = Hardware.temp d /\
     Hardware.mpu_direction d' = Hardware.mpu_direction d).
Proof.
  intros Hreal d out d'. subst d out d'.
  unfold Hardware.update_mpu_data, Py.bind, Py.gets, Py.try_except, Py.lift,
    Py.modify, Py.ret.
  rewrite Hreal.
  split; [|split].
  - intros e Ha. rewrite Ha. reflexivity.
  - intros a e Ha Hg. rewrite Ha, Hg. cbn. auto.
  - intros a g e Ha Hg Ht. rewrite Ha, Hg, Ht. cbn. auto.
Qed.

Lemma sensor_failure_retains_witness :
  let s := Hardware.initial false true in
  let dev := Hardware.MpuDevice (Py.Raise Py.OSError) (Py.Raise Py.OSError)
                                (Py.Raise Py.OSError) in
  let env := Hardware.SimEnv (fun _ => Hardware.fzero) (fun _ => Hardware.fzero)
                             (fun _ => Hardware.fzero) in
  Hardware.mpu_connected s && Hardware.mpu s = true /\
  Hardware.update_mpu_data dev env s = (Py.Ret (Hardware.mpu_data s), s).
Proof.
  intros s dev env.
  assert (H : Hardware.mpu_connected s && Hardware.mpu s = true) by reflexivity.
  split; [exact H|].
  exact (proj1 (sensor_failure_retains dev env s H) Py.OSError eq_refl).
Defined.

(** ** Rounding in binary64 *)

Section Rounding.

Lemma digits2_pos_size (p : positive) : digits2_pos p = Pos.size p.
Proof. induction p; cbn; congruence. Qed.

Lemma digits2_pos_bounds (p : positive) :
  2 ^ (Z.pos (digits2_pos p) - 1) <= Z.pos p < 2 ^ Z.pos (digits2_pos p).
Proof.
  rewrite digits2_pos_size.
  pose proof (Pos.size_gt p) as Hgt. pose proof (Pos.size_le p) as Hle.
  apply Pos2Z.pos_lt_pos in Hgt. apply Pos2Z.pos_le_pos in Hle.
  rewrite Pos2Z.inj_pow in Hgt, Hle.
  split; [|exact Hgt].
  replace (Z.pos (Pos.size p)) with (Z.succ (Z.pos (Pos.size p) - 1)) in Hle by lia.
  rewrite Z.pow_succ_r in Hle by lia. lia.
Qed.

Lemma digits2_pos_unique (p : positive) (d : Z) :
  2 ^ (d - 1) <= Z.pos p < 2 ^ d -> Z.pos (digits2_pos p) = d.
Proof.
  intros [Hlo Hhi]. destruct (digits2_pos_bounds p) as [Hlo' Hhi'].
  set (k := Z.pos (digits2_pos p)) in *.
  destruct (Z.lt_trichotomy k d) as [Hlt|[Heq|Hgt]]; [|exact Heq|].
  - pose proof (Z.pow_le_mono_r 2 k (d - 1)). lia.
  - pose proof (Z.pow_le_mono_r 2 d (k - 1)). lia.
Qed.

Lemma shr_1_m (mrs : shr_record) :
  0 <= shr_m mrs -> shr_m (shr_1 mrs) = shr_m mrs / 2.
Proof.
  destruct mrs as [m r s]. cbn [shr_m]. intros Hm.
  destruct m as [|[p|p|]|p]; cbn [shr_1 shr_m];
    [reflexivity
    |apply Z.div_unique with 1; lia
    |apply Z.div_unique with 0; lia
    |reflexivity
    |lia].
Qed.

Lemma iter_shr_1_m (k : positive) (mrs : shr_record) :
  0 <= shr_m mrs ->
  shr_m (SpecFloat.iter_pos shr_1 k mrs) = shr_m mrs / 2 ^ Z.pos k.
Proof.
  revert mrs. induction k as [k IH|k IH|]; intros mrs Hm; cbn [SpecFloat.iter_pos].
  - assert (H1 : 0 <= shr_m (shr_1 mrs)) by (rewrite shr_1_m by exact Hm; apply Z.div_pos; lia).
    assert (H2 : 0 <= shr_m (SpecFloat.iter_pos shr_1 k (shr_1 mrs)))
      by (rewrite IH by exact H1; apply Z.div_pos; [exact H1|apply Z.pow_pos_nonneg; lia]).
    rewrite IH by exact H2. rewrite IH by exact H1. rewrite shr_1_m by exact Hm.
    assert (0 < 2 ^ Z.pos k) by (apply Z.pow_pos_nonneg; lia).
    rewrite !Z.div_div by lia. f_equal.
    replace (Z.pos k~1) with (1 + Z.pos k + Z.pos k) by lia.
    rewrite !Z.pow_add_r by lia. lia.
  - assert (H2 : 0 <= shr_m (SpecFloat.iter_pos shr_1 k mrs))
      by (rewrite IH by exact Hm; apply Z.div_pos; [exact Hm|apply Z.pow_pos_nonneg; lia]).
    rewrite IH by exact H2. rewrite IH by exact Hm.
    assert (0 < 2 ^ Z.pos k) by (apply Z.pow_pos_nonneg; lia).
    rewrite !Z.div_div by lia. f_equal.
    replace (Z.pos k~0) with (Z.pos k + Z.pos k) by lia.
    rewrite !Z.pow_add_r by lia. lia.
  - rewrite shr_1_m by exact Hm. reflexivity.
Qed.

Lemma round_nearest_even_bounds (m : Z) (l : location) :
  m <= round_nearest_even m l <= m + 1.
Proof.
  destruct l as [|[]]; cbn; try lia. destruct (Z.even m); lia.
Qed.

Variables prec emax : Z.

Lemma shr_fexp_spec (m e : Z) (l : location) :
  0 <= m ->
  let e' := Z.max e (fexp prec emax (Zdigits2 m + e)) in
  snd (shr_fexp prec emax m e l) = e' /\
  shr_m (fst (shr_fexp prec emax m e l)) = m / 2 ^ (e' - e).
Proof.
  intros Hm e'. subst e'. unfold shr_fexp, shr.
  assert (Hrec : shr_m (shr_record_of_loc m l) = m) by (destruct l as [|[]]; reflexivity).
  destruct (fexp prec emax (Zdigits2 m + e) - e) as [|k|k] eqn:Hk; cbn [fst snd].
  - rewrite Z.max_l by lia. rewrite Z.sub_diag, Z.pow_0_r, Z.div_1_r. auto.
  - rewrite Z.max_r by lia. split; [lia|].
    rewrite iter_shr_1_m by lia. rewrite Hrec. f_equal. f_equal. lia.
  - rewrite Z.max_l by lia. rewrite Z.sub_diag, Z.pow_0_r, Z.div_1_r. auto.
Qed.

Lemma binary_round_aux_spec (sx : bool) (p : positive) (e : Z) :
  exists m1 : Z,
    let e1 := Z.max e (fexp prec emax (Z.pos (digits2_pos p) + e)) in
    let e2 := Z.max e1 (fexp prec emax (Zdigits2 m1 + e1)) in
    Z.pos p / 2 ^ (e1 - e) <= m1 <= Z.pos p / 2 ^ (e1 - e) + 1 /\
    binary_round_aux prec emax sx (Z.pos p) e loc_Exact
    = match m1 / 2 ^ (e2 - e1) with
      | Z0 => S754_zero sx
      | Z.pos m => if e2 <=? emax - prec then S754_finite sx m e2
                   else S754_infinity sx
      | Z.neg _ => S754_nan
      end.
Proof.
  unfold binary_round_aux.
  destruct (shr_fexp_spec (Z.pos p) e loc_Exact) as [He1 Hm1]; [lia|].
  destruct (shr_fexp prec emax (Z.pos p) e loc_Exact) as [mrs' e'].
  cbn [fst snd] in He1, Hm1. cbn [Zdigits2] in He1, Hm1.
  set (m1 := round_nearest_even (shr_m mrs') (loc_of_shr_record mrs')).
  exists m1. cbv zeta.
  pose proof (round_nearest_even_bounds (shr_m mrs') (loc_of_shr_record mrs')) as Hb.
  fold m1 in Hb. rewrite <- He1 in Hm1 |- *. rewrite <- Hm1. split; [exact Hb|].
  assert (H0 : 0 <= m1).
  { assert (0 <= shr_m mrs'); [|lia]. rewrite Hm1. apply Z.div_pos; [lia|].
    apply Z.pow_pos_nonneg; lia. }
  destruct (shr_fexp_spec m1 e' loc_Exact H0) as [He2 Hm2].
  destruct (shr_fexp prec emax m1 e' loc_Exact) as [mrs'' e''].
  cbn [fst snd] in He2, Hm2. rewrite Hm2, He2. reflexivity.
Qed.

End Rounding.

Section Binary64.

Lemma fexp64 (x : Z) : fexp 53 1024 x = Z.max (x - 53) (-1074).
Proof. reflexivity. Qed.

Lemma pow2_pos (n : Z) : 0 <= n -> 0 < 2 ^ n.
Proof. intros. apply Z.pow_pos_nonneg; lia. Qed.

Lemma pow2_split (a b : Z) : 0 <= a -> 0 <= b -> 2 ^ (a + b) = 2 ^ a * 2 ^ b.
Proof. intros. apply Z.pow_add_r; assumption. Qed.

Lemma Zdigits2_upper (m B n d : Z) :
  0 <= m -> 0 <= n -> 0 <= d -> B < 2 ^ d -> m <= B * 2 ^ n ->
  Zdigits2 m <= d + n.
Proof.
  intros Hm Hn Hd HB Hle. destruct m as [|q|q]; cbn [Zdigits2]; [lia| |lia].
  destruct (digits2_pos_bounds q) as [Hlo _].
  pose proof (pow2_pos n Hn) as Hp.
  assert (Hlt : 2 ^ (Z.pos (digits2_pos q) - 1) < 2 ^ (d + n)).
  { rewrite (pow2_split d n) by assumption.
    apply Z.le_lt_trans with (B * 2 ^ n); [lia|].
    apply Z.mul_lt_mono_pos_r; assumption. }
  apply Z.pow_lt_mono_r_iff in Hlt; lia.
Qed.

Lemma div_pow2_upper (m B a b : Z) :
  0 <= a -> 0 <= b -> m <= B * 2 ^ (a + b) -> m / 2 ^ a <= B * 2 ^ b.
Proof.
  intros Ha Hb Hle. apply Z.div_le_upper_bound; [apply pow2_pos; exact Ha|].
  rewrite pow2_split in Hle by assumption. lia.
Qed.

Lemma binary_round_aux_upper (sx : bool) (p : positive) (e B b : Z) :
  0 < B -> B + 1 < 2 ^ 53 -> e <= b -> -1074 <= b <= 971 ->
  Z.pos p <= B * 2 ^ (b - e) ->
  binary_round_aux 53 1024 sx (Z.pos p) e loc_Exact = S754_zero sx \/
  exists m2 e2,
    binary_round_aux 53 1024 sx (Z.pos p) e loc_Exact = S754_finite sx m2 e2 /\
    e2 <= b /\ Z.pos m2 <= (B + 1) * 2 ^ (b - e2).
Proof.
  intros HB0 HB He Hb Hle.
  destruct (binary_round_aux_spec 53 1024 sx p e) as [m1 [Hm1 Heq]].
  rewrite Heq. clear Heq. rewrite !fexp64 in *.
  pose proof (Zdigits2_upper (Z.pos p) B (b - e) 53) as Hd.
  cbn [Zdigits2] in Hd.
  set (e1 := Z.max e (Z.max (Z.pos (digits2_pos p) + e - 53) (-1074))) in *.
  assert (He1 : e <= e1 <= b) by lia.
  assert (H0 : 0 <= Z.pos p / 2 ^ (e1 - e))
    by (apply Z.div_pos; [lia|apply pow2_pos; lia]).
  assert (Hq : Z.pos p / 2 ^ (e1 - e) <= B * 2 ^ (b - e1)).
  { apply div_pow2_upper; [lia|lia|].
    replace (e1 - e + (b - e1)) with (b - e) by lia. exact Hle. }
  pose proof (pow2_pos (b - e1)) as Hp1.
  assert (Hm1' : m1 <= (B + 1) * 2 ^ (b - e1)) by nia.
  pose proof (Zdigits2_upper m1 (B + 1) (b - e1) 53) as Hd1.
  set (e2 := Z.max e1 (Z.max (Zdigits2 m1 + e1 - 53) (-1074))) in *.
  assert (He2 : e1 <= e2 <= b) by lia.
  assert (Hm2 : m1 / 2 ^ (e2 - e1) <= (B + 1) * 2 ^ (b - e2)).
  { apply div_pow2_upper; [lia|lia|].
    replace (e2 - e1 + (b - e2)) with (b - e1) by lia. exact Hm1'. }
  assert (H2 : 0 <= m1 / 2 ^ (e2 - e1))
    by (apply Z.div_pos; [lia|apply pow2_pos; lia]).
  destruct (m1 / 2 ^ (e2 - e1)) as [|m2|m2]; [left; reflexivity| |lia].
  right. exists m2, e2.
  replace (e2 <=? 1024 - 53) with true by (symmetry; apply Z.leb_le; lia).
  split; [reflexivity|]. split; [lia|exact Hm2].
Qed.

End Binary64.

(** ** The simulated accelerometer *)

Section SimulatedZ.
Import Py PyFloat Hardware.

Lemma literal_one : lit 1 1 = S754_finite false 4503599627370496 (-52).
Proof. vm_compute. reflexivity. Qed.

Lemma literal_fifth : lit 2 10 = S754_finite false 7205759403792794 (-55).
Proof. vm_compute. reflexivity. Qed.

Lemma literal_98 : lit 98 10 = S754_finite false 5516909543528858 (-49).
Proof. vm_compute. reflexivity. Qed.

Lemma threshold_above :
  fadd (lit 98 10) (lit 3 10) = S754_finite false 5685794529555252 (-49).
Proof. vm_compute. reflexivity. Qed.

Lemma threshold_below :
  fsub (lit 98 10) (lit 3 10) = S754_finite false 5348024557502464 (-49).
Proof. vm_compute. reflexivity. Qed.

Lemma compare_cont_lt (a b : positive) :
  Pos.compare_cont Eq a b = Lt -> Z.pos a < Z.pos b.
Proof.
  intros H. exact (Pos2Z.pos_lt_pos _ _ (proj1 (Pos.compare_lt_iff a b) H)).
Qed.

Lemma compare_cont_le (a b : positive) :
  Pos.compare_cont Eq a b <> Gt -> Z.pos a <= Z.pos b.
Proof.
  intros H.
  exact (Pos2Z.pos_le_pos _ _ (proj1 (Pos.compare_le_iff a b) H)).
Qed.

Lemma compare_cont_ge (a b : positive) :
  Pos.compare_cont Eq a b <> Lt -> Z.pos b <= Z.pos a.
Proof.
  intros H.
  exact (Pos2Z.pos_le_pos _ _ (proj1 (Pos.compare_ge_iff a b) H)).
Qed.

(** A double within [-1.0, 1.0], mantissa and exponent. *)
Lemma unit_range_finite (sg : bool) (m : positive) (e : Z) :
  unit_range (S754_finite sg m e) = true -> e <= -52 /\ Z.pos m <= 2 ^ (- e).
Proof.
  unfold unit_range, fle, fneg. rewrite literal_one.
  rewrite !andb_true_iff. intros [[Hv Hlo] Hhi].
  change prec with 53 in Hv. change emax with 1024 in Hv.
  cbn [valid_binary] in Hv. unfold bounded, canonical_mantissa in Hv.
  apply andb_true_iff in Hv. destruct Hv as [Hc _].
  apply Z.eqb_eq in Hc. rewrite fexp64 in Hc.
  destruct (digits2_pos_bounds m) as [_ Hd].
  assert (Hm : Z.pos m < 2 ^ 53).
  { apply Z.lt_le_trans with (1 := Hd). apply Z.pow_le_mono_r; lia. }
  assert (Hcmp : e < -52 \/ e = -52 /\ Z.pos m <= 4503599627370496).
  { unfold SFleb, SFcompare, SFopp in Hlo, Hhi. cbn [negb] in Hlo, Hhi.
    destruct sg.
    - destruct (Z.compare_spec (-52) e) as [He|He|He];
        [right|discriminate Hlo|left; lia].
      split; [lia|]. apply compare_cont_ge. intros Hc'.
      rewrite Hc' in Hlo. discriminate Hlo.
    - destruct (Z.compare_spec e (-52)) as [He|He|He];
        [right|left; exact He|discriminate Hhi].
      split; [exact He|]. apply compare_cont_le. intros Hc'.
      rewrite Hc' in Hhi. discriminate Hhi. }
  clear Hlo Hhi Hd Hc.
  destruct Hcmp as [He|[He Hle]].
  - split; [lia|]. apply Z.lt_le_incl. apply Z.lt_le_trans with (1 := Hm).
    apply Z.pow_le_mono_r; lia.
  - subst e. split; [lia|exact Hle].
Qed.
(** The sinusoid term: a double within [-1.0, 1.0] times [0.2] is a
    zero or a double of magnitude at most [0.2] and one unit in the last
    place. *)
Lemma mul_unit_fifth (sg : bool) (m : positive) (e : Z) :
  unit_range (S754_finite sg m e) = true ->
  fmul (S754_finite sg m e) (lit 2 10) = S754_zero sg \/
  exists mp ep,
    fmul (S754_finite sg m e) (lit 2 10) = S754_finite sg mp ep /\
    ep <= -55 /\ Z.pos mp <= 7205759403792795 * 2 ^ (-55 - ep).
Proof.
  intros Hu. apply unit_range_finite in Hu. destruct Hu as [He Hm].
  rewrite literal_fifth. unfold fmul, SFmul. change prec with 53.
  change emax with 1024. rewrite xorb_false_r.
  apply (binary_round_aux_upper sg _ (e + -55) 7205759403792794 (-55)); try lia.
  rewrite Pos2Z.inj_mul. replace (-55 - (e + -55)) with (- e) by lia.
  pose proof (pow2_pos (- e)). nia.
Qed.

(** [9.8] plus such a term: the exponent stays that of [9.8], and the
    mantissa stays within the one of [9.8] give or take that of [0.2]
    and a unit. *)
Lemma add_near_98 (sg : bool) (mp : positive) (ep : Z) :
  ep <= -55 -> Z.pos mp <= 7205759403792795 * 2 ^ (-55 - ep) ->
  exists q,
    fadd (lit 98 10) (S754_finite sg mp ep) = S754_finite false q (-49) /\
    5404319552844595 <= Z.pos q <= 5629499534213122.
Proof.
  intros He Hm. rewrite literal_98. unfold fadd, SFadd.
  change prec with 53. change emax with 1024.
  rewrite Z.min_r by lia. unfold shl_align at 2. rewrite Z.sub_diag.
  unfold shl_align. cbn [fst].
  destruct (ep - -49) as [|d|d] eqn:Hd; [lia|lia|]. cbn [fst].
  change (Pos.iter xO 5516909543528858 d)%positive
    with (shift_pos d 5516909543528858).
  rewrite shift_pos_correct, Z.pow_pos_fold.
  set (P := 2 ^ (-55 - ep)) in *.
  assert (HP : 0 < P) by (apply pow2_pos; lia).
  assert (Hpow : 2 ^ Z.pos d = 64 * P).
  { unfold P. change 64 with (2 ^ 6). rewrite <- pow2_split by lia.
    f_equal. lia. }
  rewrite Hpow.
  set (M := cond_Zopp false (64 * P * 5516909543528858) + cond_Zopp sg (Z.pos mp)).
  assert (HM : (64 * 5516909543528858 - 7205759403792795) * P <= M
               <= (64 * 5516909543528858 + 7205759403792795) * P).
  { unfold M. destruct sg; cbn [cond_Zopp]; lia. }
  destruct M as [|Mp|Mp]; [lia| |lia].
  cbn [binary_normalize]. unfold binary_round.
  assert (Hdig : Z.pos (digits2_pos Mp) = 53 + Z.pos d).
  { apply digits2_pos_unique.
    replace (53 + Z.pos d - 1) with (52 + Z.pos d) by lia.
    rewrite !pow2_split, Hpow by lia. lia. }
  rewrite Hdig. replace (53 + Z.pos d + ep) with 4 by lia.
  change (fexp 53 1024 4) with (-49).
  unfold shl_align. replace (-49 - ep) with (Z.pos d) by lia.
  destruct (binary_round_aux_spec 53 1024 false Mp ep) as [m1 [Hm1 Heq]].
  rewrite Heq. clear Heq. rewrite Hdig in *.
  replace (53 + Z.pos d + ep) with 4 in * by lia.
  change (fexp 53 1024 4) with (-49) in *.
  rewrite (Z.max_r ep (-49)) in * by lia.
  replace (-49 - ep) with (Z.pos d) in * by lia. rewrite Hpow in Hm1.
  assert (Hlo : 5404319552844595 <= Z.pos Mp / (64 * P))
    by (apply Z.div_le_lower_bound; lia).
  assert (Hhi : Z.pos Mp / (64 * P) <= 5629499534213121)
    by (apply Z.div_le_upper_bound; lia).
  destruct m1 as [|q|q]; [lia| |lia].
  assert (Hdq : Z.pos (digits2_pos q) = 53)
    by (apply digits2_pos_unique; change (2 ^ (53 - 1)) with 4503599627370496;
        change (2 ^ 53) with 9007199254740992; lia).
  cbn [Zdigits2]. rewrite Hdq.
  change (Z.max (-49) (fexp 53 1024 (53 + -49)) - -49) with 0.
  change (Z.max (-49) (fexp 53 1024 (53 + -49))) with (-49).
  rewrite Z.pow_0_r, Z.div_1_r. change (-49 <=? 1024 - 53) with true.
  exists q. split; [reflexivity|lia].
Qed.

(** The z classification of the simulation branch on any sine value. *)
Lemma simulated_z_neutral (v : float) :
  unit_range v = true ->
  classify up down (fadd (lit 98 10) (fmul v (lit 2 10)))
           (fadd (lit 98 10) (lit 3 10)) (fsub (lit 98 10) (lit 3 10))
  = neutral.
Proof.
  intros Hv. rewrite threshold_above, threshold_below.
  assert (Hq : forall q : positive,
             5404319552844595 <= Z.pos q <= 5629499534213122 ->
             classify up down (S754_finite false q (-49))
               (S754_finite false 5685794529555252 (-49))
               (S754_finite false 5348024557502464 (-49)) = neutral).
  { intros q Hq. unfold classify, fgt, flt, SFltb, SFcompare.
    change (-49 ?= -49) with Eq. cbv beta iota.
    destruct (Pos.compare_cont Eq 5685794529555252 q) eqn:Hhi;
      [|apply compare_cont_lt in Hhi; lia|];
      (destruct (Pos.compare_cont Eq q 5348024557502464) eqn:Hlo;
         [reflexivity|apply compare_cont_lt in Hlo; lia|reflexivity]). }
  destruct v as [sg|sg| |sg m e].
  - rewrite literal_fifth, literal_98. destruct sg; vm_compute; reflexivity.
  - destruct sg; vm_compute in Hv; discriminate Hv.
  - vm_compute in Hv. discriminate Hv.
  - destruct (mul_unit_fifth sg m e Hv) as [Hz|(mp & ep & Hp & He & Hm)].
    + rewrite Hz, literal_98. destruct sg; vm_compute; reflexivity.
    + rewrite Hp. destruct (add_near_98 sg mp ep He Hm) as (q & Hsum & Hq').
      rewrite Hsum. apply Hq, Hq'.
Qed.


End SimulatedZ.

(** C10. In simulation mode (no MPU6050 connected), whatever the readings
    of the clock, a tick of [update_mpu_data] returns the snapshot, stores
    as z acceleration 9.8 plus 0.2 times the sine of the third reading
    times 0.3, and classifies the z axis as neutral: that value is neither
    above 9.8 + 0.3 nor below 9.8 - 0.3. The sine of the C library is taken
    to answer a double within [-1.0, 1.0]; the arithmetic is that of
    binary64, roundings included. *)
Theorem simulation_z_neutral (dev : Hardware.mpu_device)
    (env : Hardware.sim_env) (s : Hardware.state) :
  Hardware.mpu_connected s && Hardware.mpu s = false ->
  (forall t, Hardware.unit_range (Hardware.math_sin env t) = true) ->
  let out := Hardware.update_mpu_data dev env s in
  let d := Hardware.mpu_data (snd out) in
  let az :=
    PyFloat.fadd (PyFloat.lit 98 10)
      (PyFloat.fmul
         (Hardware.math_sin env
            (PyFloat.fmul (Hardware.time_time env 2%nat) (PyFloat.lit 3 10)))
         (PyFloat.lit 2 10)) in
  fst out = Py.Ret d /\
  Hardware.z (Hardware.accel d) = az /\
  PyFloat.fgt az (PyFloat.fadd (PyFloat.lit 98 10) (PyFloat.lit 3 10)) = false /\
  PyFloat.flt az (PyFloat.fsub (PyFloat.lit 98 10) (PyFloat.lit 3 10)) = false /\
  Hardware.z (Hardware.mpu_direction d) = Hardware.neutral.
Proof.
  intros Hsim Hsin out d az.
  pose proof (simulated_z_neutral _
                (Hsin (PyFloat.fmul (Hardware.time_time env 2%nat)
                                    (PyFloat.lit 3 10)))) as Hz.
  fold az in Hz.
  assert (Hout : out = (Py.Ret (Hardware.simulated env (Hardware.mpu_data s)),
                        Hardware.set_mpu_data (Hardware.simulated env) s)).
  { subst out. unfold Hardware.update_mpu_data, Py.bind, Py.gets, Py.modify.
    rewrite Hsim. reflexivity. }
  subst d. rewrite Hout. cbn [fst snd Hardware.set_mpu_data Hardware.mpu_data].
  split; [reflexivity|]. split; [reflexivity|].
  unfold Hardware.classify in Hz.
  destruct (PyFloat.fgt az _) eqn:Hgt; [discriminate Hz|].
  destruct (PyFloat.flt az _) eqn:Hlt; [discriminate Hz|].
  split; [reflexivity|]. split; [reflexivity|].
  cbn [Hardware.simulated Hardware.mpu_direction Hardware.directions Hardware.z].
  unfold Hardware.classify. fold az. rewrite Hgt, Hlt. reflexivity.
Qed.

Lemma simulation_z_neutral_witness :
  let dev := Hardware.MpuDevice (Py.Raise Py.OSError) (Py.Raise Py.OSError)
                                (Py.Raise Py.OSError) in
  let env := Hardware.SimEnv (fun _ => PyFloat.lit 1700000000 1)
                             (fun _ => PyFloat.lit 1 1)
                             (fun _ => Hardware.fzero) in
  let s := Hardware.initial false false in
  Hardware.mpu_connected s && Hardware.mpu s = false /\
  (forall t, Hardware.unit_range (Hardware.math_sin env t) = true) /\
  Hardware.z (Hardware.mpu_direction
                (Hardware.mpu_data (snd (Hardware.update_mpu_data dev env s))))
  = Hardware.neutral.
Proof.
  intros dev env s.
  assert (H1 : Hardware.mpu_connected s && Hardware.mpu s = false) by reflexivity.
  assert (H2 : forall t, Hardware.unit_range (Hardware.math_sin env t) = true)
    by (intros t; vm_compute; reflexivity).
  split; [exact H1|]. split; [exact H2|].
  exact (proj2 (proj2 (proj2 (proj2 (simulation_z_neutral dev env s H1 H2))))).
Defined.

(** ** Pulses *)

Lemma angle_to_pwm_checked :
  Engine.all_from 181 0
    (fun a => match Hardware.angle_to_pwm a with
              | Py.Ret p => p =? 150 + 5 * a / 2
              | Py.Raise _ => false
              end) = true.
Proof. vm_compute. reflexivity. Qed.

Lemma angle_to_pwm_clamp (a : Z) :
  Hardware.angle_to_pwm (Hardware.clamp a) = Hardware.angle_to_pwm a.
Proof.
  unfold Hardware.angle_to_pwm.
  rewrite (clamp_id (Hardware.clamp a)) by apply clamp_range. reflexivity.
Qed.

Lemma angle_to_pwm_value (a : Z) :
  Hardware.angle_to_pwm a = Py.Ret (150 + 5 * Hardware.clamp a / 2).
Proof.
  pose proof (all_from_spec _ _ _ angle_to_pwm_checked (Hardware.clamp a)) as H.
  cbv beta in H. pose proof (clamp_range a) as Hr.
  specialize (H ltac:(lia)). rewrite angle_to_pwm_clamp in H.
  destruct (Hardware.angle_to_pwm a) as [p|e]; [|discriminate H].
  apply Z.eqb_eq in H. congruence.
Qed.

Lemma pulse_range (a : Z) :
  Config.SERVO_MIN <= 150 + 5 * Hardware.clamp a / 2 <= Config.SERVO_MAX.
Proof.
  pose proof (clamp_range a) as Hr. unfold Config.SERVO_MIN, Config.SERVO_MAX.
  split.
  - assert (0 <= 5 * Hardware.clamp a / 2) by (apply Z.div_pos; lia). lia.
  - assert (5 * Hardware.clamp a / 2 <= 450)
      by (apply Z.div_le_upper_bound; lia). lia.
Qed.

(** X1. For every integer angle, [angle_to_pwm] returns, without error,
    the pulse 150 + floor(5 a' / 2) where a' is the angle constrained to
    0..180: the float computation loses nothing, the pulse lies between
    [SERVO_MIN] and [SERVO_MAX], and it does not decrease when the angle
    grows. *)
Theorem angle_to_pwm_exact (a b : Z) :
  Hardware.angle_to_pwm a = Py.Ret (150 + 5 * Hardware.clamp a / 2) /\
  Config.SERVO_MIN <= 150 + 5 * Hardware.clamp a / 2 <= Config.SERVO_MAX /\
  (a <= b ->
   150 + 5 * Hardware.clamp a / 2 <= 150 + 5 * Hardware.clamp b / 2).
Proof.
  split; [apply angle_to_pwm_value|]. split; [apply pulse_range|].
  intros Hab. apply Z.add_le_mono_l. apply Z.div_le_mono; [lia|].
  unfold Hardware.clamp. lia.
Qed.

(** ** The axis transform over the range of the device *)

Lemma joystick_to_angle_value (raw : Z) :
  -32767 <= raw <= 32767 ->
  Hardware.joystick_to_angle raw = Py.Ret ((raw + 32767) * 180 / 65534).
Proof.
  intros Hr.
  pose proof (all_from_spec _ _ _ joystick_to_angle_checked raw) as H.
  rewrite Z2Nat.id in H by lia. specialize (H ltac:(lia)).
  unfold Engine.truncates in H.
  destruct (Hardware.joystick_to_angle raw) as [a|e]; [|discriminate].
  apply Z.eqb_eq in H. congruence.
Qed.

(** X2. Over the range of the device, [joystick_to_angle] never
    decreases when the raw value grows, and maps the two ends and the
    centre to 0, 180 and 90. *)
Theorem joystick_to_angle_monotone (r1 r2 : Z) :
  -32767 <= r1 -> r1 <= r2 -> r2 <= 32767 ->
  (exists a1 a2,
     Hardware.joystick_to_angle r1 = Py.Ret a1 /\
     Hardware.joystick_to_angle r2 = Py.Ret a2 /\ a1 <= a2) /\
  Hardware.joystick_to_angle (-32767) = Py.Ret 0 /\
  Hardware.joystick_to_angle 0 = Py.Ret 90 /\
  Hardware.joystick_to_angle 32767 = Py.Ret 180.
Proof.
  intros H1 H12 H2. split.
  - exists ((r1 + 32767) * 180 / 65534), ((r2 + 32767) * 180 / 65534).
    split; [apply joystick_to_angle_value; lia|].
    split; [apply joystick_to_angle_value; lia|].
    apply Z.div_le_mono; lia.
  - repeat split; vm_compute; reflexivity.
Qed.

Lemma joystick_to_angle_monotone_witness :
  -32767 <= -100 /\ -100 <= 20000 /\ 20000 <= 32767 /\
  exists a1 a2,
    Hardware.joystick_to_angle (-100) = Py.Ret a1 /\
    Hardware.joystick_to_angle 20000 = Py.Ret a2 /\ a1 <= a2.
Proof.
  assert (H1 : -32767 <= -100) by lia.
  assert (H2 : -100 <= 20000) by lia.
  assert (H3 : 20000 <= 32767) by lia.
  split; [exact H1|]. split; [exact H2|]. split; [exact H3|].
  exact (proj1 (joystick_to_angle_monotone (-100) 20000 H1 H2 H3)).
Defined.

Lemma joystick_to_angle_reaches :
  Engine.all_from 181 0
    (fun a =>
       let raw := (a * 65534 + 179) / 180 - 32767 in
       (-32767 <=? raw) && (raw <=? 32767) &&
       match Hardware.joystick_to_angle raw with
       | Py.Ret b => b =? a
       | Py.Raise _ => false
       end) = true.
Proof. vm_compute. reflexivity. Qed.

(** X3. Every angle of 0..180 is the image of some raw value of the
    device range, and 180 is reached at full deflection only: a raw value
    of the range below 32767 gives an angle below 180. *)
Theorem joystick_to_angle_onto (a : Z) :
  0 <= a <= 180 ->
  (exists raw, -32767 <= raw <= 32767 /\
               Hardware.joystick_to_angle raw = Py.Ret a) /\
  (forall raw, -32767 <= raw < 32767 ->
     exists b, Hardware.joystick_to_angle raw = Py.Ret b /\ b < 180).
Proof.
  intros Ha. split.
  - pose proof (all_from_spec _ _ _ joystick_to_angle_reaches a) as H.
    cbv beta zeta in H. specialize (H ltac:(lia)).
    exists ((a * 65534 + 179) / 180 - 32767).
    apply andb_true_iff in H as [Hr H]. apply andb_true_iff in Hr as [Hlo Hhi].
    apply Z.leb_le in Hlo, Hhi. split; [lia|].
    destruct (Hardware.joystick_to_angle _) as [b|e]; [|discriminate H].
    apply Z.eqb_eq in H. congruence.
  - intros raw Hr. exists ((raw + 32767) * 180 / 65534).
    split; [apply joystick_to_angle_value; lia|].
    apply Z.div_lt_upper_bound; lia.
Qed.

Lemma joystick_to_angle_onto_witness :
  0 <= 45 <= 180 /\
  exists raw, -32767 <= raw <= 32767 /\
              Hardware.joystick_to_angle raw = Py.Ret 45.
Proof.
  assert (H : 0 <= 45 <= 180) by lia.
  split; [exact H|]. exact (proj1 (joystick_to_angle_onto 45 H)).
Defined.

(** ** What the movement functions preserve *)

Section Preservation.
Import Py Config Hardware Engine.

Lemma set_servo_position_cases (channel angle : Z) (s : state) :
  exec (set_servo_position channel angle) s = s \/
  exists previous,
    channel ∈ SERVO_CHANNELS /\
    servo_positions s !! channel = Some previous /\
    exec (set_servo_position channel angle) s
    = positioned channel angle previous (150 + 5 * clamp angle / 2) s.
Proof.
  unfold exec. destruct (in_channels channel) eqn:Hin.
  - destruct (servo_positions s !! channel) as [previous|] eqn:Hp.
    + right. exists previous.
      destruct (set_servo_position_known channel angle previous s Hin Hp)
        as (pulse & Hpulse & ->).
      rewrite angle_to_pwm_value in Hpulse.
      rewrite (clamp_id (clamp angle)) in Hpulse by apply clamp_range.
      injection Hpulse as <-.
      split; [apply in_channels_iff, Hin|]. split; reflexivity.
    + left. rewrite set_servo_position_missing by assumption. reflexivity.
  - left. rewrite set_servo_position_unknown by assumption. reflexivity.
Qed.

Variable P : state -> Prop.
Hypothesis set_preserves :
  forall channel angle s, P s -> P (exec (set_servo_position channel angle) s).

Lemma move_servo_preserves (channel value : Z) (s : state) :
  P s -> P (exec (move_servo channel value) s).
Proof.
  intros Hs. unfold exec, move_servo, bind, gets, ret, lift, getitem.
  destruct (lock_state s); [exact Hs|].
  destruct (hold_state s !! channel) as [[|]|]; [exact Hs| |exact Hs].
  destruct (servo_positions s !! channel) as [old|]; [|exact Hs].
  destruct (joystick_to_angle value) as [angle|e]; [|exact Hs].
  pose proof (set_preserves channel angle s Hs) as H. unfold exec in H.
  destruct (set_servo_position channel angle s) as [[b|e] s1]; exact H.
Qed.

Lemma move_each_preserves (channels : list Z) (angle : Z) :
  forall (results : gmap Z (Z * Z)) (s : state),
    P s -> P (exec (move_each channels angle results) s).
Proof.
  unfold exec. induction channels as [|channel rest IH]; intros results s Hs.
  - exact Hs.
  - cbn [move_each]. unfold bind, lift, getitem.
    destruct (hold_state s !! channel) as [[|]|]; [apply IH, Hs| |exact Hs].
    cbn [negb].
    destruct (servo_positions s !! channel) as [old|]; [|exact Hs].
    pose proof (set_preserves channel angle s Hs) as H. unfold exec in H.
    destruct (set_servo_position channel angle s) as [[b|e] s1];
      [apply IH, H|exact H].
Qed.

Lemma move_all_servos_preserves (angle : Z) (s : state) :
  P s -> P (exec (move_all_servos angle) s).
Proof.
  intros Hs. pose proof (move_each_preserves SERVO_CHANNELS angle ∅ s Hs) as H.
  unfold exec in *. unfold move_all_servos, bind, gets, ret.
  destruct (lock_state s); [exact Hs|].
  destruct (move_each SERVO_CHANNELS angle ∅ s) as [[r|e] s1]; exact H.
Qed.

Lemma step_preserves (c : command) (s : state) : P s -> P (step s c).
Proof.
  destruct c as [channel angle|channel raw|angle]; cbn [step].
  - apply set_preserves.
  - apply move_servo_preserves.
  - apply move_all_servos_preserves.
Qed.

Lemma steps_preserve (cs : list command) (s : state) : P s -> P (steps cs s).
Proof.
  unfold steps. revert s. induction cs as [|c cs IH]; intros s Hs.
  - exact Hs.
  - cbn [fold_left]. apply IH, step_preserves, Hs.
Qed.

End Preservation.

Section PulseFacts.
Import Py Config Hardware Engine.

Lemma positioned_connection channel angle previous pulse s :
  pca_connected (positioned channel angle previous pulse s) = pca_connected s /\
  pwm (positioned channel angle previous pulse s) = pwm s.
Proof. unfold positioned. destruct (pca_connected s && pwm s); auto. Qed.

Lemma positioned_writes channel angle previous pulse s :
  pwm_writes (positioned channel angle previous pulse s)
  = if pca_connected s && pwm s then (channel, pulse) :: pwm_writes s
    else pwm_writes s.
Proof. unfold positioned. destruct (pca_connected s && pwm s); reflexivity. Qed.

Lemma set_servo_position_consistent (channel angle : Z) (s : state) :
  Pulses.consistent s ->
  Pulses.consistent (exec (set_servo_position channel angle) s).
Proof.
  intros (Hnone & Hrange & Hlast).
  destruct (set_servo_position_cases channel angle s)
    as [->|(previous & Hc & Hp & ->)];
    [exact (conj Hnone (conj Hrange Hlast))|].
  unfold Pulses.consistent.
  destruct (positioned_connection channel angle previous
              (150 + 5 * clamp angle / 2) s) as [-> ->].
  rewrite positioned_writes, positioned_positions.
  destruct (pca_connected s && pwm s) eqn:Hconn.
  - split; [discriminate|]. split.
    + intros c p [Heq|Hin]; [|apply Hrange, Hin].
      injection Heq as <- <-. split; [exact Hc|apply pulse_range].
    + intros c p. cbn [Pulses.last_pulse].
      destruct (channel =? c) eqn:E.
      * apply Z.eqb_eq in E. subst c. intros [= <-].
        exists (clamp angle). rewrite lookup_insert_eq. auto.
      * apply Z.eqb_neq in E. intros Hl.
        rewrite lookup_insert_ne by congruence. apply Hlast, Hl.
  - rewrite (Hnone eq_refl). split; [reflexivity|]. split.
    + intros c p [].
    + intros c p Hl. discriminate Hl.
Qed.

Lemma initial_consistent (pca mpu_found : bool) :
  Pulses.consistent (initial pca mpu_found).
Proof.
  split; [reflexivity|]. split.
  - intros c p [].
  - intros c p Hl. discriminate Hl.
Qed.

End PulseFacts.

(** X4. Whatever the sequence of [set_servo_position], [move_servo] and
    [move_all_servos] calls from the initial state and whatever their
    arguments, every pulse sent to the driver is on a configured channel
    and lies between [SERVO_MIN] and [SERVO_MAX]; without a PCA9685
    nothing is sent at all. *)
Theorem pulses_in_range (pca mpu_found : bool) (cs : list Engine.command) :
  let s := Engine.steps cs (Hardware.initial pca mpu_found) in
  (forall channel pulse,
     In (channel, pulse) (Hardware.pwm_writes s) ->
     channel ∈ Config.SERVO_CHANNELS /\
     Config.SERVO_MIN <= pulse <= Config.SERVO_MAX) /\
  (pca = false -> Hardware.pwm_writes s = []).
Proof.
  intros s.
  assert (Hc : Pulses.consistent s)
    by (apply steps_preserve;
        [apply set_servo_position_consistent|apply initial_consistent]).
  assert (Hf : Hardware.pca_connected s = pca /\ Hardware.pwm s = pca).
  { subst s. apply (steps_preserve
      (fun s => Hardware.pca_connected s = pca /\ Hardware.pwm s = pca)).
    - intros channel angle s0 Hs0.
      destruct (set_servo_position_cases channel angle s0)
        as [->|(previous & _ & _ & ->)]; [exact Hs0|].
      destruct (positioned_connection channel angle previous
                  (150 + 5 * Hardware.clamp angle / 2) s0) as [-> ->].
      exact Hs0.
    - split; reflexivity. }
  destruct Hc as (Hnone & Hrange & _). split; [exact Hrange|].
  intros ->. apply Hnone. destruct Hf as [-> _]. reflexivity.
Qed.



(** ** Moving all the servos *)

Section MoveAll.
Import Py Config Hardware Engine.

Lemma move_each_results (angle : Z) (channels : list Z) :
  NoDup channels ->
  forall (results : gmap Z (Z * Z)) (s : state),
    (forall c, c ∈ channels ->
       in_channels c = true /\ is_Some (servo_positions s !! c) /\
       is_Some (hold_state s !! c)) ->
    exists r,
      result (move_each channels angle results) s = Ret r /\
      forall c,
        r !! c
        = if bool_decide (c ∈ channels /\ hold_state s !! c = Some false)
          then (fun old => (old, angle)) <$> servo_positions s !! c
          else results !! c.
Proof.
  unfold result.
  induction channels as [|channel rest IH]; intros Hnd results s Hwf.
  - exists results. split; [reflexivity|]. intros c.
    rewrite bool_decide_eq_false_2; [reflexivity|].
    intros [Hc _]. inversion Hc.
  - apply NoDup_cons in Hnd as [Hnotin Hnd].
    destruct (Hwf channel) as (Hin & [previous Hp] & [held Hh]); [constructor|].
    destruct held.
    + rewrite move_each_skip by assumption.
      destruct (IH Hnd results s) as (r & Hr & Hlookup).
      { intros c Hc. apply Hwf. by constructor. }
      exists r. split; [exact Hr|]. intros c. rewrite Hlookup.
      destruct (decide (c = channel)) as [->|Hne].
      * rewrite !bool_decide_eq_false_2; [reflexivity| |];
          intros [Hc Hf]; [congruence|contradiction].
      * apply (f_equal (fun b : bool => if b then _ else _)).
        apply bool_decide_ext. rewrite elem_of_cons. tauto.
    + destruct (move_each_step channel rest angle results s previous Hin Hp Hh)
        as [pulse Hstep].
      rewrite Hstep.
      set (s1 := positioned channel angle previous pulse s).
      destruct (IH Hnd (<[channel := (previous, angle)]> results) s1)
        as (r & Hr & Hlookup).
      { intros c Hc. destruct (Hwf c) as (Hc1 & Hc2 & Hc3); [by constructor|].
        subst s1. rewrite positioned_positions, positioned_hold.
        split; [exact Hc1|]. split; [|exact Hc3].
        destruct (decide (c = channel)) as [->|Hne].
        - rewrite lookup_insert_eq. eauto.
        - rewrite lookup_insert_ne by congruence. exact Hc2. }
      exists r. split; [exact Hr|]. intros c. rewrite Hlookup. subst s1.
      rewrite positioned_positions, positioned_hold.
      destruct (decide (c = channel)) as [->|Hne].
      * rewrite (bool_decide_eq_false_2 (channel ∈ rest /\ _));
          [|intros [Hc _]; contradiction].
        rewrite (bool_decide_eq_true_2 (channel ∈ channel :: rest /\ _));
          [|split; [constructor|exact Hh]].
        rewrite lookup_insert_eq, Hp. reflexivity.
      * rewrite !lookup_insert_ne by congruence.
        apply (f_equal (fun b : bool => if b then _ else _)).
        apply bool_decide_ext. rewrite elem_of_cons. tauto.
Qed.

Lemma channels_nodup : NoDup SERVO_CHANNELS.
Proof.
  apply (bool_decide_unpack _). vm_compute. exact I.
Qed.

Lemma well_formed_channels (s : state) :
  well_formed s ->
  forall c, c ∈ SERVO_CHANNELS ->
    in_channels c = true /\ is_Some (servo_positions s !! c) /\
    is_Some (hold_state s !! c).
Proof.
  intros Hwf c Hc. destruct (Hwf c Hc) as (Hp & _ & Hh).
  split; [apply in_channels_iff, Hc|]. split; assumption.
Qed.

Lemma move_all_servos_positions (angle : Z) (s : state) :
  well_formed s -> lock_state s = false ->
  forall c,
    servo_positions (exec (move_all_servos angle) s) !! c
    = if bool_decide (c ∈ SERVO_CHANNELS /\ hold_state s !! c = Some false)
      then Some (clamp angle) else servo_positions s !! c.
Proof.
  intros Hwf Hl c.
  destruct (move_each_positions SERVO_CHANNELS angle ∅ s
              (well_formed_channels s Hwf)) as [_ Hpos].
  rewrite <- Hpos. unfold exec, move_all_servos, bind, gets. rewrite Hl.
  destruct (move_each SERVO_CHANNELS angle ∅ s) as [[r|e] s1]; reflexivity.
Qed.

Lemma set_servo_position_well_formed (channel angle : Z) (s : state) :
  well_formed s -> well_formed (exec (set_servo_position channel angle) s).
Proof.
  intros Hwf.
  destruct (set_servo_position_cases channel angle s)
    as [->|(previous & _ & _ & ->)]; [exact Hwf|].
  intros c Hc. destruct (Hwf c Hc) as (Hp & Hd & Hh).
  rewrite positioned_positions, positioned_directions, positioned_hold.
  split; [|split; [|exact Hh]].
  - destruct (decide (c = channel)) as [->|Hne].
    + rewrite lookup_insert_eq. eauto.
    + rewrite lookup_insert_ne by congruence. exact Hp.
  - destruct (decide (c = channel)) as [->|Hne].
    + rewrite lookup_insert_eq. eauto.
    + rewrite lookup_insert_ne by congruence. exact Hd.
Qed.

End MoveAll.

(** X6. On a state whose dictionaries have every configured channel,
    [move_all_servos] returns [None] and changes nothing when the lock
    flag is set; otherwise it returns a dictionary whose keys are exactly
    the configured channels that are not held, each with the pair of the
    angle stored before the call and the angle requested, as passed in
    (not constrained). *)
Theorem move_all_servos_results (angle : Z) (s : Hardware.state) :
  Engine.well_formed s ->
  (Hardware.lock_state s = true ->
   Hardware.move_all_servos angle s = (Py.Ret None, s)) /\
  (Hardware.lock_state s = false ->
   exists results,
     Py.result (Hardware.move_all_servos angle) s = Py.Ret (Some results) /\
     forall c,
       results !! c
       = if bool_decide (c ∈ Config.SERVO_CHANNELS /\
                         Hardware.hold_state s !! c = Some false)
         then (fun old => (old, angle)) <$> Hardware.servo_positions s !! c
         else None).
Proof.
  intros Hwf. split; [apply move_all_servos_locked|]. intros Hl.
  destruct (move_each_results angle Config.SERVO_CHANNELS channels_nodup ∅ s
              (well_formed_channels s Hwf)) as (r & Hr & Hlookup).
  exists r. split.
  - unfold Py.result in *.
    unfold Hardware.move_all_servos, Py.bind, Py.gets, Py.ret.
    rewrite Hl.
    destruct (Hardware.move_each Config.SERVO_CHANNELS angle ∅ s) as [[r'|e] s1];
      cbn [fst] in *; congruence.
  - intros c. rewrite Hlookup. rewrite lookup_empty. reflexivity.
Qed.

Lemma move_all_servos_results_witness :
  let s := Hardware.set_hold_state <[1 := true]> (Hardware.initial false false) in
  Engine.well_formed s /\
  exists results,
    Py.result (Hardware.move_all_servos 200) s = Py.Ret (Some results) /\
    results !! 0 = Some (90, 200) /\ results !! 1 = None.
Proof.
  intros s.
  split; [exact held_state_well_formed|].
  destruct (proj2 (move_all_servos_results 200 s held_state_well_formed) eq_refl)
    as (results & Hr & Hlookup).
  exists results. split; [exact Hr|].
  split; rewrite Hlookup; reflexivity.
Defined.

(** X7. On such a state, a second [move_all_servos] call with the same
    angle changes no stored angle: the stored angles after two calls are
    those after one. *)
Theorem move_all_servos_idempotent (angle : Z) (s : Hardware.state) :
  Engine.well_formed s ->
  Hardware.servo_positions
    (Py.exec (Hardware.move_all_servos angle)
       (Py.exec (Hardware.move_all_servos angle) s))
  = Hardware.servo_positions (Py.exec (Hardware.move_all_servos angle) s).
Proof.
  intros Hwf.
  destruct (Hardware.lock_state s) eqn:Hl.
  - unfold Py.exec. rewrite (move_all_servos_locked angle s Hl).
    cbn [snd]. rewrite (move_all_servos_locked angle s Hl). reflexivity.
  - set (s1 := Py.exec (Hardware.move_all_servos angle) s).
    destruct (move_all_servos_effect angle s) as (Hh & Hk & _).
    fold s1 in Hh, Hk.
    assert (Hwf1 : Engine.well_formed s1)
      by (apply move_all_servos_preserves;
          [apply set_servo_position_well_formed|exact Hwf]).
    apply map_eq. intros c.
    rewrite (move_all_servos_positions angle s1 Hwf1) by congruence.
    rewrite Hh. unfold s1.
    rewrite (move_all_servos_positions angle s Hwf Hl).
    destruct (bool_decide _); reflexivity.
Qed.

Lemma move_all_servos_idempotent_witness :
  let s := Hardware.set_hold_state <[1 := true]> (Hardware.initial false false) in
  Engine.well_formed s /\
  Hardware.servo_positions
    (Py.exec (Hardware.move_all_servos 200)
       (Py.exec (Hardware.move_all_servos 200) s))
  = Hardware.servo_positions (Py.exec (Hardware.move_all_servos 200) s).
Proof.
  intros s. split; [exact held_state_well_formed|].
  exact (move_all_servos_idempotent 200 s held_state_well_formed).
Defined.

(** ** The sensor sampler and the servo state *)

Lemma update_mpu_data_returns (dev : Hardware.mpu_device)
    (env : Hardware.sim_env) (s : Hardware.state) :
  exists d,
    Hardware.update_mpu_data dev env s
    = (Py.Ret d, Hardware.set_mpu_data (fun _ => d) s).
Proof.
  unfold Hardware.update_mpu_data, Py.bind, Py.gets, Py.try_except, Py.lift,
    Py.modify, Py.ret.
  destruct s as [pc mc pw mp pos dirs hold lock speed data writes].
  cbn [Hardware.mpu_connected Hardware.mpu].
  destruct (mc && mp); [|eexists; reflexivity].
  destruct (Hardware.get_accel_data dev) as [a|e]; [|eexists; reflexivity].
  destruct (Hardware.get_gyro_data dev) as [g|e]; [|eexists; reflexivity].
  destruct (Hardware.get_temp dev) as [t|e]; eexists; reflexivity.
Qed.

(** X8. A tick of [update_mpu_data] never raises, with a device whatever
    its three queries answer and without one: it returns the snapshot it
    leaves in [mpu_data], and it changes nothing else, neither the stored
    angles, directions, hold flags, lock flag and speed, nor what was sent
    to the driver. *)
Theorem update_mpu_data_total (dev : Hardware.mpu_device)
    (env : Hardware.sim_env) (s : Hardware.state) :
  exists d,
    Hardware.update_mpu_data dev env s
    = (Py.Ret d, Hardware.set_mpu_data (fun _ => d) s) /\
    Hardware.mpu_data (Py.exec (Hardware.update_mpu_data dev env) s) = d.
Proof.
  destruct (update_mpu_data_returns dev env s) as [d Hd].
  exists d. split; [exact Hd|]. unfold Py.exec. rewrite Hd. reflexivity.
Qed.

(** ** Channels outside the dictionaries *)

(** X9. For a channel that is neither configured nor a key of the
    dictionaries, [set_servo_position] returns [False] and [move_servo]
    raises [KeyError] (from [hold_state[channel]]), unless the lock flag
    is set, in which case it returns [None]; none of them changes the
    state. *)
Theorem unconfigured_channel (channel value angle : Z) (s : Hardware.state) :
  channel ∉ Config.SERVO_CHANNELS ->
  Hardware.hold_state s !! channel = None ->
  Hardware.set_servo_position channel angle s = (Py.Ret false, s) /\
  Hardware.move_servo channel value s
  = (if Hardware.lock_state s then Py.Ret None else Py.Raise Py.KeyError, s).
Proof.
  intros Hc Hh. split.
  - apply set_servo_position_unknown.
    destruct (Hardware.in_channels channel) eqn:E; [|reflexivity].
    apply in_channels_iff in E. contradiction.
  - unfold Hardware.move_servo, Py.bind, Py.gets, Py.ret, Py.lift, Py.getitem.
    destruct (Hardware.lock_state s); [reflexivity|]. rewrite Hh. reflexivity.
Qed.

Lemma unconfigured_channel_witness :
  let s := Hardware.initial true true in
  (7 ∉ Config.SERVO_CHANNELS) /\
  Hardware.hold_state s !! 7 = None /\
  Hardware.set_servo_position 7 45 s = (Py.Ret false, s) /\
  Hardware.move_servo 7 1000 s
  = (if Hardware.lock_state s then Py.Ret None else Py.Raise Py.KeyError, s).
Proof.
  intros s.
  assert (H7 : 7 ∉ Config.SERVO_CHANNELS).
  { intros H. apply in_channels_iff in H. vm_compute in H. discriminate. }
  assert (Hh : Hardware.hold_state s !! 7 = None) by reflexivity.
  split; [exact H7|]. split; [exact Hh|].
  exact (unconfigured_channel 7 1000 45 s H7 Hh).
Defined.

(** ** The event handler of the controller *)

Section Dispatch.
Import Py Hardware.

Variable P : Hardware.state -> Prop.
Variable Q : ControllerInput.globals -> Prop.

Hypothesis P_set :
  forall channel angle s, P s -> P (exec (set_servo_position channel angle) s).
Hypothesis P_hold :
  forall channel b s, P s -> P (set_hold_state <[channel := b]> s).
Hypothesis Q_decrease :
  forall g, Q g ->
    Q (ControllerInput.print
         (ControllerInput.SpeedDecreased
            (Speed.decreased (ControllerInput.servo_speed g)))
         (ControllerInput.set_servo_speed
            (Speed.decreased (ControllerInput.servo_speed g)) g)).
Hypothesis Q_increase :
  forall g, Q g ->
    Q (ControllerInput.print
         (ControllerInput.SpeedIncreased
            (Speed.increased (ControllerInput.servo_speed g)))
         (ControllerInput.set_servo_speed
            (Speed.increased (ControllerInput.servo_speed g)) g)).
Hypothesis Q_lock :
  forall g, Q g ->
    Q (ControllerInput.print
         (ControllerInput.ServosNow (negb (ControllerInput.lock_state g)))
         (ControllerInput.set_lock_state (negb (ControllerInput.lock_state g)) g)).
Hypothesis Q_exit :
  forall g, Q g ->
    Q (if ControllerInput.q_pressed g
       then ControllerInput.set_exit_flag true
              (ControllerInput.print ControllerInput.PressedTwiceExiting g)
       else ControllerInput.print ControllerInput.PressAgainToExit
              (ControllerInput.set_q_pressed true g)).
Hypothesis Q_lost :
  forall g, Q g ->
    Q (ControllerInput.set_exit_flag true
         (ControllerInput.print ControllerInput.ControllerError g)).


Lemma keeps_ret : Handler.keeps P Q (ret tt).
Proof. intros hw g Hp Hq. split; assumption. Qed.

Lemma keeps_seq (a b : M ControllerInput.env unit) :
  Handler.keeps P Q a -> Handler.keeps P Q b -> Handler.keeps P Q (run a ;; b).
Proof.
  intros Ha Hb hw g Hp Hq. specialize (Ha hw g Hp Hq).
  unfold exec, bind in *.
  destruct (a (hw, g)) as [[r|e] [hw1 g1]]; cbn [fst snd] in Ha.
  - apply Hb; tauto.
  - exact Ha.
Qed.

Lemma keeps_move_servo (channel value : Z) :
  Handler.keeps P Q (ControllerInput.move_servo channel value).
Proof.
  intros hw g Hp Hq.
  pose proof (move_servo_preserves P P_set channel value hw Hp) as H.
  unfold exec, ControllerInput.move_servo, ControllerInput.hardware, bind in *.
  destruct (Hardware.move_servo channel value hw) as [[r|e] hw1];
    split; assumption.
Qed.

Lemma keeps_move_all_servos (angle : Z) :
  Handler.keeps P Q (ControllerInput.move_all_servos angle).
Proof.
  intros hw g Hp Hq.
  pose proof (move_all_servos_preserves P P_set angle hw Hp) as H.
  unfold exec, ControllerInput.move_all_servos, ControllerInput.hardware, bind in *.
  destruct (Hardware.move_all_servos angle hw) as [[r|e] hw1];
    split; assumption.
Qed.

Lemma keeps_toggle_hold (channel : Z) :
  Handler.keeps P Q (ControllerInput.toggle_hold channel).
Proof.
  intros hw g Hp Hq.
  unfold exec, ControllerInput.toggle_hold, ControllerInput.hardware, bind,
    lift, getitem, modify.
  destruct (hold_state hw !! channel) as [held|]; cbn [fst snd].
  - split; [apply P_hold, Hp|exact Hq].
  - split; assumption.
Qed.

Lemma keeps_decrease_speed : Handler.keeps P Q ControllerInput.decrease_speed.
Proof. intros hw g Hp Hq. split; [exact Hp|apply Q_decrease, Hq]. Qed.

Lemma keeps_increase_speed : Handler.keeps P Q ControllerInput.increase_speed.
Proof. intros hw g Hp Hq. split; [exact Hp|apply Q_increase, Hq]. Qed.

Lemma keeps_toggle_lock : Handler.keeps P Q ControllerInput.toggle_lock.
Proof. intros hw g Hp Hq. split; [exact Hp|apply Q_lock, Hq]. Qed.

Lemma keeps_exit_press : Handler.keeps P Q ControllerInput.exit_press.
Proof.
  intros hw g Hp Hq. split.
  - unfold exec, ControllerInput.exit_press, ControllerInput.self, bind.
    destruct (ControllerInput.q_pressed g); exact Hp.
  - pose proof (Q_exit g Hq) as H.
    unfold exec, ControllerInput.exit_press, ControllerInput.self, bind.
    destruct (ControllerInput.q_pressed g); exact H.
Qed.

Ltac branches :=
  repeat (lazymatch goal with
          | |- Handler.keeps P Q (if ?c then _ else _) => destruct c
          | |- Handler.keeps P Q (Py.bind _ (fun _ => _)) => apply keeps_seq
          end);
  first [ apply keeps_ret | apply keeps_move_servo | apply keeps_move_all_servos
        | apply keeps_toggle_hold | apply keeps_decrease_speed
        | apply keeps_increase_speed | apply keeps_toggle_lock
        | apply keeps_exit_press ].

Lemma dispatch_keeps (e : ControllerInput.event) :
  Handler.keeps P Q (ControllerInput.dispatch e).
Proof.
  intros hw g Hp Hq.
  assert (H : forall k,
    ControllerInput.controller_type g = k ->
    P (fst (exec (ControllerInput.dispatch e) (hw, g))) /\
    Q (snd (exec (ControllerInput.dispatch e) (hw, g)))); [|eauto].
  intros k Hk.
  unfold ControllerInput.dispatch.
  unfold exec at 1 2. unfold bind at 1 3. unfold ControllerInput.self at 1 2.
  rewrite Hk.
  match goal with
  | |- P (fst (snd (?m (hw, g)))) /\ _ =>
      change (P (fst (exec m (hw, g))) /\ Q (snd (exec m (hw, g))));
      cut (Handler.keeps P Q m); [intros Hm; apply Hm; assumption|]
  end.
  branches.
Qed.

Lemma read_loop_keeps (events : list ControllerInput.event) :
  forall hw g, P hw -> Q g ->
    exists b hw' g',
      ControllerInput.read_loop events (hw, g) = (Ret b, (hw', g')) /\
      P hw' /\ Q g' /\ (b = true -> ControllerInput.exit_flag g' = true).
Proof.
  induction events as [|e rest IH]; intros hw g Hp Hq.
  - exists false, hw, g. repeat split; try assumption. discriminate.
  - cbn [ControllerInput.read_loop].
    unfold bind at 1. unfold ControllerInput.self at 1.
    destruct (ControllerInput.exit_flag g) eqn:Hx.
    + exists true, hw, g. repeat split; try assumption. intros _. exact Hx.
    + destruct (dispatch_keeps e hw g Hp Hq) as [Hp1 Hq1].
      unfold exec in Hp1, Hq1. unfold bind, try_except.
      destruct (ControllerInput.dispatch e (hw, g)) as [[r|x] [hw1 g1]];
        cbn [fst snd] in Hp1, Hq1; apply IH; assumption.
Qed.

Lemma handle_controller_input_keeps (events : list ControllerInput.event)
    (device_lost : bool) (hw : Hardware.state) (g : ControllerInput.globals) :
  P hw -> Q g ->
  exists hw' g',
    ControllerInput.handle_controller_input events device_lost (hw, g)
    = (Ret tt, (hw', g')) /\ P hw' /\ Q g'.
Proof.
  intros Hp Hq.
  destruct (read_loop_keeps events hw g Hp Hq) as (b & hw1 & g1 & Hr & Hp1 & Hq1 & _).
  unfold ControllerInput.handle_controller_input, bind. rewrite Hr.
  destruct (negb b && device_lost).
  - exists hw1, (ControllerInput.set_exit_flag true
                   (ControllerInput.print ControllerInput.ControllerError g1)).
    split; [reflexivity|]. split; [exact Hp1|apply Q_lost, Hq1].
  - exists hw1, g1. split; [reflexivity|]. split; assumption.
Qed.

End Dispatch.

Section ControllerFacts.
Import Py Hardware.

Lemma set_servo_position_flags (channel angle : Z) (s : state) :
  lock_state (exec (set_servo_position channel angle) s) = lock_state s /\
  servo_speed (exec (set_servo_position channel angle) s) = servo_speed s.
Proof.
  destruct (set_servo_position_cases channel angle s)
    as [->|(previous & _ & _ & ->)]; [auto|].
  unfold Engine.positioned. destruct (pca_connected s && pwm s); auto.
Qed.


Lemma same_eq (a b : PyFloat.float) : Speed.same a b = true -> a = b.
Proof.
  destruct a as [s|s| |s m e], b as [s'|s'| |s' m' e']; cbn; try discriminate.
  - intros H. apply eqb_prop in H. congruence.
  - intros H. apply eqb_prop in H. congruence.
  - reflexivity.
  - rewrite !andb_true_iff. intros [[Hs Hm] He].
    apply eqb_prop in Hs. apply Pos.eqb_eq in Hm. apply Z.eqb_eq in He.
    congruence.
Qed.

Lemma known_forallb (f : PyFloat.float -> bool) (v : PyFloat.float)
    (seen : list PyFloat.float) :
  forallb f seen = true -> Speed.known v seen = true -> f v = true.
Proof.
  intros Hall Hk. unfold Speed.known in Hk.
  apply existsb_exists in Hk as (w & Hw & Hs).
  apply same_eq in Hs. subst w.
  rewrite forallb_forall in Hall. apply Hall, Hw.
Qed.

Lemma reachable_closed (v : PyFloat.float) :
  Speed.known v Speed.reachable = true ->
  Speed.known (Speed.decreased v) Speed.reachable = true /\
  Speed.known (Speed.increased v) Speed.reachable = true.
Proof.
  intros Hk.
  assert (H : forallb
                (fun w => Speed.known (Speed.decreased w) Speed.reachable &&
                          Speed.known (Speed.increased w) Speed.reachable)
                Speed.reachable = true) by (vm_compute; reflexivity).
  pose proof (known_forallb _ v _ H Hk) as Hv. cbv beta in Hv.
  apply andb_true_iff in Hv. exact Hv.
Qed.

Lemma reachable_range (v : PyFloat.float) :
  Speed.known v Speed.reachable = true ->
  PyFloat.fle (PyFloat.lit 1 10) v = true /\
  PyFloat.fle v (PyFloat.lit 2 1) = true.
Proof.
  intros Hk.
  assert (H : forallb
                (fun w => PyFloat.fle (PyFloat.lit 1 10) w &&
                          PyFloat.fle w (PyFloat.lit 2 1))
                Speed.reachable = true) by (vm_compute; reflexivity).
  pose proof (known_forallb _ v _ H Hk) as Hv. cbv beta in Hv.
  apply andb_true_iff in Hv. exact Hv.
Qed.

End ControllerFacts.



(** X11. Starting from the speed 1.0 of the module, whatever the events
    delivered, the speed that the shoulder buttons set stays within
    0.1 and 2.0 (as doubles, roundings included). *)
Theorem speed_stays_in_range (k : option ControllerInput.kind)
    (events : list ControllerInput.event) (device_lost : bool)
    (hw : Hardware.state) :
  Hardware.servo_speed hw = PyFloat.lit 1 1 ->
  let g' := snd (Py.exec
                   (ControllerInput.handle_controller_input events device_lost)
                   (hw, ControllerInput.loaded k hw)) in
  PyFloat.fle (PyFloat.lit 1 10) (ControllerInput.servo_speed g') = true /\
  PyFloat.fle (ControllerInput.servo_speed g') (PyFloat.lit 2 1) = true.
Proof.
  intros Hv g'.
  destruct (handle_controller_input_keeps
              (fun _ => True)
              (fun g => Speed.known (ControllerInput.servo_speed g)
                          Speed.reachable = true)
              ltac:(auto) ltac:(auto)
              ltac:(intros g H; exact (proj1 (reachable_closed _ H)))
              ltac:(intros g H; exact (proj2 (reachable_closed _ H)))
              ltac:(intros g H; exact H)
              ltac:(intros g H; destruct (ControllerInput.q_pressed g); exact H)
              ltac:(intros g H; exact H)
              events device_lost hw (ControllerInput.loaded k hw))
    as (hw' & g1 & Heq & _ & Hq).
  - exact I.
  - cbn [ControllerInput.loaded ControllerInput.servo_speed]. rewrite Hv.
    vm_compute. reflexivity.
  - subst g'. unfold Py.exec. rewrite Heq. cbn [snd].
    apply reachable_range, Hq.
Qed.

Lemma speed_stays_in_range_witness :
  let hw := Hardware.initial false false in
  let g' := snd (Py.exec
                   (ControllerInput.handle_controller_input
                      [ControllerInput.Event 1 0 ControllerInput.ecodes.EV_KEY 295 1;
                       ControllerInput.Event 2 0 ControllerInput.ecodes.EV_KEY 294 1]
                      false)
                   (hw, ControllerInput.loaded (Some ControllerInput.PS3) hw)) in
  Hardware.servo_speed hw = PyFloat.lit 1 1 /\
  PyFloat.fle (PyFloat.lit 1 10) (ControllerInput.servo_speed g') = true /\
  PyFloat.fle (ControllerInput.servo_speed g') (PyFloat.lit 2 1) = true.
Proof.
  intros hw g'.
  assert (H : Hardware.servo_speed hw = PyFloat.lit 1 1) by reflexivity.
  split; [exact H|].
  exact (speed_stays_in_range (Some ControllerInput.PS3)
           [ControllerInput.Event 1 0 ControllerInput.ecodes.EV_KEY 295 1;
            ControllerInput.Event 2 0 ControllerInput.ecodes.EV_KEY 294 1]
           false hw H).
Defined.

(** X12. No event of the controller changes the speed or the lock flag of
    [hardware]: the shoulder buttons and D-pad Down assign the names that
    the import bound in [controller_input], so the speed reported by
    [get_hardware_status] stays what it was. *)
Theorem handler_leaves_hardware_flags (events : list ControllerInput.event)
    (device_lost : bool) (hw : Hardware.state) (g : ControllerInput.globals) :
  let hw' := fst (Py.exec
                    (ControllerInput.handle_controller_input events device_lost)
                    (hw, g)) in
  Hardware.servo_speed hw' = Hardware.servo_speed hw /\
  Hardware.lock_state hw' = Hardware.lock_state hw.
Proof.
  intros hw'.
  destruct (handle_controller_input_keeps
              (fun s => Hardware.servo_speed s = Hardware.servo_speed hw /\
                        Hardware.lock_state s = Hardware.lock_state hw)
              (fun _ => True)
              ltac:(intros c a s [H1 H2];
                    destruct (set_servo_position_flags c a s) as [-> ->]; auto)
              ltac:(intros c b s H; exact H)
              ltac:(auto) ltac:(auto) ltac:(auto) ltac:(auto) ltac:(auto)
              events device_lost hw g)
    as (hw1 & g1 & Heq & Hp & _).
  - auto.
  - exact I.
  - subst hw'. unfold Py.exec. rewrite Heq. exact Hp.
Qed.

(** X13. Once the exit flag is set it stays set, and the handler no
    longer touches the state of [hardware], whatever events follow. *)
Theorem exit_flag_latches (events : list ControllerInput.event)
    (device_lost : bool) (hw : Hardware.state) (g : ControllerInput.globals) :
  ControllerInput.exit_flag g = true ->
  let out := Py.exec
               (ControllerInput.handle_controller_input events device_lost)
               (hw, g) in
  fst out = hw /\ ControllerInput.exit_flag (snd out) = true /\
  (events <> [] -> snd out = g).
Proof.
  intros Hx out. subst out.
  unfold Py.exec, ControllerInput.handle_controller_input, Py.bind.
  destruct events as [|e rest].
  - cbn [ControllerInput.read_loop]. unfold Py.ret. cbn [negb andb].
    destruct device_lost; cbn [fst snd]; repeat split; try assumption;
      intros H; contradiction.
  - cbn [ControllerInput.read_loop]. unfold Py.bind, ControllerInput.self.
    rewrite Hx. unfold Py.ret. cbn [negb andb fst snd]. auto.
Qed.

Lemma exit_flag_latches_witness :
  let hw := Hardware.initial false false in
  let g := ControllerInput.set_exit_flag true
             (ControllerInput.loaded (Some ControllerInput.Xbox) hw) in
  let out := Py.exec
               (ControllerInput.handle_controller_input
                  [ControllerInput.Event 5 0 ControllerInput.ecodes.EV_ABS 0 32767]
                  false)
               (hw, g) in
  ControllerInput.exit_flag g = true /\
  fst out = hw /\ ControllerInput.exit_flag (snd out) = true.
Proof.
  intros hw g out.
  assert (H : ControllerInput.exit_flag g = true) by reflexivity.
  split; [exact H|].
  destruct (exit_flag_latches
              [ControllerInput.Event 5 0 ControllerInput.ecodes.EV_ABS 0 32767]
              false hw g H) as (H1 & H2 & _).
  split; [exact H1|exact H2].
Defined.

(** ** Axis events and hold buttons *)

Section RoutingFacts.
Import Py Hardware.

Lemma run_unit (m : M ControllerInput.env unit) (env : ControllerInput.env) :
  (run m ;; ret tt) env = m env.
Proof.
  unfold bind, ret. destruct (m env) as [[[]|x] s']; reflexivity.
Qed.

Lemma hold_button_dispatch (channel code t u : Z) (env : ControllerInput.env) :
  Routing.hold_button channel = Some code ->
  ControllerInput.dispatch
    (ControllerInput.Event t u ControllerInput.ecodes.EV_KEY code 1) env
  = ControllerInput.toggle_hold channel env.
Proof.
  intros Hb. destruct env as [hw g]. unfold Routing.hold_button in Hb.
  unfold ControllerInput.dispatch, bind, ControllerInput.self.
  cbn [ControllerInput.type ControllerInput.code ControllerInput.value].
  destruct (channel =? 0) eqn:E0;
    [apply Z.eqb_eq in E0; subst channel; injection Hb as <-;
     destruct (ControllerInput.is_playstation _); reflexivity|].
  destruct (channel =? 1) eqn:E1;
    [apply Z.eqb_eq in E1; subst channel; injection Hb as <-;
     destruct (ControllerInput.is_playstation _); reflexivity|].
  destruct (channel =? 2) eqn:E2;
    [apply Z.eqb_eq in E2; subst channel; injection Hb as <-;
     destruct (ControllerInput.is_playstation _); reflexivity|].
  destruct (channel =? 3) eqn:E3;
    [apply Z.eqb_eq in E3; subst channel; injection Hb as <-;
     destruct (ControllerInput.is_playstation _); reflexivity|].
  discriminate Hb.
Qed.

Lemma axis_dispatch (e : ControllerInput.event) (hw : state)
    (g : ControllerInput.globals) :
  ControllerInput.type e = ControllerInput.ecodes.EV_ABS ->
  ControllerInput.dispatch e (hw, g)
  = match Routing.axis_channel
            (ControllerInput.is_playstation (ControllerInput.controller_type g))
            (ControllerInput.code e) with
    | Some channel =>
        ControllerInput.move_servo channel (ControllerInput.value e) (hw, g)
    | None => (Ret tt, (hw, g))
    end.
Proof.
  intros Ht. unfold ControllerInput.dispatch, Routing.axis_channel.
  unfold bind at 1. unfold ControllerInput.self at 1. rewrite Ht.
  change (ControllerInput.ecodes.EV_ABS =? ControllerInput.ecodes.EV_ABS) with true.
  cbv iota.
  destruct (ControllerInput.is_playstation (ControllerInput.controller_type g));
    destruct (ControllerInput.code e =? 0) eqn:E0;
    destruct (ControllerInput.code e =? 1) eqn:E1;
    destruct (ControllerInput.code e =? 2) eqn:E2;
    destruct (ControllerInput.code e =? 3) eqn:E3;
    destruct (ControllerInput.code e =? 4) eqn:E4;
    destruct (ControllerInput.code e =? 5) eqn:E5;
    try (exfalso; rewrite ?Z.eqb_eq in *; lia);
    try apply run_unit;
    unfold bind, ret; reflexivity.
Qed.

End RoutingFacts.

(** X14. An axis event makes one [move_servo] call at most: on the
    channel that the code drives (left stick 0 and 1 on every controller,
    right stick 2 and 3 on a PlayStation controller, codes 5 and 4 for
    channels 3 and 2 on the others), and none for any other code. An
    event that is neither an axis event nor a button press (a release, an
    auto-repeat, a synchronisation event) changes nothing. *)
Theorem axis_event_routing (e : ControllerInput.event) (hw : Hardware.state)
    (g : ControllerInput.globals) :
  (ControllerInput.type e = ControllerInput.ecodes.EV_ABS ->
   ControllerInput.dispatch e (hw, g)
   = match Routing.axis_channel
             (ControllerInput.is_playstation (ControllerInput.controller_type g))
             (ControllerInput.code e) with
     | Some channel =>
         ControllerInput.move_servo channel (ControllerInput.value e) (hw, g)
     | None => (Py.Ret tt, (hw, g))
     end) /\
  (ControllerInput.type e <> ControllerInput.ecodes.EV_ABS ->
   ControllerInput.type e <> ControllerInput.ecodes.EV_KEY \/
   ControllerInput.value e <> 1 ->
   ControllerInput.dispatch e (hw, g) = (Py.Ret tt, (hw, g))).
Proof.
  split; [apply axis_dispatch|].
  intros Habs Hkey.
  unfold ControllerInput.dispatch, Py.bind, ControllerInput.self.
  destruct (ControllerInput.type e =? ControllerInput.ecodes.EV_ABS) eqn:E;
    [apply Z.eqb_eq in E; contradiction|].
  destruct (ControllerInput.type e =? ControllerInput.ecodes.EV_KEY) eqn:Ek;
    [|reflexivity].
  destruct (ControllerInput.value e =? 1) eqn:Ev; [|reflexivity].
  apply Z.eqb_eq in Ek, Ev. destruct Hkey; contradiction.
Qed.

(** X15. The hold buttons work, on every kind of controller: with the
    exit flag clear, a press of the button of a channel that is not held
    sets its hold flag in [hardware], after which an axis event for that
    channel leaves every stored angle as it was; a second press clears
    the flag again. *)
Theorem hold_button_holds (channel code axis raw : Z)
    (hw : Hardware.state) (g : ControllerInput.globals) :
  Routing.hold_button channel = Some code ->
  Routing.axis_channel
    (ControllerInput.is_playstation (ControllerInput.controller_type g)) axis
  = Some channel ->
  Hardware.hold_state hw !! channel = Some false ->
  ControllerInput.exit_flag g = false ->
  let press := ControllerInput.Event 0 0 ControllerInput.ecodes.EV_KEY code 1 in
  let move := ControllerInput.Event 0 0 ControllerInput.ecodes.EV_ABS axis raw in
  let after events :=
    fst (Py.exec (ControllerInput.handle_controller_input events false) (hw, g)) in
  Hardware.hold_state (after [press])
  = <[channel := true]> (Hardware.hold_state hw) /\
  Hardware.servo_positions (after [press; move]) = Hardware.servo_positions hw /\
  Hardware.hold_state (after [press; press]) = Hardware.hold_state hw.
Proof.
  intros Hb Ha Hh Hx press move after.
  assert (Hpress : forall hw0,
    Hardware.hold_state hw0 !! channel = Some false ->
    ControllerInput.dispatch press (hw0, g)
    = (Py.Ret tt, (Hardware.set_hold_state <[channel := true]> hw0, g))).
  { intros hw0 Hh0. subst press. rewrite (hold_button_dispatch channel code); [|exact Hb].
    unfold ControllerInput.toggle_hold, ControllerInput.hardware, Py.bind,
      Py.lift, Py.getitem, Py.modify.
    rewrite Hh0. reflexivity. }
  assert (Hagain :
    ControllerInput.dispatch press
      (Hardware.set_hold_state <[channel := true]> hw, g)
    = (Py.Ret tt,
       (Hardware.set_hold_state <[channel := false]>
          (Hardware.set_hold_state <[channel := true]> hw), g))).
  { subst press. rewrite (hold_button_dispatch channel code); [|exact Hb].
    unfold ControllerInput.toggle_hold, ControllerInput.hardware, Py.bind,
      Py.lift, Py.getitem, Py.modify.
    cbn [Hardware.hold_state Hardware.set_hold_state].
    rewrite lookup_insert_eq. reflexivity. }
  assert (Hmove :
    ControllerInput.dispatch move
      (Hardware.set_hold_state <[channel := true]> hw, g)
    = (Py.Ret tt, (Hardware.set_hold_state <[channel := true]> hw, g))).
  { subst move. rewrite axis_dispatch by reflexivity.
    cbn [ControllerInput.code ControllerInput.value]. rewrite Ha.
    unfold ControllerInput.move_servo, ControllerInput.hardware, Py.bind.
    rewrite move_servo_held; [reflexivity|].
    cbn [Hardware.hold_state Hardware.set_hold_state].
    apply lookup_insert_eq. }
  subst after. cbv beta.
  unfold Py.exec, ControllerInput.handle_controller_input.
  cbn [ControllerInput.read_loop].
  unfold Py.bind, ControllerInput.self, Py.try_except, Py.ret.
  rewrite Hx, (Hpress hw Hh). cbn [fst snd negb andb].
  rewrite Hx, Hmove, Hagain. cbn [fst snd negb andb].
  cbn [Hardware.hold_state Hardware.set_hold_state Hardware.servo_positions].
  split; [reflexivity|]. split; [reflexivity|].
  rewrite insert_insert_eq. apply insert_id. exact Hh.
Qed.

Lemma hold_button_holds_witness :
  let hw := Hardware.initial false false in
  let g := ControllerInput.loaded (Some ControllerInput.PS3) hw in
  let press := ControllerInput.Event 0 0 ControllerInput.ecodes.EV_KEY 304 1 in
  let move := ControllerInput.Event 0 0 ControllerInput.ecodes.EV_ABS 0 32767 in
  Routing.hold_button 0 = Some 304 /\
  Routing.axis_channel
    (ControllerInput.is_playstation (ControllerInput.controller_type g)) 0
  = Some 0 /\
  Hardware.hold_state hw !! 0 = Some false /\
  ControllerInput.exit_flag g = false /\
  Hardware.servo_positions
    (fst (Py.exec (ControllerInput.handle_controller_input [press; move] false)
                  (hw, g)))
  = Hardware.servo_positions hw.
Proof.
  intros hw g press move.
  assert (H1 : Routing.hold_button 0 = Some 304) by reflexivity.
  assert (H2 : Routing.axis_channel
                 (ControllerInput.is_playstation
                    (ControllerInput.controller_type g)) 0 = Some 0)
    by reflexivity.
  assert (H3 : Hardware.hold_state hw !! 0 = Some false) by reflexivity.
  assert (H4 : ControllerInput.exit_flag g = false) by reflexivity.
  split; [exact H1|]. split; [exact H2|]. split; [exact H3|]. split; [exact H4|].
  exact (proj1 (proj2 (hold_button_holds 0 304 0 32767 hw g H1 H2 H3 H4))).
Defined.

(** ** The request handlers of the web interface *)

Section WebFacts.
Import Py Hardware.

Lemma move_all_servos_runs (angle : Z) (s : state) :
  Engine.well_formed s -> lock_state s = false ->
  exists results,
    move_all_servos angle s
    = (Ret (Some results), exec (move_all_servos angle) s).
Proof.
  intros Hwf Hl.
  destruct (move_each_results angle Config.SERVO_CHANNELS channels_nodup ∅ s
              (well_formed_channels s Hwf)) as (r & Hr & _).
  exists r. unfold result in Hr. unfold exec, move_all_servos, bind, gets, ret.
  rewrite Hl.
  destruct (move_each Config.SERVO_CHANNELS angle ∅ s) as [[r'|e] s1];
    cbn [fst snd] in *; congruence.
Qed.

Lemma toggle_hold_configured (channel : Z) (data : WebInterface.flag_body)
    (hw : state) (g : WebInterface.globals) (held : bool) :
  channel ∈ Config.SERVO_CHANNELS ->
  hold_state hw !! channel = Some held ->
  WebInterface.toggle_hold channel data (hw, g)
  = (Ret (WebInterface.Response 200
            (WebInterface.HoldSet channel
               match data with
               | WebInterface.Flag b => b
               | WebInterface.NoFlag => negb held
               end)),
     (set_hold_state
        <[channel := match data with
                     | WebInterface.Flag b => b
                     | WebInterface.NoFlag => negb held
                     end]> hw, g)).
Proof.
  intros Hc Hh. apply in_channels_iff in Hc.
  unfold WebInterface.toggle_hold. rewrite Hc. cbn [negb].
  unfold try_except, bind, WebInterface.hardware, modify, lift, getitem, ret.
  destruct data as [|b].
  - rewrite Hh. cbn [hold_state set_hold_state].
    rewrite lookup_insert_eq. reflexivity.
  - cbn [hold_state set_hold_state].
    rewrite lookup_insert_eq. reflexivity.
Qed.

End WebFacts.



(** X17. With the lock flag of [hardware] clear, on a state whose
    dictionaries have every configured channel, an all-servos request
    with an integer angle is answered with success, the angle as
    requested and the results of [move_all_servos]; every configured
    channel that is not held ends at the angle constrained to 0..180 and
    every other stored angle stays. *)
Theorem control_all_servos_moves (angle : Z) (hw : Hardware.state)
    (g : WebInterface.globals) :
  Engine.well_formed hw ->
  Hardware.lock_state hw = false ->
  exists results hw',
    WebInterface.control_all_servos (WebInterface.Angle (Py.Ret angle)) (hw, g)
    = (Py.Ret (WebInterface.Response 200
                 (WebInterface.AllSet angle (Some results))), (hw', g)) /\
    forall c,
      Hardware.servo_positions hw' !! c
      = if bool_decide (c ∈ Config.SERVO_CHANNELS /\
                        Hardware.hold_state hw !! c = Some false)
        then Some (Hardware.clamp angle)
        else Hardware.servo_positions hw !! c.
Proof.
  intros Hwf Hl.
  destruct (move_all_servos_runs angle hw Hwf Hl) as [results Hrun].
  exists results, (Py.exec (Hardware.move_all_servos angle) hw). split.
  - unfold WebInterface.control_all_servos, Py.try_except, Py.bind, Py.lift,
      WebInterface.hardware, Py.ret.
    rewrite Hrun. reflexivity.
  - apply move_all_servos_positions; assumption.
Qed.

Lemma control_all_servos_moves_witness :
  let hw := Hardware.set_hold_state <[1 := true]> (Hardware.initial false false) in
  let g := WebInterface.loaded hw in
  Engine.well_formed hw /\
  Hardware.lock_state hw = false /\
  exists results hw',
    WebInterface.control_all_servos (WebInterface.Angle (Py.Ret 200)) (hw, g)
    = (Py.Ret (WebInterface.Response 200
                 (WebInterface.AllSet 200 (Some results))), (hw', g)) /\
    Hardware.servo_positions hw' !! 0 = Some 180 /\
    Hardware.servo_positions hw' !! 1 = Some 90.
Proof.
  intros hw g.
  assert (Hl : Hardware.lock_state hw = false) by reflexivity.
  split; [exact held_state_well_formed|]. split; [exact Hl|].
  destruct (control_all_servos_moves 200 hw g held_state_well_formed Hl)
    as (results & hw' & Heq & Hpos).
  exists results, hw'. split; [exact Heq|].
  split; rewrite Hpos; reflexivity.
Defined.


(** X19. A hold set through the API stops the all-servos endpoint on that
    channel but not the single-servo endpoint, which calls
    [set_servo_position] without looking at the hold or lock flags: after
    the hold request, an all-servos request leaves the stored angle of the
    channel as it was, and a single-servo request stores the requested
    angle constrained to 0..180. *)
Theorem api_hold_and_moves (channel angle : Z) (hw : Hardware.state)
    (g : WebInterface.globals) :
  Engine.well_formed hw ->
  channel ∈ Config.SERVO_CHANNELS ->
  let held := snd (WebInterface.toggle_hold channel (WebInterface.Flag true)
                     (hw, g)) in
  Hardware.servo_positions
    (fst (Py.exec (WebInterface.control_all_servos
                     (WebInterface.Angle (Py.Ret angle))) held)) !! channel
  = Hardware.servo_positions hw !! channel /\
  Hardware.servo_positions
    (fst (Py.exec (WebInterface.control_servo channel
                     (WebInterface.Angle (Py.Ret angle))) held)) !! channel
  = Some (Hardware.clamp angle).
Proof.
  intros Hwf Hc held.
  destruct (Hwf channel Hc) as ([previous Hp] & _ & [h Hh]).
  assert (Hheld : held = (Hardware.set_hold_state <[channel := true]> hw, g)).
  { subst held.
    rewrite (toggle_hold_configured channel (WebInterface.Flag true) hw g h Hc Hh).
    reflexivity. }
  rewrite Hheld. set (hw1 := Hardware.set_hold_state <[channel := true]> hw).
  assert (Hh1 : Hardware.hold_state hw1 !! channel = Some true)
    by (subst hw1; cbn [Hardware.hold_state Hardware.set_hold_state];
        apply lookup_insert_eq).
  assert (Hp1 : Hardware.servo_positions hw1 !! channel = Some previous)
    by exact Hp.
  split.
  - unfold Py.exec, WebInterface.control_all_servos, Py.try_except, Py.bind,
      Py.lift, WebInterface.hardware.
    pose proof (move_all_servos_effect angle hw1) as (Hhold & Hlock & _).
    assert (Hkeep : Hardware.servo_positions
                      (Py.exec (Hardware.move_all_servos angle) hw1) !! channel
                    = Hardware.servo_positions hw1 !! channel).
    { destruct (Hardware.lock_state hw1) eqn:Hl.
      - unfold Py.exec. rewrite move_all_servos_locked by exact Hl. reflexivity.
      - assert (Hwf1 : Engine.well_formed hw1).
        { intros c Hcc. destruct (Hwf c Hcc) as (H1 & H2 & H3).
          split; [exact H1|]. split; [exact H2|].
          subst hw1. cbn [Hardware.hold_state Hardware.set_hold_state].
          destruct (decide (c = channel)) as [->|Hne].
          - rewrite lookup_insert_eq. eauto.
          - rewrite lookup_insert_ne by congruence. exact H3. }
        rewrite (move_all_servos_positions angle hw1 Hwf1 Hl).
        rewrite bool_decide_eq_false_2; [reflexivity|].
        intros [_ Hf]. congruence. }
    unfold Py.exec in Hkeep.
    destruct (Hardware.move_all_servos angle hw1) as [[r|x] hw2];
      cbn [fst snd] in *; exact Hkeep.
  - apply in_channels_iff in Hc.
    destruct (control_servo_accepts channel angle previous hw1 g Hc Hp1)
      as [pulse Heq].
    unfold Py.exec. rewrite Heq. cbn [fst snd].
    rewrite positioned_positions. apply lookup_insert_eq.
Qed.

Lemma api_hold_and_moves_witness :
  let hw := Hardware.initial false false in
  let g := WebInterface.loaded hw in
  let held := snd (WebInterface.toggle_hold 3 (WebInterface.Flag true) (hw, g)) in
  Engine.well_formed hw /\
  3 ∈ Config.SERVO_CHANNELS /\
  Hardware.servo_positions
    (fst (Py.exec (WebInterface.control_all_servos
                     (WebInterface.Angle (Py.Ret 10))) held)) !! 3
  = Hardware.servo_positions hw !! 3 /\
  Hardware.servo_positions
    (fst (Py.exec (WebInterface.control_servo 3
                     (WebInterface.Angle (Py.Ret 10))) held)) !! 3
  = Some (Hardware.clamp 10).
Proof.
  intros hw g held.
  assert (Hwf : Engine.well_formed hw).
  { intros channel H. unfold Config.SERVO_CHANNELS in H.
    repeat (apply elem_of_cons in H as [->|H];
            [repeat split; vm_compute; eauto|]).
    inversion H. }
  assert (H3 : 3 ∈ Config.SERVO_CHANNELS) by (repeat constructor).
  split; [exact Hwf|]. split; [exact H3|].
  exact (api_hold_and_moves 3 10 hw g Hwf H3).
Defined.

(** ** The detection of the I2C devices *)

Section DetectFacts.
Import Py Detect.

Variable lib : libraries.


Lemma try_pca_spec (bus_num : Z) (g : globals) :
  exists g',
    try_pca lib bus_num g = (Ret tt, g') /\
    mpu_part g' = mpu_part g /\
    pca_part g'
    = (if PCA9685_AVAILABLE lib && negb (pca_connected g) &&
          pca_answers lib bus_num
       then (true, Some bus_num, Some bus_num) else pca_part g) /\
    frequency_set g'
    = (if PCA9685_AVAILABLE lib && negb (pca_connected g) &&
          pca_answers lib bus_num &&
          returns (set_pwm_freq (probe lib bus_num))
       then bus_num :: frequency_set g else frequency_set g).
Proof.
  unfold try_pca, pca_answers, bind, gets, try_except, lift, modify, ret.
  destruct (PCA9685_AVAILABLE lib); cbn [andb]; [|eauto].
  destruct (pca_connected g) eqn:Hc; cbn [negb andb]; [eauto|].
  destruct (open_pca (probe lib bus_num)) as [[]|e]; cbn [returns andb];
    [|eauto].
  destruct (set_pwm_freq (probe lib bus_num)) as [[]|e]; cbn [returns];
    eexists; (split; [reflexivity|]); auto.
Qed.

Lemma try_mpu_spec (bus_num : Z) (g : globals) :
  exists g',
    try_mpu lib bus_num g = (Ret tt, g') /\
    pca_part g' = pca_part g /\
    frequency_set g' = frequency_set g /\
    mpu_part g'
    = (if MPU6050_AVAILABLE lib && negb (mpu_connected g) &&
          mpu_answers lib bus_num
       then (true, Some bus_num, Some bus_num) else mpu_part g).
Proof.
  unfold try_mpu, mpu_answers, bind, gets, try_except, lift, modify, ret.
  destruct (MPU6050_AVAILABLE lib); cbn [andb]; [|eauto].
  destruct (mpu_connected g) eqn:Hc; cbn [negb andb]; [eauto|].
  destruct (open_mpu (probe lib bus_num)) as [[]|e]; cbn [returns andb];
    [|eauto].
  destruct (get_temp (probe lib bus_num)) as [t|e]; cbn [returns];
    eexists; (split; [reflexivity|]); auto.
Qed.

Lemma loop_spec (buses : list Z) :
  forall g,
    exists g',
      for_each buses
        (fun bus_num => run try_pca lib bus_num ;; try_mpu lib bus_num) g
      = (Ret tt, g') /\
      pca_part g'
      = (if PCA9685_AVAILABLE lib && negb (pca_connected g)
         then match find (pca_answers lib) buses with
              | Some b => (true, Some b, Some b)
              | None => pca_part g
              end
         else pca_part g) /\
      mpu_part g'
      = (if MPU6050_AVAILABLE lib && negb (mpu_connected g)
         then match find (mpu_answers lib) buses with
              | Some b => (true, Some b, Some b)
              | None => mpu_part g
              end
         else mpu_part g) /\
      frequency_set g'
      = (if PCA9685_AVAILABLE lib && negb (pca_connected g)
         then match find (pca_answers lib) buses with
              | Some b =>
                  if returns (set_pwm_freq (probe lib b))
                  then b :: frequency_set g else frequency_set g
              | None => frequency_set g
              end
         else frequency_set g).
Proof.
  induction buses as [|b rest IH]; intros g.
  - exists g. cbn [for_each find]. unfold ret.
    destruct (PCA9685_AVAILABLE lib && negb (pca_connected g));
      destruct (MPU6050_AVAILABLE lib && negb (mpu_connected g)); auto.
  - cbn [for_each find].
    destruct (try_pca_spec b g) as (g1 & H1 & Hm1 & Hp1 & Hf1).
    destruct (try_mpu_spec b g1) as (g2 & H2 & Hp2 & Hf2 & Hm2).
    destruct (IH g2) as (g3 & H3 & Hp3 & Hm3 & Hf3).
    exists g3. split.
    { unfold bind at 1. unfold bind at 1. rewrite H1, H2. exact H3. }
    assert (Epc : pca_connected g2 = fst (fst (pca_part g2))) by reflexivity.
    assert (Emc : mpu_connected g2 = fst (fst (mpu_part g2))) by reflexivity.
    assert (Emc1 : mpu_connected g1 = fst (fst (mpu_part g1))) by reflexivity.
    rewrite Hp3, Hm3, Hf3, Epc, Emc, Hp2, Hm2, Hf2, Emc1, Hp1, Hm1, Hf1.
    clear. unfold pca_part, mpu_part.
    destruct (PCA9685_AVAILABLE lib), (MPU6050_AVAILABLE lib),
      (pca_connected g), (mpu_connected g),
      (pca_answers lib b), (mpu_answers lib b);
      cbn [andb negb fst snd];
      destruct (find (pca_answers lib) rest), (find (mpu_answers lib) rest);
      destruct (returns (set_pwm_freq (probe lib b)));
      auto.
Qed.

Lemma detect_spec :
  let out := detect_i2c_devices lib loaded in
  fst out = Ret (pca_connected (snd out), mpu_connected (snd out)) /\
  pca_part (snd out)
  = (if PCA9685_AVAILABLE lib
     then match find (pca_answers lib) I2C_BUSES with
          | Some b => (true, Some b, Some b)
          | None => (false, None, None)
          end
     else (false, None, None)) /\
  mpu_part (snd out)
  = (if MPU6050_AVAILABLE lib
     then match find (mpu_answers lib) I2C_BUSES with
          | Some b => (true, Some b, Some b)
          | None => (false, None, None)
          end
     else (false, None, None)) /\
  frequency_set (snd out)
  = (if PCA9685_AVAILABLE lib
     then match find (pca_answers lib) I2C_BUSES with
          | Some b => if returns (set_pwm_freq (probe lib b)) then [b] else []
          | None => []
          end
     else []).
Proof.
  destruct (loop_spec I2C_BUSES loaded) as (g1 & H1 & Hp & Hm & Hf).
  unfold pca_part, mpu_part in *.
  cbn [loaded pca_connected mpu_connected pca_bus mpu_bus pwm mpu negb
       frequency_set] in Hp, Hm, Hf.
  rewrite !andb_true_r in Hp, Hm, Hf.
  set (g2 := if negb (pca_connected g1) then print NoPca g1 else g1).
  set (g3 := if negb (mpu_connected g2) then print NoMpu g2 else g2).
  assert (Hout : detect_i2c_devices lib loaded
                 = (Ret (pca_connected g3, mpu_connected g3), g3)).
  { unfold detect_i2c_devices. unfold bind at 1. rewrite H1.
    unfold bind, gets, modify, ret. subst g3 g2.
    destruct (pca_connected g1), (mpu_connected g1) eqn:E; cbn [negb];
      cbn [print mpu_connected]; rewrite ?E; reflexivity. }
  cbv zeta. rewrite Hout. cbn [fst snd].
  assert (E3 : pca_connected g3 = pca_connected g1 /\
               pca_bus g3 = pca_bus g1 /\ pwm g3 = pwm g1 /\
               mpu_connected g3 = mpu_connected g1 /\
               mpu_bus g3 = mpu_bus g1 /\ mpu g3 = mpu g1 /\
               frequency_set g3 = frequency_set g1).
  { subst g3 g2. clear. destruct g1 as [pc mc pb mb pw mp fs co].
    destruct pc, mc; cbn; auto 10. }
  destruct E3 as (-> & -> & -> & -> & -> & -> & ->).
  rewrite Hp, Hm, Hf. auto.
Qed.

End DetectFacts.

(** X20. [detect_i2c_devices] never raises and returns the two connection
    flags. The PCA9685 is taken on the first bus of [I2C_BUSES] whose
    constructor goes through, and on none when the library is missing or
    no constructor goes through; [pwm] is the instance of that bus and
    [pca_connected] tells whether there is one. A failure of
    [set_pwm_freq] on that bus does not undo the connection: the device
    counts as connected with its frequency never set. *)
Theorem detect_first_pca_bus (lib : Detect.libraries) :
  let out := Detect.detect_i2c_devices lib Detect.loaded in
  let g := snd out in
  fst out = Py.Ret (Detect.pca_connected g, Detect.mpu_connected g) /\
  Detect.pca_bus g
  = (if Detect.PCA9685_AVAILABLE lib
     then find (Detect.pca_answers lib) Detect.I2C_BUSES else None) /\
  Detect.pwm g = Detect.pca_bus g /\
  Detect.pca_connected g = bool_decide (is_Some (Detect.pca_bus g)) /\
  Detect.frequency_set g
  = match Detect.pca_bus g with
    | Some b =>
        if Py.returns (Detect.set_pwm_freq (Detect.probe lib b)) then [b] else []
    | None => []
    end.
Proof.
  intros out g.
  destruct (detect_spec lib) as (Hr & Hp & _ & Hf).
  fold out in Hr, Hp, Hf. fold g in Hr, Hp, Hf.
  split; [exact Hr|]. rewrite Hf.
  destruct (Detect.PCA9685_AVAILABLE lib);
    [destruct (find (Detect.pca_answers lib) Detect.I2C_BUSES)|];
    injection Hp as -> -> ->; auto.
Qed.

(** X21. The MPU6050 is taken on the first bus of [I2C_BUSES] on which
    both the constructor and the temperature reading go through: a bus
    whose constructor answers but whose [get_temp] raises is passed over,
    and the next bus is tried. [mpu] is the instance of that bus and
    [mpu_connected] tells whether there is one; what the PCA9685 answers
    plays no part. *)
Theorem detect_first_mpu_bus (lib : Detect.libraries) :
  let g := snd (Detect.detect_i2c_devices lib Detect.loaded) in
  Detect.mpu_bus g
  = (if Detect.MPU6050_AVAILABLE lib
     then find (Detect.mpu_answers lib) Detect.I2C_BUSES else None) /\
  Detect.mpu g = Detect.mpu_bus g /\
  Detect.mpu_connected g = bool_decide (is_Some (Detect.mpu_bus g)).
Proof.
  intros g.
  destruct (detect_spec lib) as (_ & _ & Hm & _). fold g in Hm.
  destruct (Detect.MPU6050_AVAILABLE lib);
    [destruct (find (Detect.mpu_answers lib) Detect.I2C_BUSES)|];
    injection Hm as -> -> ->; auto.
Qed.

(** ** The update thread *)

Section UpdateThread.
Import Py Main.


End UpdateThread.


(** ** Finding the controller *)

Section FinderFacts.
Import Py Finder.
Local Open Scope string_scope.

Lemma prefix_app (a b h : string) :
  String.prefix (a ++ b) h = true -> String.prefix a h = true.
Proof.
  revert h. induction a as [|c a IH]; intros h H.
  - destruct h; reflexivity.
  - destruct h as [|d h]; simpl in H |- *; [discriminate|].
    destruct (Ascii.ascii_dec c d); [|discriminate]. apply IH, H.
Qed.

Lemma occurs_tail (b : string) (c : Ascii.ascii) (h : string) :
  occurs b h = true -> occurs b (String c h) = true.
Proof. intros H. cbn [occurs]. rewrite H. apply orb_true_r. Qed.

Lemma prefix_occurs_right (a b h : string) :
  String.prefix (a ++ b) h = true -> occurs b h = true.
Proof.
  revert h. induction a as [|c a IH]; intros h H.
  - change (String.prefix b h = true) in H.
    destruct h; cbn [occurs]; rewrite H; reflexivity.
  - destruct h as [|d h]; simpl in H; [discriminate|].
    destruct (Ascii.ascii_dec c d); [|discriminate].
    apply occurs_tail, IH, H.
Qed.

Lemma occurs_app (a b h : string) :
  occurs (a ++ b) h = true -> occurs a h = true /\ occurs b h = true.
Proof.
  induction h as [|c h IH]; cbn [occurs]; rewrite !orb_false_r || idtac.
  - intros H. split.
    + rewrite (prefix_app a b _ H). reflexivity.
    + pose proof (prefix_occurs_right a b _ H) as Hb. cbn [occurs] in Hb.
      rewrite orb_false_r in Hb. exact Hb.
  - intros H. apply orb_true_iff in H as [H|H].
    + split.
      * rewrite (prefix_app a b _ H). reflexivity.
      * pose proof (prefix_occurs_right a b _ H) as Hb. cbn [occurs] in Hb.
        exact Hb.
    + destruct (IH H) as [Ha Hb]. rewrite Ha, Hb, !orb_true_r. auto.
Qed.

Lemma open_all_names (sys : system) (paths : list string) :
  (exists devices,
     open_all sys paths = Ret devices /\ map fst devices = paths /\
     forall path name, In (path, name) devices ->
       open_device sys path = Ret name) \/
  (exists e path, open_all sys paths = Raise e /\ In path paths /\
                  open_device sys path = Raise e).
Proof.
  induction paths as [|path rest IH]; cbn [open_all].
  - left. exists []. repeat split. intros path name [].
  - destruct (open_device sys path) as [name|e] eqn:Ho; cbn [obind].
    + destruct IH as [(devices & -> & Hm & Hn)|(e & p & -> & Hin & Hp)];
        cbn [obind].
      * left. exists ((path, name) :: devices). split; [reflexivity|].
        split; [cbn; congruence|].
        intros p n [[= <- <-]|Hin]; [exact Ho|apply Hn, Hin].
      * right. exists e, p. split; [reflexivity|]. split; [right; exact Hin|exact Hp].
    + right. exists e, path. split; [reflexivity|]. split; [left; reflexivity|exact Ho].
Qed.

Lemma scan_spec (devices : list (string * string)) (g : ControllerInput.globals) :
  scan devices g
  = match find (fun d => bool_decide (is_Some (kind_of_listed (snd d)))) devices with
    | Some (path, name) =>
        match kind_of_listed name with
        | Some k => (Ret (Some path), connect k g)
        | None => (Ret None, g)
        end
    | None => (Ret None, g)
    end.
Proof.
  induction devices as [|[path name] rest IH]; [reflexivity|].
  cbn [scan find snd].
  destruct (kind_of_listed name) as [k|] eqn:Hk.
  - rewrite bool_decide_eq_true_2 by eauto. rewrite Hk. reflexivity.
  - rewrite bool_decide_eq_false_2 by (intros [k Hx]; discriminate).
    exact IH.
Qed.

Lemma find_detection (sys : system) (g : ControllerInput.globals) :
  find_game_controller sys None g
  = match list_devices sys with
    | Ret paths =>
        match open_all sys paths with
        | Ret devices => scan devices g
        | Raise _ => (Ret None, g)
        end
    | Raise _ => (Ret None, g)
    end.
Proof.
  unfold find_game_controller, try_except, bind, lift, ret.
  destruct (list_devices sys) as [paths|e]; [|reflexivity].
  destruct (open_all sys paths) as [devices|e]; [|reflexivity].
  rewrite scan_spec.
  destruct (find _ devices) as [[path name]|]; [|reflexivity].
  destruct (kind_of_listed name); reflexivity.
Qed.

End FinderFacts.

(** X23. With a device path that is not empty and that [InputDevice]
    opens, [find_game_controller] returns that device and marks the
    controller connected, whatever its name: a name with neither
    "PLAYSTATION", "PlayStation" nor "Xbox" gives the kind Generic. The
    detection is not run. *)
Theorem find_given_device (sys : Finder.system) (path name : string)
    (g : ControllerInput.globals) :
  path <> EmptyString ->
  Finder.open_device sys path = Py.Ret name ->
  Finder.find_game_controller sys (Some path) g
  = (Py.Ret (Some path), Finder.connect (Finder.kind_of_given name) g).
Proof.
  intros Hne Ho. unfold Finder.find_game_controller.
  assert (E : String.eqb path "" = false) by (apply String.eqb_neq; exact Hne).
  rewrite E. cbn [negb].
  unfold Py.try_except, Py.bind, Py.lift, Py.modify, Py.ret.
  rewrite Ho. reflexivity.
Qed.

Lemma find_given_device_witness :
  let sys := Finder.System (Py.Ret [])
               (fun _ => Py.Ret "USB Gamepad"%string) in
  let g := ControllerInput.loaded None (Hardware.initial false false) in
  "/dev/input/event5"%string <> EmptyString /\
  Finder.open_device sys "/dev/input/event5" = Py.Ret "USB Gamepad"%string /\
  Finder.find_game_controller sys (Some "/dev/input/event5"%string) g
  = (Py.Ret (Some "/dev/input/event5"%string),
     Finder.connect ControllerInput.Generic g).
Proof.
  intros sys g.
  assert (H1 : "/dev/input/event5"%string <> EmptyString) by discriminate.
  assert (H2 : Finder.open_device sys "/dev/input/event5"
               = Py.Ret "USB Gamepad"%string) by reflexivity.
  split; [exact H1|]. split; [exact H2|].
  exact (find_given_device sys "/dev/input/event5" "USB Gamepad" g H1 H2).
Defined.

(** X24. Without a device path, once the list of devices is obtained:
    when every listed device opens, [find_game_controller] returns the
    first one, in the order of the list, whose name has "PLAYSTATION",
    "PlayStation" or "Xbox" in it, with its kind, and [None] when there is
    none, the globals staying as they were. When one listed device fails
    to open, whichever it is, it returns [None] and leaves the globals as
    they were, even if a controller is listed. *)
Theorem find_detected_device (sys : Finder.system) (paths : list string)
    (g : ControllerInput.globals) :
  Finder.list_devices sys = Py.Ret paths ->
  ((forall path, In path paths ->
      Py.returns (Finder.open_device sys path) = true) ->
   exists devices,
     map fst devices = paths /\
     (forall path name, In (path, name) devices ->
        Finder.open_device sys path = Py.Ret name) /\
     Finder.find_game_controller sys None g
     = match find (fun d => bool_decide
                              (is_Some (Finder.kind_of_listed (snd d))))
                  devices with
       | Some (path, name) =>
           match Finder.kind_of_listed name with
           | Some k => (Py.Ret (Some path), Finder.connect k g)
           | None => (Py.Ret None, g)
           end
       | None => (Py.Ret None, g)
       end) /\
  ((exists path, In path paths /\
      Py.returns (Finder.open_device sys path) = false) ->
   Finder.find_game_controller sys None g = (Py.Ret None, g)).
Proof.
  intros Hl. rewrite find_detection, Hl.
  destruct (open_all_names sys paths)
    as [(devices & Hopen & Hm & Hn)|(e & p & Hopen & Hin & Hp)];
    rewrite Hopen.
  - split.
    + intros _. exists devices. split; [exact Hm|]. split; [exact Hn|].
      rewrite scan_spec.
      destruct (find _ devices) as [[path name]|]; [|reflexivity].
      destruct (Finder.kind_of_listed name); reflexivity.
    + intros (path & Hin & Hr). exfalso.
      rewrite <- Hm in Hin. apply in_map_iff in Hin as ([p n] & <- & Hin).
      cbn [fst] in Hr. rewrite (Hn p n Hin) in Hr. discriminate Hr.
  - split.
    + intros Hall. specialize (Hall p Hin). rewrite Hp in Hall. discriminate.
    + intros _. reflexivity.
Qed.

Lemma find_detected_device_witness :
  let paths := ["/dev/input/event0"; "/dev/input/event1"]%string in
  let sys := Finder.System (Py.Ret paths)
               (fun path => if String.eqb path "/dev/input/event0"
                            then Py.Raise Py.OSError
                            else Py.Ret "Microsoft Xbox Controller"%string) in
  let g := ControllerInput.loaded None (Hardware.initial false false) in
  Finder.list_devices sys = Py.Ret paths /\
  Finder.find_game_controller sys None g = (Py.Ret None, g).
Proof.
  intros paths sys g.
  assert (H : Finder.list_devices sys = Py.Ret paths) by reflexivity.
  split; [exact H|].
  apply (proj2 (find_detected_device sys paths g H)).
  exists "/dev/input/event0"%string. split; [left; reflexivity|reflexivity].
Defined.

(** X25. The two classifications agree on the button family: for a name
    that the detection accepts, the kind given to the same device at a
    given path is a PlayStation kind exactly when the detected kind is
    one; and a name detected as PS3 or as Xbox gets that same kind. *)
Theorem classifications_agree (name : string) (k : ControllerInput.kind) :
  Finder.kind_of_listed name = Some k ->
  ControllerInput.is_playstation (Some (Finder.kind_of_given name))
  = ControllerInput.is_playstation (Some k) /\
  (k = ControllerInput.PS3 -> Finder.kind_of_given name = ControllerInput.PS3) /\
  (k = ControllerInput.Xbox -> Finder.kind_of_given name = ControllerInput.Xbox).
Proof.
  unfold Finder.kind_of_listed, Finder.kind_of_given.
  destruct (Finder.occurs "PLAYSTATION(R)3" name) eqn:E1.
  - change "PLAYSTATION(R)3"%string
      with ("PLAYSTATION" ++ ("(R)" ++ "3"))%string in E1.
    apply occurs_app in E1 as [Ha Hb]. apply occurs_app in Hb as [_ H3].
    rewrite Ha, H3. cbn [orb]. intros [= <-].
    repeat split; first [reflexivity|discriminate].
  - destruct (Finder.occurs "PlayStation 3" name) eqn:E2.
    + change "PlayStation 3"%string
        with ("PlayStation" ++ (" " ++ "3"))%string in E2.
      apply occurs_app in E2 as [Ha Hb]. apply occurs_app in Hb as [_ H3].
      rewrite Ha, H3, !orb_true_r. cbn [orb]. intros [= <-].
      repeat split; first [reflexivity|discriminate].
    + cbn [orb].
      destruct (Finder.occurs "PLAYSTATION" name || Finder.occurs "PlayStation" name).
      * intros [= <-]. destruct (Finder.occurs "3" name);
          repeat split; first [reflexivity|discriminate].
      * destruct (Finder.occurs "Xbox" name); [|discriminate].
        intros [= <-]. repeat split; first [reflexivity|discriminate].
Qed.

Lemma classifications_agree_witness :
  Finder.kind_of_listed "Sony PLAYSTATION(R)3 Controller"
  = Some ControllerInput.PS3 /\
  Finder.kind_of_given "Sony PLAYSTATION(R)3 Controller" = ControllerInput.PS3.
Proof.
  assert (H : Finder.kind_of_listed "Sony PLAYSTATION(R)3 Controller"
              = Some ControllerInput.PS3) by (vm_compute; reflexivity).
  split; [exact H|].
  exact (proj1 (proj2 (classifications_agree
                         "Sony PLAYSTATION(R)3 Controller" ControllerInput.PS3 H))
               eq_refl).
Defined.

(** ** Directions and reports *)

(** X26. The direction that [set_servo_position] stores never points
    against the move. On a configured channel whose stored angle lies
    within 0..180, after a call with any integer angle: "up" or "right"
    means that the stored angle did not decrease, "down" or "left" that it
    did not increase, and "neutral" that it is unchanged; channels 1 and 2
    get "up" and "down", the others "right" and "left". *)
Theorem direction_agrees_with_move (channel angle previous : Z)
    (s : Hardware.state) :
  channel ∈ Config.SERVO_CHANNELS ->
  Hardware.servo_positions s !! channel = Some previous ->
  0 <= previous <= 180 ->
  let s' := Py.exec (Hardware.set_servo_position channel angle) s in
  exists now d,
    Hardware.servo_positions s' !! channel = Some now /\
    Hardware.servo_directions s' !! channel = Some d /\
    match d with
    | Hardware.up => previous <= now /\ (channel = 1 \/ channel = 2)
    | Hardware.down => now <= previous /\ (channel = 1 \/ channel = 2)
    | Hardware.right => previous <= now /\ (channel = 0 \/ channel = 3)
    | Hardware.left => now <= previous /\ (channel = 0 \/ channel = 3)
    | Hardware.neutral => now = previous
    end.
Proof.
  intros Hc Hp Hr s'.
  assert (Hin := proj2 (in_channels_iff channel) Hc).
  destruct (set_servo_position_known channel angle previous s Hin Hp)
    as (pulse & _ & Hset).
  subst s'. unfold Py.exec. rewrite Hset. cbn [snd].
  exists (Hardware.clamp angle), (Hardware.direction_of channel angle previous).
  rewrite positioned_positions, positioned_directions, !lookup_insert_eq.
  split; [reflexivity|]. split; [reflexivity|].
  unfold Hardware.direction_of, Hardware.clamp.
  unfold Config.SERVO_CHANNELS in Hc.
  destruct (angle >? previous) eqn:Hgt.
  - apply Z.gtb_lt in Hgt.
    repeat (apply elem_of_cons in Hc as [->|Hc];
            [cbn; split; [lia|auto]|]).
    inversion Hc.
  - destruct (angle <? previous) eqn:Hlt.
    + apply Z.ltb_lt in Hlt.
      repeat (apply elem_of_cons in Hc as [->|Hc];
              [cbn; split; [lia|auto]|]).
      inversion Hc.
    + apply Z.ltb_ge in Hlt.
      assert (angle <= previous)
        by (destruct (Z.gtb_spec angle previous); [discriminate|lia]).
      lia.
Qed.

Lemma direction_agrees_with_move_witness :
  let s := Hardware.initial false false in
  let s' := Py.exec (Hardware.set_servo_position 1 200) s in
  1 ∈ Config.SERVO_CHANNELS /\
  Hardware.servo_positions s !! 1 = Some 90 /\
  0 <= 90 <= 180 /\
  exists now d,
    Hardware.servo_positions s' !! 1 = Some now /\
    Hardware.servo_directions s' !! 1 = Some d /\
    match d with
    | Hardware.up => 90 <= now /\ (1 = 1 \/ 1 = 2)
    | Hardware.down => now <= 90 /\ (1 = 1 \/ 1 = 2)
    | Hardware.right => 90 <= now /\ (1 = 0 \/ 1 = 3)
    | Hardware.left => now <= 90 /\ (1 = 0 \/ 1 = 3)
    | Hardware.neutral => now = 90
    end.
Proof.
  intros s s'.
  assert (H1 : 1 ∈ Config.SERVO_CHANNELS) by (repeat constructor).
  assert (H2 : Hardware.servo_positions s !! 1 = Some 90) by reflexivity.
  assert (H3 : 0 <= 90 <= 180) by lia.
  split; [exact H1|]. split; [exact H2|]. split; [exact H3|].
  exact (direction_agrees_with_move 1 200 90 s H1 H2 H3).
Defined.

(** X27. With the lock flag clear, on a configured channel that is not
    held, [move_servo] with a raw value of the device range returns the
    pair of the angle stored before and the angle stored now, which is
    floor((raw + 32767) * 180 / 65534); with a raw value beyond the range
    the second component can differ from what is stored: 40000 reports 199
    and stores 180. *)
Theorem move_servo_reports (channel raw previous : Z) (s : Hardware.state) :
  channel ∈ Config.SERVO_CHANNELS ->
  Hardware.lock_state s = false ->
  Hardware.hold_state s !! channel = Some false ->
  Hardware.servo_positions s !! channel = Some previous ->
  (-32767 <= raw <= 32767 ->
   let angle := (raw + 32767) * 180 / 65534 in
   Py.result (Hardware.move_servo channel raw) s
   = Py.Ret (Some (previous, angle)) /\
   Hardware.servo_positions (Py.exec (Hardware.move_servo channel raw) s)
   !! channel = Some angle) /\
  Py.result (Hardware.move_servo channel 40000) s
  = Py.Ret (Some (previous, 199)) /\
  Hardware.servo_positions (Py.exec (Hardware.move_servo channel 40000) s)
  !! channel = Some 180.
Proof.
  intros Hc Hl Hh Hp.
  assert (Hin := proj2 (in_channels_iff channel) Hc).
  assert (Hmove : forall value angle,
    Hardware.joystick_to_angle value = Py.Ret angle ->
    Py.result (Hardware.move_servo channel value) s
    = Py.Ret (Some (previous, angle)) /\
    Hardware.servo_positions (Py.exec (Hardware.move_servo channel value) s)
    !! channel = Some (Hardware.clamp angle)).
  { intros value angle Hj.
    destruct (set_servo_position_known channel angle previous s Hin Hp)
      as (pulse & _ & Hset).
    unfold Py.result, Py.exec, Hardware.move_servo, Py.bind, Py.gets, Py.ret,
      Py.lift, Py.getitem.
    rewrite Hl, Hh, Hp, Hj, Hset. cbn [fst snd].
    rewrite positioned_positions, lookup_insert_eq. auto. }
  split.
  - intros Hr angle.
    destruct (Hmove raw angle (joystick_to_angle_value raw Hr)) as [H1 H2].
    split; [exact H1|]. rewrite H2. f_equal. apply clamp_id.
    subst angle. split.
    + apply Z.div_pos; lia.
    + apply Z.div_le_upper_bound; lia.
  - apply (Hmove 40000 199). vm_compute. reflexivity.
Qed.

Lemma move_servo_reports_witness :
  let s := Hardware.initial false false in
  0 ∈ Config.SERVO_CHANNELS /\
  Hardware.lock_state s = false /\
  Hardware.hold_state s !! 0 = Some false /\
  Hardware.servo_positions s !! 0 = Some 90 /\
  Py.result (Hardware.move_servo 0 40000) s = Py.Ret (Some (90, 199)) /\
  Hardware.servo_positions (Py.exec (Hardware.move_servo 0 40000) s) !! 0
  = Some 180.
Proof.
  intros s.
  assert (H1 : 0 ∈ Config.SERVO_CHANNELS) by (repeat constructor).
  assert (H2 : Hardware.lock_state s = false) by reflexivity.
  assert (H3 : Hardware.hold_state s !! 0 = Some false) by reflexivity.
  assert (H4 : Hardware.servo_positions s !! 0 = Some 90) by reflexivity.
  split; [exact H1|]. split; [exact H2|]. split; [exact H3|]. split; [exact H4|].
  exact (proj2 (move_servo_reports 0 0 90 s H1 H2 H3 H4)).
Defined.

